(** * MyPlanner: a shallow embedding of [src/App.tsx] (the [App]
      component's task, category, drag-and-drop, filter, reminder and modal
      handlers and the [CalendarView] component), of the [TaskStats]
      component and of the ECMAScript [Date] operations they call.

    JavaScript Numbers that reach the calendar code are integral or NaN;
    they are modelled as [option Z] with [None] for NaN.  A [Date] object is
    its time value (milliseconds since the epoch, UTC) or NaN for an
    Invalid Date.  The host's local time zone adjustment is a parameter
    [tza] (a constant offset in milliseconds). *)

From Stdlib Require Import ZArith List String Ascii Bool Lia.
From Stdlib Require Import Permutation Sorted.
Import ListNotations.

Open Scope Z_scope.

(** ** Exceptions *)

Inductive JsError : Set := RangeError | TypeError.

Inductive JsResult (A : Type) : Type :=
| Ok (a : A)
| Throw (e : JsError).

Arguments Ok {A} a.
Arguments Throw {A} e.

Definition bind {A B : Type} (r : JsResult A) (k : A -> JsResult B) : JsResult B :=
  match r with
  | Ok a => k a
  | Throw e => Throw e
  end.

Notation "x <- r ;; k" := (bind r (fun x => k))
  (at level 61, r at next level, right associativity).

Fixpoint mapM {A B : Type} (f : A -> JsResult B) (l : list A) : JsResult (list B) :=
  match l with
  | [] => Ok []
  | a :: l' => b <- f a ;; bs <- mapM f l' ;; Ok (b :: bs)
  end.

(** ** ECMAScript time values (ECMA-262, "Time Values and Time Range") *)

Module Time.

Definition msPerDay : Z := 86400000.
Definition maxTime : Z := 8640000000000000.

Definition Day (t : Z) : Z := t / msPerDay.
Definition TimeWithinDay (t : Z) : Z := t mod msPerDay.

Definition DaysInYear (y : Z) : Z :=
  if negb (y mod 4 =? 0) then 365
  else if negb (y mod 100 =? 0) then 366
  else if negb (y mod 400 =? 0) then 365
  else 366.

Definition DayFromYear (y : Z) : Z :=
  365 * (y - 1970) + (y - 1969) / 4 - (y - 1901) / 100 + (y - 1601) / 400.

Definition TimeFromYear (y : Z) : Z := msPerDay * DayFromYear y.

(** The largest [y] with [DayFromYear y <= d]: the quotient by the mean
    year length is at most one off. *)
Definition YearFromDay (d : Z) : Z :=
  let y := 1970 + (d * 400) / 146097 in
  if DayFromYear (y + 1) <=? d then y + 1
  else if DayFromYear y <=? d then y
  else y - 1.

Definition YearFromTime (t : Z) : Z := YearFromDay (Day t).

Definition leapOfYear (y : Z) : Z := if DaysInYear y =? 366 then 1 else 0.

Definition InLeapYear (t : Z) : Z := leapOfYear (YearFromTime t).

Definition DayWithinYear (t : Z) : Z := Day t - DayFromYear (YearFromTime t).

(** The month table of [MonthFromTime], on the day within the year [d]
    and the leap flag [l]. *)
Definition monthOfDay (l d : Z) : Z :=
  if d <? 31 then 0
  else if d <? 59 + l then 1
  else if d <? 90 + l then 2
  else if d <? 120 + l then 3
  else if d <? 151 + l then 4
  else if d <? 181 + l then 5
  else if d <? 212 + l then 6
  else if d <? 243 + l then 7
  else if d <? 273 + l then 8
  else if d <? 304 + l then 9
  else if d <? 334 + l then 10
  else 11.

(** Day number, within its year, of the first day of month [m] (0..11);
    [m = 12] gives the length of the year. *)
Definition monthStart (l : Z) (m : Z) : Z :=
  if m <=? 0 then 0
  else if m =? 1 then 31
  else if m =? 2 then 59 + l
  else if m =? 3 then 90 + l
  else if m =? 4 then 120 + l
  else if m =? 5 then 151 + l
  else if m =? 6 then 181 + l
  else if m =? 7 then 212 + l
  else if m =? 8 then 243 + l
  else if m =? 9 then 273 + l
  else if m =? 10 then 304 + l
  else if m =? 11 then 334 + l
  else 365 + l.

Definition MonthFromTime (t : Z) : Z := monthOfDay (InLeapYear t) (DayWithinYear t).

Definition DateFromTime (t : Z) : Z :=
  DayWithinYear t - monthStart (InLeapYear t) (MonthFromTime t) + 1.

Definition WeekDay (t : Z) : Z := (Day t + 4) mod 7.

Definition HourFromTime (t : Z) : Z := (t / 3600000) mod 24.
Definition MinFromTime (t : Z) : Z := (t / 60000) mod 60.
Definition SecFromTime (t : Z) : Z := (t / 1000) mod 60.
Definition msFromTime (t : Z) : Z := t mod 1000.

Definition MakeTime (hour min sec ms : Z) : Z :=
  hour * 3600000 + min * 60000 + sec * 1000 + ms.

(** [MakeDay]: the day number of the first day of month [month mod 12] of
    year [year + month / 12], plus [date - 1]. *)
Definition MakeDay (year month date : Z) : Z :=
  let ym := year + month / 12 in
  let mn := month mod 12 in
  DayFromYear ym + monthStart (leapOfYear ym) mn + date - 1.

Definition MakeDate (day time : Z) : Z := day * msPerDay + time.

Definition TimeClip (t : Z) : option Z :=
  if Z.abs t <=? maxTime then Some t else None.

(** Number of days of month [m] (0..11) of year [y]. *)
Definition daysInMonthOf (y m : Z) : Z :=
  monthStart (leapOfYear y) (m + 1) - monthStart (leapOfYear y) m.

End Time.

(** ** Strings: [split], decimal digits *)

Module Str.

(** [s.split(c)] for a one-character separator: never empty. *)
Fixpoint split (c : ascii) (s : string) : list string :=
  match s with
  | EmptyString => [EmptyString]
  | String a s' =>
      if Ascii.eqb a c then EmptyString :: split c s'
      else match split c s' with
           | h :: t => String a h :: t
           | [] => [String a EmptyString]
           end
  end.

(** [s.split(c)[0]] *)
Definition splitHead (c : ascii) (s : string) : string :=
  hd EmptyString (split c s).

Definition digitChar (n : Z) : ascii :=
  ascii_of_nat (48 + Z.to_nat (n mod 10)).

(** The last [w] decimal digits of [n], zero padded. *)
Fixpoint padDigits (w : nat) (n : Z) : string :=
  match w with
  | O => EmptyString
  | S w' => (padDigits w' (n / 10) ++ String (digitChar n) EmptyString)%string
  end.

Definition digitVal (c : ascii) : option Z :=
  let n := Z.of_nat (nat_of_ascii c) in
  if (48 <=? n) && (n <=? 57) then Some (n - 48) else None.

(** Reads exactly [n] decimal digits, with accumulator [acc]. *)
Fixpoint readDigitsFrom (n : nat) (acc : Z) (s : string) : option (Z * string) :=
  match n with
  | O => Some (acc, s)
  | S n' =>
      match s with
      | EmptyString => None
      | String c s' =>
          match digitVal c with
          | Some v => readDigitsFrom n' (10 * acc + v) s'
          | None => None
          end
      end
  end.

Definition readDigits (n : nat) (s : string) : option (Z * string) :=
  readDigitsFrom n 0 s.

(** The value of a non-empty string of decimal digits. *)
Fixpoint decimalFrom (acc : Z) (s : string) : option Z :=
  match s with
  | EmptyString => Some acc
  | String c s' =>
      match digitVal c with
      | Some v => decimalFrom (10 * acc + v) s'
      | None => None
      end
  end.

Definition decimal (s : string) : option Z :=
  match s with
  | EmptyString => None
  | _ => decimalFrom 0 s
  end.

(** Expects the character [c] at the head of [s]. *)
Definition expect (c : ascii) (s : string) : option string :=
  match s with
  | String a s' => if Ascii.eqb a c then Some s' else None
  | EmptyString => None
  end.

End Str.

(** ** The data model of [src/types.ts] *)

Inductive Priority : Set := LOW | MEDIUM | HIGH | URGENT.
Inductive TaskStatus : Set := TODO | IN_PROGRESS | DONE.
Inductive Recurrence : Set := NONE | DAILY | WEEKLY | MONTHLY.

(** Optional properties are [option]s: [None] is [undefined]. *)
Record Task : Type := mkTask {
  id : string;
  title : string;
  description : option string;
  dueDate : option string;
  startTime : option string;
  endTime : option string;
  priority : Priority;
  status : TaskStatus;
  category : string;
  tags : list string;
  recurrence : Recurrence;
  createdAt : Z
}.

Record Category : Type := mkCategory {
  cat_id : string;
  name : string;
  color : string
}.

(** [Partial<Task>]: every property may be absent. *)
Record PartialTask : Type := mkPartialTask {
  p_id : option string;
  p_title : option string;
  p_description : option string;
  p_dueDate : option string;
  p_startTime : option string;
  p_endTime : option string;
  p_priority : option Priority;
  p_status : option TaskStatus;
  p_category : option string;
  p_tags : option (list string);
  p_recurrence : option Recurrence;
  p_createdAt : option Z
}.

(** [s || dflt] on an optional string: [undefined] and the empty string are
    falsy. *)
Definition orString (s : option string) (dflt : string) : string :=
  match s with
  | None => dflt
  | Some EmptyString => dflt
  | Some v => v
  end.

(** [v || dflt] on an optional value that is truthy whenever present (enum
    members, which are non-empty strings, and arrays). *)
Definition orValue {A : Type} (v : option A) (dflt : A) : A :=
  match v with
  | Some a => a
  | None => dflt
  end.

(** Truthiness of an optional string: [!!s]. *)
Definition truthy (s : option string) : bool :=
  match s with
  | None => false
  | Some EmptyString => false
  | Some _ => true
  end.

(** [handleAddTask] of the [App] component, on the state [tasks] and
    [categories]; [uuid] is the result of [crypto.randomUUID()] and [now] of
    [Date.now()].  The property initialisers are evaluated in source order;
    [categories[0].name] is reached only when [newTask.category] is falsy,
    and reading [.name] of [undefined] throws a TypeError. *)
Definition handleAddTask (categories : list Category) (uuid : string) (now : Z)
    (newTask : PartialTask) (prev : list Task) : JsResult (list Task) :=
  let title' := orString (p_title newTask) "Untitled Task" in
  let description' := orString (p_description newTask) "" in
  let priority' := orValue (p_priority newTask) MEDIUM in
  category' <-
    match p_category newTask with
    | Some (String _ _ as c) => Ok c
    | _ => match categories with
           | c0 :: _ => Ok (name c0)
           | [] => Throw TypeError
           end
    end ;;
  let task := {|
    id := uuid;
    title := title';
    description := Some description';
    dueDate := Some (orString (p_dueDate newTask) "");
    startTime := None;
    endTime := None;
    priority := priority';
    status := TODO;
    category := category';
    tags := orValue (p_tags newTask) [];
    recurrence := orValue (p_recurrence newTask) NONE;
    createdAt := now
  |} in
  Ok (task :: prev).

Inductive ViewMode : Set := Day | Week | Month | Year | Schedule.

Inductive Direction : Set := prev | next.

(** ** [Date] objects *)

(** A Number that is integral or NaN. *)
Definition Num : Type := option Z.

(** A [Date] object: its time value, [None] for an Invalid Date. *)
Definition Date : Type := option Z.

Definition numAdd (a b : Num) : Num :=
  match a, b with
  | Some x, Some y => Some (x + y)
  | _, _ => None
  end.

Definition numSub (a b : Num) : Num :=
  match a, b with
  | Some x, Some y => Some (x - y)
  | _, _ => None
  end.

(** [a === b] on Numbers: NaN equals nothing. *)
Definition numEq (a b : Num) : bool :=
  match a, b with
  | Some x, Some y => x =? y
  | _, _ => false
  end.

(** [a < b] on Numbers: false when either is NaN. *)
Definition numLt (a b : Num) : bool :=
  match a, b with
  | Some x, Some y => x <? y
  | _, _ => false
  end.

Definition option_bind {A B : Type} (o : option A) (k : A -> option B) : option B :=
  match o with
  | Some a => k a
  | None => None
  end.

Notation "' p <-? o ;; k" := (option_bind o (fun p => k))
  (at level 61, p pattern, o at next level, right associativity).

Notation "x <-? o ;; k" := (option_bind o (fun x => k))
  (at level 61, o at next level, right associativity).

(** ** The host environment *)

(** What the calendar code takes from the JavaScript host. *)
Class Host : Type := {
  (** the local time zone adjustment, in milliseconds: a constant offset
      ([LocalTime t = t + tza]), as on a host without daylight-saving
      changes.  On other hosts the adjustment depends on the instant: the
      calendar fields that the [Date] setters produce are the same, but
      across a change the time values differ from those given here by the
      change, and a local time that the change skips is moved. *)
  tza : Z;
  (** what [Date.parse] returns for a string that is not an instance of the
      ECMAScript date-time string format: implementation-defined *)
  legacyParse : string -> option Z;
  (** [Number(s)] for a string that is not a run of 1 to 15 decimal digits
      (signs, exponents, blanks, the empty string, digit runs too long to be
      exact, ...), [None] for NaN *)
  numberOfOther : string -> Num
}.

(** *** A sample host and sample tasks, for the examples *)

(** UTC+05:30, a [Date.parse] with no fallback format, and a [Number] that is
    NaN on everything but plain digit runs. *)
Definition sampleHost : Host :=
  {| tza := 19800000;
     legacyParse := fun _ => None;
     numberOfOther := fun _ => None |}.

(** 2024-01-15 12:00 at UTC+05:30. *)
Definition sampleNoon : Z := 1705300200000.

Definition sampleTask (i due : string) : Task :=
  {| id := i; title := i; description := None; dueDate := Some due;
     startTime := None; endTime := None; priority := MEDIUM; status := TODO;
     category := "Work"; tags := []; recurrence := NONE; createdAt := 0 |}.

Section Host.

Context {host : Host}.

Definition LocalTime (t : Z) : Z := t + tza.
Definition UTC (t : Z) : Z := t - tza.

(** [new Date(year, month, date)]: years 0..99 denote 1900..1999. *)
Definition Date_ymd (year month date : Num) : Date :=
  match year, month, date with
  | Some y, Some m, Some dt =>
      let yr := if (0 <=? y) && (y <=? 99) then 1900 + y else y in
      let finalDate := Time.MakeDate (Time.MakeDay yr m dt) (Time.MakeTime 0 0 0 0) in
      Time.TimeClip (UTC finalDate)
  | _, _, _ => None
  end.

Definition getTime (d : Date) : Num := d.

Definition getFullYear (d : Date) : Num :=
  option_map (fun t => Time.YearFromTime (LocalTime t)) d.

Definition getMonth (d : Date) : Num :=
  option_map (fun t => Time.MonthFromTime (LocalTime t)) d.

Definition getDate (d : Date) : Num :=
  option_map (fun t => Time.DateFromTime (LocalTime t)) d.

Definition getDay (d : Date) : Num :=
  option_map (fun t => Time.WeekDay (LocalTime t)) d.

(** [d.setDate(dt)], returning the updated object. *)
Definition setDate (d : Date) (dt : Num) : Date :=
  match d, dt with
  | Some tv, Some dt =>
      let t := LocalTime tv in
      let newDate :=
        Time.MakeDate (Time.MakeDay (Time.YearFromTime t) (Time.MonthFromTime t) dt)
                      (Time.TimeWithinDay t) in
      Time.TimeClip (UTC newDate)
  | _, _ => None
  end.

(** [d.setMonth(month)] *)
Definition setMonth (d : Date) (month : Num) : Date :=
  match d, month with
  | Some tv, Some m =>
      let t := LocalTime tv in
      let newDate :=
        Time.MakeDate (Time.MakeDay (Time.YearFromTime t) m (Time.DateFromTime t))
                      (Time.TimeWithinDay t) in
      Time.TimeClip (UTC newDate)
  | _, _ => None
  end.

(** [d.setFullYear(year)]: an Invalid Date is restarted from time 0, but
    then [year], read from the same object in [navigate], is NaN as well. *)
Definition setFullYear (d : Date) (year : Num) : Date :=
  match year with
  | Some y =>
      let t := match d with Some tv => LocalTime tv | None => 0 end in
      let newDate :=
        Time.MakeDate (Time.MakeDay y (Time.MonthFromTime t) (Time.DateFromTime t))
                      (Time.TimeWithinDay t) in
      Time.TimeClip (UTC newDate)
  | None => None
  end.

(** [d.setHours(0,0,0,0)] *)
Definition setHours0 (d : Date) : Date :=
  match d with
  | Some tv =>
      let t := LocalTime tv in
      Time.TimeClip (UTC (Time.MakeDate (Time.Day t) (Time.MakeTime 0 0 0 0)))
  | None => None
  end.

(** The year of an ISO string: four digits, or a sign and six digits. *)
Definition isoYearString (y : Z) : string :=
  if (0 <=? y) && (y <=? 9999) then Str.padDigits 4 y
  else if 0 <=? y then String "+" (Str.padDigits 6 y)
  else String "-" (Str.padDigits 6 (- y)).

Definition isoDateString (t : Z) : string :=
  (isoYearString (Time.YearFromTime t) ++ "-" ++
   Str.padDigits 2 (Time.MonthFromTime t + 1) ++ "-" ++
   Str.padDigits 2 (Time.DateFromTime t))%string.

Definition isoTimeString (t : Z) : string :=
  (Str.padDigits 2 (Time.HourFromTime t) ++ ":" ++
   Str.padDigits 2 (Time.MinFromTime t) ++ ":" ++
   Str.padDigits 2 (Time.SecFromTime t) ++ "." ++
   Str.padDigits 3 (Time.msFromTime t))%string.

(** [d.toISOString()]: the UTC fields; a RangeError on an Invalid Date. *)
Definition toISOString (d : Date) : JsResult string :=
  match d with
  | Some t => Ok (isoDateString t ++ "T" ++ isoTimeString t ++ "Z")%string
  | None => Throw RangeError
  end.

(** *** [Date.parse] on the date-time string format *)

Definition parseIsoYear (s : string) : option (Z * string) :=
  match s with
  | String "+" r => Str.readDigits 6 r
  | String "-" r =>
      '(y, r') <-? Str.readDigits 6 r ;;
      if y =? 0 then None else Some (- y, r')
  | _ => Str.readDigits 4 s
  end.

(** [YYYY], [YYYY-MM] or [YYYY-MM-DD]: year, month, day and the rest. *)
Definition parseIsoDate (s : string) : option (Z * Z * Z * string) :=
  '(y, r) <-? parseIsoYear s ;;
  match Str.expect "-" r with
  | None => Some (y, 1, 1, r)
  | Some r1 =>
      '(m, r2) <-? Str.readDigits 2 r1 ;;
      match Str.expect "-" r2 with
      | None => Some (y, m, 1, r2)
      | Some r3 =>
          '(d, r4) <-? Str.readDigits 2 r3 ;;
          Some (y, m, d, r4)
      end
  end.

(** [HH:mm], [HH:mm:ss] or [HH:mm:ss.sss], after the [T]. *)
Definition parseIsoTime (s : string) : option (Z * Z * Z * Z * string) :=
  '(h, r1) <-? Str.readDigits 2 s ;;
  r2 <-? Str.expect ":" r1 ;;
  '(mi, r3) <-? Str.readDigits 2 r2 ;;
  match Str.expect ":" r3 with
  | None => Some (h, mi, 0, 0, r3)
  | Some r4 =>
      '(sec, r5) <-? Str.readDigits 2 r4 ;;
      match Str.expect "." r5 with
      | None => Some (h, mi, sec, 0, r5)
      | Some r6 =>
          '(ms, r7) <-? Str.readDigits 3 r6 ;;
          Some (h, mi, sec, ms, r7)
      end
  end.

(** The UTC offset in milliseconds: absent ([None]), [Z], or [+HH:mm] /
    [-HH:mm]; nothing may follow. *)
Definition parseIsoOffset (s : string) : option (option Z) :=
  match s with
  | EmptyString => Some None
  | String "Z" EmptyString => Some (Some 0)
  | String sign r =>
      sgn <-? (if Ascii.eqb sign "+" then Some 1
               else if Ascii.eqb sign "-" then Some (-1) else None) ;;
      '(h, r1) <-? Str.readDigits 2 r ;;
      r2 <-? Str.expect ":" r1 ;;
      '(mi, r3) <-? Str.readDigits 2 r2 ;;
      match r3 with
      | EmptyString =>
          if (h <=? 23) && (mi <=? 59) then Some (Some (sgn * (h * 3600000 + mi * 60000)))
          else None
      | _ => None
      end
  end.

(** The time value of an instance of the format; [None] when [s] is not an
    instance (an element out of range included).  Without an offset a
    date-only form is UTC and a date-time form is local time. *)
Definition parseIso (s : string) : option Date :=
  '(y, m, d, r) <-? parseIsoDate s ;;
  if negb ((1 <=? m) && (m <=? 12) && (1 <=? d) && (d <=? Time.daysInMonthOf y (m - 1)))
  then None
  else
    let day := Time.MakeDay y (m - 1) d in
    match r with
    | EmptyString => Some (Time.TimeClip (Time.MakeDate day 0))
    | String "T" r' =>
        '(h, mi, sec, ms, r'') <-? parseIsoTime r' ;;
        off <-? parseIsoOffset r'' ;;
        if negb ((mi <=? 59) && (sec <=? 59) &&
                 ((h <=? 23) || ((h =? 24) && (mi =? 0) && (sec =? 0) && (ms =? 0))))
        then None
        else
          let tv := Time.MakeDate day (Time.MakeTime h mi sec ms) in
          match off with
          | None => Some (Time.TimeClip (UTC tv))
          | Some o => Some (Time.TimeClip (tv - o))
          end
    | _ => None
    end.

(** [new Date(s)] for a string [s]. *)
Definition Date_parse (s : string) : Date :=
  match parseIso s with
  | Some d => d
  | None => v <-? legacyParse s ;; Time.TimeClip v
  end.

(** [Number(s)] *)
Definition Number_ (s : string) : Num :=
  match Str.decimal s with
  | Some n => if (String.length s <=? 15)%nat then Some n else numberOfOther s
  | None => numberOfOther s
  end.

(** ** The [CalendarView] component *)

(** The component state: [currentDate] and [viewMode]. *)
Record ViewState : Type := mkViewState {
  currentDate : Date;
  viewMode : ViewMode
}.

Definition isSameDate (date1 date2 : Date) : bool :=
  numEq (getDate date1) (getDate date2) &&
  numEq (getMonth date1) (getMonth date2) &&
  numEq (getFullYear date1) (getFullYear date2).

(** [tasks.filter(pred)] for a predicate that may throw. *)
Fixpoint filterM {A : Type} (pred : A -> JsResult bool) (l : list A) : JsResult (list A) :=
  match l with
  | [] => Ok []
  | a :: l' =>
      keep <- pred a ;;
      rest <- filterM pred l' ;;
      Ok (if keep then a :: rest else rest)
  end.

(** The filter callback of [getTasksForDate].  [taskDate], [tY], [tM] and
    [tD] are computed and never used; none of them can throw. *)
Definition onDate (date : Date) (task : Task) : JsResult bool :=
  match dueDate task with
  | Some (String _ _ as due) =>
      let taskDate := Date_parse due in
      let tY := getFullYear taskDate in
      let tM := getMonth taskDate in
      let tD := getDate taskDate in
      iso <- toISOString date ;;
      let targetISO := Str.splitHead "T" iso in
      let taskISO := Str.splitHead "T" due in
      Ok (String.eqb targetISO taskISO)
  | _ => Ok false
  end.

Definition getTasksForDate (tasks : list Task) (date : Date) : JsResult (list Task) :=
  filterM (onDate date) tasks.

Definition getCategoryColor (categories : list Category) (catName : string) : string :=
  match find (fun c => String.eqb (name c) catName) categories with
  | Some c => orString (Some (color c)) "bg-gray-400"
  | None => "bg-gray-400"
  end.

(** *** Navigation *)

Definition navigate (direction : Direction) (s : ViewState) : ViewState :=
  let newDate := currentDate s in
  let offset := match direction with next => 1 | prev => -1 end in
  let newDate' :=
    match viewMode s with
    | Day => setDate newDate (numAdd (getDate newDate) (Some offset))
    | Week => setDate newDate (numAdd (getDate newDate) (Some (offset * 7)))
    | Month => setMonth newDate (numAdd (getMonth newDate) (Some offset))
    | Year => setFullYear newDate (numAdd (getFullYear newDate) (Some offset))
    | Schedule => setMonth newDate (numAdd (getMonth newDate) (Some offset))
    end in
  {| currentDate := newDate'; viewMode := viewMode s |}.

(** The indices of [for (let i = from; i < from + count; i++)]. *)
Definition indices (from : Z) (count : Num) : list Z :=
  match count with
  | Some n => map (fun i => from + Z.of_nat i) (seq 0 (Z.to_nat n))
  | None => []
  end.

(** *** 1. Day view *)

Record DayView : Type := mkDayView {
  tasksForDay : list Task;
  day_isToday : bool
}.

Definition renderDayView (tasks : list Task) (now : Z) (s : ViewState) : JsResult DayView :=
  tasksForDay' <- getTasksForDate tasks (currentDate s) ;;
  Ok {| tasksForDay := tasksForDay'; day_isToday := isSameDate (Some now) (currentDate s) |}.

(** *** 2. Week view *)

Record WeekColumn : Type := mkWeekColumn {
  week_date : Date;
  week_isToday : bool;
  dayTasks : list Task
}.

Definition startOfWeek (s : ViewState) : Date :=
  let startOfWeek := currentDate s in
  let day := getDay startOfWeek in
  setDate startOfWeek (numSub (getDate (currentDate s)) day).

Definition weekDays (s : ViewState) : list Date :=
  map (fun i => setDate (startOfWeek s) (numAdd (getDate (startOfWeek s)) (Some i)))
      (indices 0 (Some 7)).

Definition renderWeekView (tasks : list Task) (now : Z) (s : ViewState)
    : JsResult (list WeekColumn) :=
  mapM (fun date =>
          let isToday := isSameDate (Some now) date in
          dayTasks' <- getTasksForDate tasks date ;;
          Ok {| week_date := date; week_isToday := isToday; dayTasks := dayTasks' |})
       (weekDays s).

(** *** 3. Month view *)

Inductive MonthCell : Type :=
| EmptyCell (i : Z)
| DayCell (day : Z) (date : Date) (isToday : bool) (daysTasks : list Task).

Definition monthDaysInMonth (s : ViewState) : Num :=
  getDate (Date_ymd (getFullYear (currentDate s))
                    (numAdd (getMonth (currentDate s)) (Some 1)) (Some 0)).

Definition monthFirstDay (s : ViewState) : Num :=
  getDay (Date_ymd (getFullYear (currentDate s)) (getMonth (currentDate s)) (Some 1)).

Definition renderMonthView (tasks : list Task) (now : Z) (s : ViewState)
    : JsResult (list MonthCell) :=
  let daysInMonth := monthDaysInMonth s in
  let firstDay := monthFirstDay s in
  let empties := map EmptyCell (indices 0 firstDay) in
  days <- mapM (fun day =>
                  let date := Date_ymd (getFullYear (currentDate s))
                                       (getMonth (currentDate s)) (Some day) in
                  let isToday := isSameDate (Some now) date in
                  daysTasks <- getTasksForDate tasks date ;;
                  Ok (DayCell day date isToday daysTasks))
               (indices 1 daysInMonth) ;;
  Ok (empties ++ days).

(** *** 4. Year view *)

(** A day cell carries the [date] its click handler stores. *)
Inductive MiniCell : Type :=
| PadCell (i : Z)
| MiniDay (d : Z) (date : Date) (hasTasks : bool) (isToday : bool).

Definition renderYearMonth (tasks : list Task) (now : Z) (year : Num) (monthIndex : Z)
    : JsResult (list MiniCell) :=
  let daysInMonth := getDate (Date_ymd year (Some (monthIndex + 1)) (Some 0)) in
  let firstDay := getDay (Date_ymd year (Some monthIndex) (Some 1)) in
  let pads := map PadCell (indices 0 firstDay) in
  days <- mapM (fun d =>
                  let date := Date_ymd year (Some monthIndex) (Some d) in
                  onDay <- getTasksForDate tasks date ;;
                  let hasTasks := (0 <? Z.of_nat (List.length onDay)) in
                  let isToday := isSameDate (Some now) date in
                  Ok (MiniDay d date hasTasks isToday))
               (indices 1 daysInMonth) ;;
  Ok (pads ++ days).

Definition renderYearView (tasks : list Task) (now : Z) (s : ViewState)
    : JsResult (list (list MiniCell)) :=
  let year := getFullYear (currentDate s) in
  mapM (renderYearMonth tasks now year) (indices 0 (Some 12)).

(** The click handler of a year-view day cell:
    [setCurrentDate(date); setViewMode('Day')]. *)
Definition selectYearDay (date : Date) (s : ViewState) : ViewState :=
  {| currentDate := date; viewMode := Day |}.

(** *** 5. Schedule view *)

(** [new Date(t.dueDate!).getTime()]: NaN when the due date is absent or
    does not parse. *)
Definition timeOf (t : Task) : Num :=
  match dueDate t with
  | Some due => getTime (Date_parse due)
  | None => None
  end.

(** The comparator of the sort, [timeOf a - timeOf b]; a NaN result counts
    as [+0]. *)
Definition compareDue (a b : Task) : Z :=
  match numSub (timeOf a) (timeOf b) with
  | Some v => v
  | None => 0
  end.

(** [Array.prototype.sort] with a comparator: a stable insertion sort.
    (For a consistent comparator every stable sort returns this array; for
    an inconsistent one, such as a comparator that returns NaN, the order is
    implementation-defined and the properties below say nothing about
    it.) *)
Fixpoint insertBy {A : Type} (cmp : A -> A -> Z) (x : A) (l : list A) : list A :=
  match l with
  | [] => [x]
  | y :: l' => if cmp x y <=? 0 then x :: y :: l' else y :: insertBy cmp x l'
  end.

Fixpoint sortBy {A : Type} (cmp : A -> A -> Z) (l : list A) : list A :=
  match l with
  | [] => []
  | x :: l' => insertBy cmp x (sortBy cmp l')
  end.

Definition sortedTasks (tasks : list Task) : list Task :=
  sortBy compareDue (filter (fun t => truthy (dueDate t)) tasks).

(** The object [grouped]: its own properties in creation order. *)
Definition Grouped : Type := list (string * list Task).

(** The properties every object inherits from [Object.prototype]; all are
    truthy and none has a [push] method. *)
Definition objectPrototypeKeys : list string :=
  ["constructor"; "__proto__"; "hasOwnProperty"; "isPrototypeOf";
   "propertyIsEnumerable"; "toLocaleString"; "toString"; "valueOf";
   "__defineGetter__"; "__defineSetter__"; "__lookupGetter__";
   "__lookupSetter__"]%string.

Definition inherited (key : string) : bool :=
  existsb (String.eqb key) objectPrototypeKeys.

Fixpoint ownProperty (key : string) (o : Grouped) : option (list Task) :=
  match o with
  | [] => None
  | (k, v) :: o' => if String.eqb k key then Some v else ownProperty key o'
  end.

(** [grouped[key].push(t)] on an own property. *)
Fixpoint pushTo (key : string) (t : Task) (o : Grouped) : Grouped :=
  match o with
  | [] => []
  | (k, v) :: o' =>
      if String.eqb k key then (k, v ++ [t]) :: o' else (k, v) :: pushTo key t o'
  end.

(** The body of the [forEach] that fills [grouped]. *)
Definition groupStep (grouped : Grouped) (t : Task) : JsResult Grouped :=
  match dueDate t with
  | Some (String _ _ as due) =>
      let key := Str.splitHead "T" due in
      match ownProperty key grouped with
      | Some _ => Ok (pushTo key t grouped)
      | None =>
          if inherited key then Throw TypeError
          else Ok (grouped ++ [(key, [t])])
      end
  | _ => Ok grouped
  end.

Fixpoint forEachGroup (grouped : Grouped) (l : list Task) : JsResult Grouped :=
  match l with
  | [] => Ok grouped
  | t :: l' => g <- groupStep grouped t ;; forEachGroup g l'
  end.

(** An array index: a canonical decimal numeral below [2^32 - 1]. *)
Definition arrayIndex (key : string) : option Z :=
  match key with
  | String "0" (String _ _) => None
  | _ =>
      match Str.decimal key with
      | Some n => if (String.length key <=? 10)%nat && (n <=? 4294967294)
                  then Some n else None
      | None => None
      end
  end.

Fixpoint insertIndex (n : Z) (k : string) (l : list (Z * string)) : list (Z * string) :=
  match l with
  | [] => [(n, k)]
  | (m, k') :: l' => if n <=? m then (n, k) :: (m, k') :: l' else (m, k') :: insertIndex n k l'
  end.

Fixpoint indexKeys (keys : list string) : list (Z * string) :=
  match keys with
  | [] => []
  | k :: keys' =>
      match arrayIndex k with
      | Some n => insertIndex n k (indexKeys keys')
      | None => indexKeys keys'
      end
  end.

(** [Object.keys(grouped)]: the array indices in ascending order, then the
    other keys in creation order. *)
Definition objectKeys (o : Grouped) : list string :=
  let keys := map fst o in
  map snd (indexKeys keys) ++
  filter (fun k => match arrayIndex k with Some _ => false | None => true end) keys.

Record ScheduleGroup : Type := mkScheduleGroup {
  dateStr : string;
  displayDate : Date;
  isPast : bool;
  isTodayBadge : bool;
  groupTasks : list Task
}.

(** [const [y, m, d] = dateStr.split('-').map(Number);
     new Date(y, m-1, d)]: a missing element is [undefined], which makes
    the date invalid.  [date], the re-parsed [dateStr], is never used. *)
Definition scheduleDisplayDate (dateStr : string) : Date :=
  let date := Date_parse dateStr in
  let parts := map Number_ (Str.split "-" dateStr) in
  let y := nth 0 parts None in
  let m := nth 1 parts None in
  let d := nth 2 parts None in
  Date_ymd y (numSub m (Some 1)) d.

Definition renderScheduleView (tasks : list Task) (now : Z)
    : JsResult (list ScheduleGroup) :=
  let today := setHours0 (Some now) in
  grouped <- forEachGroup [] (sortedTasks tasks) ;;
  let dates := objectKeys grouped in
  Ok (map (fun dateStr =>
             let displayDate := scheduleDisplayDate dateStr in
             {| dateStr := dateStr;
                displayDate := displayDate;
                isPast := numLt displayDate today;
                isTodayBadge := isSameDate displayDate (Some now);
                groupTasks := match ownProperty dateStr grouped with
                              | Some ts => ts
                              | None => []
                              end |})
          dates).

(** *** The component as a state machine *)

Inductive Event : Type :=
| ClickPrev
| ClickNext
| ClickToday
| ClickViewSwitcher (view : ViewMode)
| ClickYearDay (date : Date)
| ClickAddOrCell (date : Date)
| ClickChip (task : Task).

(** [ClickAddOrCell] and [ClickChip] only call the [onSelectDate] and
    [onSelectTask] props, which leave the component's state alone. *)
Definition step (now : Z) (s : ViewState) (e : Event) : ViewState :=
  match e with
  | ClickPrev => navigate prev s
  | ClickNext => navigate next s
  | ClickToday => {| currentDate := Some now; viewMode := viewMode s |}
  | ClickViewSwitcher view => {| currentDate := currentDate s; viewMode := view |}
  | ClickYearDay date => selectYearDay date s
  | ClickAddOrCell _ => s
  | ClickChip _ => s
  end.

(** The events that select a day or a task. *)
Definition isSelection (e : Event) : bool :=
  match e with
  | ClickYearDay _ | ClickAddOrCell _ | ClickChip _ => true
  | _ => false
  end.

(** ** The rest of the [App] component

    Strings are sequences of UTF-16 code units below 256 (one [ascii] each),
    which is where [trim] and [toLowerCase] are defined below. *)

(** *** Task handlers *)

Definition handleUpdateTask (updatedTask : Task) (prev : list Task) : list Task :=
  map (fun t => if String.eqb (id t) (id updatedTask) then updatedTask else t) prev.

Definition handleDeleteTask (i : string) (prev : list Task) : list Task :=
  filter (fun t => negb (String.eqb (id t) i)) prev.

Definition status_eqb (a b : TaskStatus) : bool :=
  match a, b with
  | TODO, TODO | IN_PROGRESS, IN_PROGRESS | DONE, DONE => true
  | _, _ => false
  end.

Definition priority_eqb (a b : Priority) : bool :=
  match a, b with
  | LOW, LOW | MEDIUM, MEDIUM | HIGH, HIGH | URGENT, URGENT => true
  | _, _ => false
  end.

(** [{ ...t, status: s }] *)
Definition withStatus (t : Task) (s : TaskStatus) : Task :=
  {| id := id t; title := title t; description := description t;
     dueDate := dueDate t; startTime := startTime t; endTime := endTime t;
     priority := priority t; status := s; category := category t;
     tags := tags t; recurrence := recurrence t; createdAt := createdAt t |}.

Definition handleToggleComplete (i : string) (prev : list Task) : list Task :=
  map (fun t =>
         if String.eqb (id t) i
         then withStatus t (if status_eqb (status t) DONE then TODO else DONE)
         else t)
      prev.

(** [uuid] is the result of [crypto.randomUUID()] and [now] of [Date.now()]. *)
Definition handleDuplicate (uuid : string) (now : Z) (task : Task) (prev : list Task)
    : list Task :=
  let newTask :=
    {| id := uuid; title := (title task ++ " (Copy)")%string;
       description := description task; dueDate := dueDate task;
       startTime := startTime task; endTime := endTime task;
       priority := priority task; status := status task;
       category := category task; tags := tags task;
       recurrence := recurrence task; createdAt := now |} in
  newTask :: prev.

(** *** Drag and drop *)

(** [l.findIndex(p)], [-1] when no element satisfies [p]. *)
Fixpoint findIndexFrom {A : Type} (p : A -> bool) (i : Z) (l : list A) : Z :=
  match l with
  | [] => -1
  | a :: l' => if p a then i else findIndexFrom p (i + 1) l'
  end.

Definition findIndex {A : Type} (p : A -> bool) (l : list A) : Z := findIndexFrom p 0 l.

(** [l.splice(start, deleteCount, ...items)], the array it leaves: a negative
    [start] counts from the end, and both are clamped to the array. *)
Definition splice {A : Type} (start deleteCount : Z) (items : list A) (l : list A)
    : list A :=
  let len := Z.of_nat (List.length l) in
  let actualStart := if start <? 0 then Z.max (len + start) 0 else Z.min start len in
  let actualDeleteCount := Z.min (Z.max deleteCount 0) (len - actualStart) in
  firstn (Z.to_nat actualStart) l ++ items ++
  skipn (Z.to_nat (actualStart + actualDeleteCount)) l.

(** [onDrop], on the state [draggedItem] and [tasks]. *)
Definition onDrop (draggedItem : option Task) (dropIndex : Z) (tasks : list Task)
    : list Task * option Task :=
  match draggedItem with
  | None => (tasks, draggedItem)
  | Some dragged =>
      let newTasks := tasks in
      let dragIndex := findIndex (fun t => String.eqb (id t) (id dragged)) newTasks in
      let newTasks := splice dragIndex 1 [] newTasks in
      let newTasks := splice dropIndex 0 [dragged] newTasks in
      (newTasks, None)
  end.

(** *** The task list filter *)

(** [toLowerCase] on a code unit below 256: A..Z and the capital letters of
    Latin-1 (U+00C0..U+00DE but the multiplication sign U+00D7). *)
Definition toLowerChar (c : ascii) : ascii :=
  let n := nat_of_ascii c in
  if ((65 <=? n) && (n <=? 90) || (192 <=? n) && (n <=? 214)
      || (216 <=? n) && (n <=? 222))%nat
  then ascii_of_nat (n + 32) else c.

Fixpoint toLowerCase (s : string) : string :=
  match s with
  | EmptyString => EmptyString
  | String c s' => String (toLowerChar c) (toLowerCase s')
  end.

(** [s.includes(sub)] *)
Fixpoint includes (s sub : string) : bool :=
  String.prefix sub s ||
  match s with
  | EmptyString => false
  | String _ s' => includes s' sub
  end.

(** [filteredTasks]; the status filter ['All'] is [None]. *)
Definition filteredTasks (tasks : list Task) (searchQuery : string)
    (filterStatus : option TaskStatus) : list Task :=
  filter (fun t =>
            let matchesSearch := includes (toLowerCase (title t)) (toLowerCase searchQuery) in
            let matchesStatus := match filterStatus with
                                 | None => true
                                 | Some s => status_eqb (status t) s
                                 end in
            matchesSearch && matchesStatus)
         tasks.

(** The due date of a list item is shown in red:
    [new Date(task.dueDate) < new Date() && task.status !== TaskStatus.DONE],
    inside [task.dueDate && ...]; [now] is the time value of [new Date()]. *)
Definition isOverdue (now : Z) (task : Task) : bool :=
  match dueDate task with
  | Some (String _ _ as due) =>
      numLt (getTime (Date_parse due)) (getTime (Some now)) &&
      negb (status_eqb (status task) DONE)
  | _ => false
  end.
(** *** Categories *)

(** White space below 256: TAB, LF, VT, FF, CR, space and the no-break
    space. *)
Definition isWhiteSpace (c : ascii) : bool :=
  let n := nat_of_ascii c in
  ((9 <=? n) && (n <=? 13) || (n =? 32) || (n =? 160))%nat.

Fixpoint trimStart (s : string) : string :=
  match s with
  | String c s' => if isWhiteSpace c then trimStart s' else s
  | EmptyString => EmptyString
  end.

(** Drops the white space at the end: a character is kept when it is not
    white space or something is kept after it. *)
Fixpoint trimEnd (s : string) : string :=
  match s with
  | EmptyString => EmptyString
  | String c s' =>
      match trimEnd s' with
      | EmptyString => if isWhiteSpace c then EmptyString else String c EmptyString
      | rest => String c rest
      end
  end.

Definition trim (s : string) : string := trimEnd (trimStart s).

(** The state [handleAddCategory] reads and writes. *)
Record CategoryForm : Type := mkCategoryForm {
  categories_ : list Category;
  newCategoryName : string;
  newCategoryColor : string;
  formCategory_ : string;
  isCategoryModalOpen : bool
}.

(** [uuid] is the result of [crypto.randomUUID()]. *)
Definition handleAddCategory (uuid : string) (st : CategoryForm) : CategoryForm :=
  match trim (newCategoryName st) with
  | EmptyString => st
  | String _ _ as trimmed =>
      let newCat := {| cat_id := uuid; name := trimmed; color := newCategoryColor st |} in
      {| categories_ := categories_ st ++ [newCat];
         newCategoryName := "";
         newCategoryColor := newCategoryColor st;
         formCategory_ := name newCat;
         isCategoryModalOpen := false |}
  end.

(** *** The reminder check *)


(** *** The task modal *)

Record TaskForm : Type := mkTaskForm {
  editingTask : option Task;
  formTitle : string;
  formDesc : string;
  formPriority : Priority;
  formCategory : string;
  formDueDate : string;
  isModalOpen : bool
}.

(** The form before it is first opened, and the categories the App starts
    with. *)
Definition INITIAL_CATEGORIES : list Category :=
  [ {| cat_id := "1"; name := "Work"; color := "bg-blue-500" |};
    {| cat_id := "2"; name := "Personal"; color := "bg-green-500" |};
    {| cat_id := "3"; name := "Academics"; color := "bg-purple-500" |} ].

Definition initialTaskForm : TaskForm :=
  {| editingTask := None; formTitle := ""; formDesc := ""; formPriority := MEDIUM;
     formCategory := match INITIAL_CATEGORIES with
                     | c0 :: _ => name c0
                     | [] => ""
                     end;
     formDueDate := ""; isModalOpen := false |}.

(** [setFormTitle(v)], the change handler of the title input. *)
Definition setFormTitle (v : string) (form : TaskForm) : TaskForm :=
  {| editingTask := editingTask form; formTitle := v; formDesc := formDesc form;
     formPriority := formPriority form; formCategory := formCategory form;
     formDueDate := formDueDate form; isModalOpen := isModalOpen form |}.

(** [setIsModalOpen(false)] *)
Definition closeModal (form : TaskForm) : TaskForm :=
  {| editingTask := editingTask form; formTitle := formTitle form;
     formDesc := formDesc form; formPriority := formPriority form;
     formCategory := formCategory form; formDueDate := formDueDate form;
     isModalOpen := false |}.

(** [openTaskModal(task, prefillDate)]: the state after the calls it
    reaches, and the exception that stops it when [toISOString] throws (the
    state updates made before that point stay). *)
Definition openTaskModal (categories : list Category) (task : option Task)
    (prefillDate : option Date) (form : TaskForm) : TaskForm * option JsError :=
  match task with
  | Some task =>
      let form1 :=
        {| editingTask := Some task; formTitle := title task;
           formDesc := orString (description task) "";
           formPriority := priority task; formCategory := category task;
           formDueDate := formDueDate form; isModalOpen := isModalOpen form |} in
      let due :=
        match dueDate task with
        | Some (String _ _ as d) =>
            iso <- toISOString (Date_parse d) ;; Ok (Str.splitHead "T" iso)
        | _ => Ok EmptyString
        end in
      match due with
      | Ok d =>
          ({| editingTask := editingTask form1; formTitle := formTitle form1;
              formDesc := formDesc form1; formPriority := formPriority form1;
              formCategory := formCategory form1;
              formDueDate := d; isModalOpen := true |}, None)
      | Throw e => (form1, Some e)
      end
  | None =>
      let form1 :=
        {| editingTask := None; formTitle := ""; formDesc := "";
           formPriority := MEDIUM;
           formCategory := orString (match categories with
                                     | c0 :: _ => Some (name c0)
                                     | [] => None
                                     end) "Work";
           formDueDate := formDueDate form; isModalOpen := isModalOpen form |} in
      let due :=
        match prefillDate with
        | Some date => iso <- toISOString date ;; Ok (Str.splitHead "T" iso)
        | None => Ok EmptyString
        end in
      match due with
      | Ok d =>
          ({| editingTask := editingTask form1; formTitle := formTitle form1;
              formDesc := formDesc form1; formPriority := formPriority form1;
              formCategory := formCategory form1;
              formDueDate := d; isModalOpen := true |}, None)
      | Throw e => (form1, Some e)
      end
  end.

(** The [dueDate] the save button computes:
    [formDueDate ? new Date(formDueDate).toISOString() : undefined]. *)
Definition formDueDateISO (formDueDate : string) : JsResult (option string) :=
  match formDueDate with
  | EmptyString => Ok None
  | String _ _ => iso <- toISOString (Date_parse formDueDate) ;; Ok (Some iso)
  end.

(** The click handler of the modal's save button ('Create Task' / 'Save
    Changes'), on the tasks and the form: nothing happens on a blank title;
    an exception leaves both as they are. *)
Definition onSaveClick (categories : list Category) (uuid : string) (now : Z)
    (form : TaskForm) (tasks : list Task) : JsResult (list Task * TaskForm) :=
  match trim (formTitle form) with
  | EmptyString => Ok (tasks, form)
  | String _ _ =>
      let closed := closeModal form in
      match editingTask form with
      | Some e =>
          due <- formDueDateISO (formDueDate form) ;;
          let updated :=
            {| id := id e; title := formTitle form;
               description := Some (formDesc form); dueDate := due;
               startTime := startTime e; endTime := endTime e;
               priority := formPriority form; status := status e;
               category := formCategory form; tags := tags e;
               recurrence := recurrence e; createdAt := createdAt e |} in
          Ok (handleUpdateTask updated tasks, closed)
      | None =>
          due <- formDueDateISO (formDueDate form) ;;
          tasks' <- handleAddTask categories uuid now
                      {| p_id := None; p_title := Some (formTitle form);
                         p_description := Some (formDesc form); p_dueDate := due;
                         p_startTime := None; p_endTime := None;
                         p_priority := Some (formPriority form); p_status := None;
                         p_category := Some (formCategory form); p_tags := None;
                         p_recurrence := None; p_createdAt := None |}
                      tasks ;;
          Ok (tasks', closed)
      end
  end.

(** ** The [TaskStats] component *)

Definition countStatus (s : TaskStatus) (tasks : list Task) : nat :=
  List.length (filter (fun t => status_eqb (status t) s) tasks).

Definition countPriority (p : Priority) (tasks : list Task) : nat :=
  List.length (filter (fun t => priority_eqb (priority t) p) tasks).

(** The slices of the status pie chart: the empty ones are left out. *)
Definition statusData (tasks : list Task) : list (string * nat) :=
  filter (fun d => (0 <? snd d)%nat)
    [("Todo"%string, countStatus TODO tasks);
     ("In Progress"%string, countStatus IN_PROGRESS tasks);
     ("Done"%string, countStatus DONE tasks)].

Definition priorityData (tasks : list Task) : list (string * nat) :=
  [("Low"%string, countPriority LOW tasks);
   ("Med"%string, countPriority MEDIUM tasks);
   ("High"%string, countPriority HIGH tasks);
   ("Urg"%string, countPriority URGENT tasks)].

(** What the component renders: the 'no data' text or the two charts. *)
Inductive StatsView : Type :=
| NoData
| Charts (status : list (string * nat)) (priority : list (string * nat)).

Definition TaskStats (tasks : list Task) : StatsView :=
  let statusData := statusData tasks in
  let priorityData := priorityData tasks in
  if (List.length tasks =? 0)%nat then NoData else Charts statusData priorityData.

(** ** Notions used to state the properties *)

(** The bucket key [YYYY-MM-DD] of year [y] (0..9999), month [m] (1..12) and
    day [d]. *)
Definition dateKey (y m d : Z) : string :=
  (Str.padDigits 4 y ++ "-" ++ Str.padDigits 2 m ++ "-" ++ Str.padDigits 2 d)%string.

(** The bucket key of a task with a due date: [dueDate.split('T')[0]]. *)
Definition keyOf (t : Task) : string :=
  match dueDate t with
  | Some due => Str.splitHead "T" due
  | None => EmptyString
  end.

(** The distinct elements of a list, each at its first occurrence. *)
Fixpoint firstOccurrences (l : list string) : list string :=
  match l with
  | [] => []
  | k :: l' => k :: filter (fun k' => negb (String.eqb k' k)) (firstOccurrences l')
  end.

(** [c] does not occur in [s]. *)
Fixpoint lacks (c : ascii) (s : string) : Prop :=
  match s with
  | EmptyString => True
  | String a s' => Ascii.eqb a c = false /\ lacks c s'
  end.

(** Years of which every day is a representable time value and which the
    [Date] constructor takes as they are (not as 1900 + year). *)
Definition plainYear (y : Z) : Prop :=
  -271000 <= y <= 275000 /\ ~ (0 <= y <= 99).

(** The tasks [getTasksForDate] keeps on a valid date with time value [t]:
    those with a present due date whose bucket key is the date's. *)
Definition dueOn (key : string) (task : Task) : bool :=
  match dueDate task with
  | Some (String _ _ as due) => String.eqb key (Str.splitHead "T" due)
  | _ => false
  end.

Definition tasksOnDate (tasks : list Task) (t : Z) : list Task :=
  filter (dueOn (isoDateString t)) tasks.

(** The time value of the local midnight that starts day [d] of month [m]
    (0..11) of year [y]. *)
Definition localMidnight (y m d : Z) : Z :=
  UTC (Time.MakeDate (Time.MakeDay y m d) 0).

Definition hasKey (k : string) (t : Task) : bool := String.eqb (keyOf t) k.

(** What the [forEach] leaves in [grouped] after the tasks [l]: one property
    per bucket key, in order of first occurrence, holding the tasks of [l]
    with that key in their order in [l]. *)
Definition groupsOf (l : list Task) : Grouped :=
  map (fun k => (k, filter (hasKey k) l)) (firstOccurrences (map keyOf l)).

(** The comparator of a numeric sort key, and the time value of a task
    whose due date parses. *)
Definition byKey {A : Type} (key : A -> Z) (a b : A) : Z := key a - key b.

Definition timeValue (t : Task) : Z :=
  match timeOf t with
  | Some v => v
  | None => 0
  end.

(** Only white space, if anything. *)
Fixpoint blank (s : string) : bool :=
  match s with
  | EmptyString => true
  | String c s' => isWhiteSpace c && blank s'
  end.

Definition opposite (direction : Direction) : Direction :=
  match direction with next => prev | prev => next end.

(** The year-view cell that corresponds to a month-view cell. *)
Definition toMini (c : MonthCell) : MiniCell :=
  match c with
  | EmptyCell i => PadCell i
  | DayCell day date isToday daysTasks =>
      MiniDay day date (0 <? Z.of_nat (List.length daysTasks)) isToday
  end.

End Host.

(** * Properties *)

(** ** Calendar arithmetic *)

Ltac split_ltb :=
  repeat (match goal with
          | |- context [ (?a <? ?b) ] => destruct (Z.ltb_spec a b)
          end; try lia).

Ltac month_cases m :=
  let C := fresh "C" in
  assert (m = 0 \/ m = 1 \/ m = 2 \/ m = 3 \/ m = 4 \/ m = 5 \/ m = 6 \/
          m = 7 \/ m = 8 \/ m = 9 \/ m = 10 \/ m = 11) as C by lia;
  repeat (destruct C as [C|C]); subst m.

Ltac leap_cases l :=
  let C := fresh "C" in
  assert (l = 0 \/ l = 1) as C by lia; destruct C; subst l.

Lemma leapOfYear_range y : 0 <= Time.leapOfYear y <= 1.
Proof. unfold Time.leapOfYear. destruct (_ =? _); lia. Qed.

Lemma DaysInYear_leap y : Time.DaysInYear y = 365 + Time.leapOfYear y.
Proof.
  unfold Time.leapOfYear, Time.DaysInYear.
  repeat (destruct (negb _)); reflexivity.
Qed.

Lemma DayFromYear_succ y :
  Time.DayFromYear (y + 1) = Time.DayFromYear y + Time.DaysInYear y.
Proof.
  unfold Time.DayFromYear, Time.DaysInYear.
  repeat match goal with
         | |- context [ (?a =? ?b) ] => destruct (Z.eqb_spec a b)
         end; cbv [negb]; Z.div_mod_to_equations; lia.
Qed.

Lemma DayFromYear_mono y1 y2 :
  y1 <= y2 -> Time.DayFromYear y1 <= Time.DayFromYear y2.
Proof. unfold Time.DayFromYear. intros. Z.div_mod_to_equations. lia. Qed.

Lemma YearFromDay_bounds d :
  Time.DayFromYear (Time.YearFromDay d) <= d < Time.DayFromYear (Time.YearFromDay d + 1).
Proof.
  unfold Time.YearFromDay.
  set (y := 1970 + d * 400 / 146097).
  destruct (Z.leb_spec (Time.DayFromYear (y + 1)) d).
  - split; [lia|]. unfold Time.DayFromYear in *. subst y. Z.div_mod_to_equations. lia.
  - destruct (Z.leb_spec (Time.DayFromYear y) d).
    + lia.
    + replace (y - 1 + 1) with y by lia. split; [|lia].
      unfold Time.DayFromYear in *. subst y. Z.div_mod_to_equations. lia.
Qed.

(** [YearFromDay d] is the year whose days include [d]. *)
Lemma YearFromDay_unique d y :
  Time.DayFromYear y <= d < Time.DayFromYear (y + 1) -> Time.YearFromDay d = y.
Proof.
  intros H. pose proof (YearFromDay_bounds d) as B.
  destruct (Z.lt_trichotomy (Time.YearFromDay d) y) as [L|[E|G]]; auto.
  - pose proof (DayFromYear_mono (Time.YearFromDay d + 1) y ltac:(lia)). lia.
  - pose proof (DayFromYear_mono (y + 1) (Time.YearFromDay d) ltac:(lia)). lia.
Qed.

Lemma Day_MakeDate day tod :
  0 <= tod < Time.msPerDay -> Time.Day (Time.MakeDate day tod) = day.
Proof.
  intros. unfold Time.Day, Time.MakeDate.
  rewrite Z.add_comm, Z.div_add by (unfold Time.msPerDay; lia).
  rewrite Z.div_small; lia.
Qed.

Lemma TimeWithinDay_MakeDate day tod :
  0 <= tod < Time.msPerDay -> Time.TimeWithinDay (Time.MakeDate day tod) = tod.
Proof.
  intros. unfold Time.TimeWithinDay, Time.MakeDate.
  rewrite Z.add_comm, Z.mod_add by (unfold Time.msPerDay; lia).
  apply Z.mod_small; lia.
Qed.

Lemma TimeWithinDay_range t : 0 <= Time.TimeWithinDay t < Time.msPerDay.
Proof. apply Z.mod_pos_bound. reflexivity. Qed.

Lemma MakeDate_Day t : Time.MakeDate (Time.Day t) (Time.TimeWithinDay t) = t.
Proof.
  unfold Time.MakeDate, Time.Day, Time.TimeWithinDay.
  pose proof (Z.div_mod t Time.msPerDay). unfold Time.msPerDay in *. lia.
Qed.

Lemma DayWithinYear_range t :
  0 <= Time.DayWithinYear t < 365 + Time.InLeapYear t.
Proof.
  unfold Time.DayWithinYear, Time.InLeapYear, Time.YearFromTime.
  pose proof (YearFromDay_bounds (Time.Day t)) as H.
  rewrite DayFromYear_succ, DaysInYear_leap in H. lia.
Qed.

Lemma monthOfDay_unique l m d :
  0 <= l <= 1 -> 0 <= m <= 11 ->
  Time.monthStart l m <= d < Time.monthStart l (m + 1) -> Time.monthOfDay l d = m.
Proof.
  intros Hl Hm Hd. unfold Time.monthOfDay.
  leap_cases l; month_cases m; cbn in Hd |- *; split_ltb.
Qed.

Lemma monthOfDay_bounds l d :
  0 <= l <= 1 -> 0 <= d < 365 + l ->
  0 <= Time.monthOfDay l d <= 11 /\
  Time.monthStart l (Time.monthOfDay l d) <= d
    < Time.monthStart l (Time.monthOfDay l d + 1).
Proof.
  intros Hl Hd. unfold Time.monthOfDay.
  leap_cases l; cbn in Hd |- *;
  repeat (match goal with
          | |- context [ (?a <? ?b) ] => destruct (Z.ltb_spec a b)
          end; [ cbn; lia | ]); cbn; lia.
Qed.

Lemma monthStart_bounds l m :
  0 <= l <= 1 -> 0 <= m <= 11 ->
  0 <= Time.monthStart l m /\ Time.monthStart l (m + 1) <= 365 + l /\
  28 <= Time.monthStart l (m + 1) - Time.monthStart l m <= 31.
Proof. intros Hl Hm. leap_cases l; month_cases m; cbn; lia. Qed.

Lemma MonthFromTime_range t : 0 <= Time.MonthFromTime t <= 11.
Proof.
  unfold Time.MonthFromTime.
  apply monthOfDay_bounds; [apply leapOfYear_range | apply DayWithinYear_range].
Qed.

Lemma MakeDay_in_year y m d :
  0 <= m <= 11 ->
  Time.MakeDay y m d = Time.DayFromYear y + Time.monthStart (Time.leapOfYear y) m + d - 1.
Proof.
  intros. unfold Time.MakeDay.
  rewrite Z.div_small, Z.mod_small by lia. rewrite Z.add_0_r. reflexivity.
Qed.

(** The calendar fields of a time value name its day, so shifting the date
    field by [k] shifts the day by [k]. *)
Lemma MakeDay_components t k :
  Time.MakeDay (Time.YearFromTime t) (Time.MonthFromTime t) (Time.DateFromTime t + k)
  = Time.Day t + k.
Proof.
  rewrite MakeDay_in_year by apply MonthFromTime_range.
  unfold Time.DateFromTime, Time.DayWithinYear, Time.InLeapYear. lia.
Qed.

Lemma DateFromTime_range t :
  1 <= Time.DateFromTime t
    <= Time.daysInMonthOf (Time.YearFromTime t) (Time.MonthFromTime t).
Proof.
  unfold Time.DateFromTime, Time.daysInMonthOf, Time.MonthFromTime.
  fold (Time.InLeapYear t).
  pose proof (monthOfDay_bounds (Time.InLeapYear t) (Time.DayWithinYear t)
                (leapOfYear_range _) (DayWithinYear_range t)). lia.
Qed.

(** Conversely a civil date is recovered from any time value of its day. *)
Lemma components_MakeDay y m d tod :
  0 <= m <= 11 -> 1 <= d <= Time.daysInMonthOf y m -> 0 <= tod < Time.msPerDay ->
  Time.YearFromTime (Time.MakeDate (Time.MakeDay y m d) tod) = y /\
  Time.MonthFromTime (Time.MakeDate (Time.MakeDay y m d) tod) = m /\
  Time.DateFromTime (Time.MakeDate (Time.MakeDay y m d) tod) = d.
Proof.
  intros Hm Hd Ht.
  set (t := Time.MakeDate (Time.MakeDay y m d) tod).
  assert (HD : Time.Day t = Time.MakeDay y m d) by (apply Day_MakeDate; auto).
  pose proof (MakeDay_in_year y m d Hm) as HM.
  pose proof (monthStart_bounds _ m (leapOfYear_range y) Hm) as HB.
  unfold Time.daysInMonthOf in Hd.
  assert (HY : Time.YearFromTime t = y).
  { unfold Time.YearFromTime. apply YearFromDay_unique.
    rewrite HD, HM, DayFromYear_succ, DaysInYear_leap. lia. }
  split; auto.
  assert (HW : Time.DayWithinYear t = Time.monthStart (Time.leapOfYear y) m + d - 1).
  { unfold Time.DayWithinYear. rewrite HY, HD, HM. lia. }
  assert (HL : Time.InLeapYear t = Time.leapOfYear y).
  { unfold Time.InLeapYear. rewrite HY. reflexivity. }
  assert (HMo : Time.MonthFromTime t = m).
  { unfold Time.MonthFromTime. rewrite HW, HL.
    apply monthOfDay_unique; auto using leapOfYear_range. lia. }
  split; auto.
  unfold Time.DateFromTime. rewrite HW, HL, HMo. lia.
Qed.

Lemma WeekDay_range t : 0 <= Time.WeekDay t <= 6.
Proof. unfold Time.WeekDay. pose proof (Z.mod_pos_bound (Time.Day t + 4) 7). lia. Qed.

(** Years whose every day is a representable time value, also after the
    local time zone adjustment of less than a day. *)
Lemma DayFromYear_representable y :
  -271000 <= y <= 275000 ->
  -99999000 <= Time.DayFromYear y /\ Time.DayFromYear (y + 1) <= 99999000.
Proof. unfold Time.DayFromYear. intros. Z.div_mod_to_equations. lia. Qed.

Lemma TimeClip_ok t : Z.abs t <= Time.maxTime -> Time.TimeClip t = Some t.
Proof.
  intros H. unfold Time.TimeClip.
  destruct (Z.leb_spec (Z.abs t) Time.maxTime); [reflexivity | lia].
Qed.

(** ** Strings *)

Lemma lacks_app c s1 s2 : lacks c s1 -> lacks c s2 -> lacks c (s1 ++ s2).
Proof. induction s1; simpl; intuition. Qed.


Lemma split_lacks c s : lacks c s -> Str.split c s = [s].
Proof.
  induction s as [|a s IH]; simpl; auto.
  intros [E L]. rewrite E, (IH L). reflexivity.
Qed.

Lemma split_app c s1 s2 :
  lacks c s1 -> Str.split c (s1 ++ String c s2) = s1 :: Str.split c s2.
Proof.
  induction s1 as [|a s1 IH]; simpl.
  - rewrite Ascii.eqb_refl. reflexivity.
  - intros [E L]. rewrite E, (IH L). reflexivity.
Qed.

Lemma splitHead_app c s1 s2 :
  lacks c s1 -> Str.splitHead c (s1 ++ String c s2) = s1.
Proof. intros L. unfold Str.splitHead. rewrite split_app by exact L. reflexivity. Qed.

Lemma mod10_cases n :
  n mod 10 = 0 \/ n mod 10 = 1 \/ n mod 10 = 2 \/ n mod 10 = 3 \/
  n mod 10 = 4 \/ n mod 10 = 5 \/ n mod 10 = 6 \/ n mod 10 = 7 \/
  n mod 10 = 8 \/ n mod 10 = 9.
Proof. pose proof (Z.mod_pos_bound n 10 ltac:(lia)). lia. Qed.

Lemma digitVal_digitChar n : Str.digitVal (Str.digitChar n) = Some (n mod 10).
Proof.
  unfold Str.digitChar.
  destruct (mod10_cases n) as [C|C]; repeat (destruct C as [C|C]); rewrite C; reflexivity.
Qed.

Lemma padDigits_lacks c w n :
  Str.digitVal c = None -> lacks c (Str.padDigits w n).
Proof.
  intros Hc. revert n. induction w as [|w IH]; intros n; cbn [Str.padDigits lacks]; auto.
  apply lacks_app; auto. cbn [lacks]. split; auto.
  destruct (Ascii.eqb_spec (Str.digitChar n) c) as [E|E]; auto.
  rewrite <- E, digitVal_digitChar in Hc. discriminate.
Qed.

Lemma string_length_app s1 s2 :
  String.length (s1 ++ s2) = (String.length s1 + String.length s2)%nat.
Proof. induction s1 as [|a s1 IH]; simpl; auto. Qed.

Lemma padDigits_length w n : String.length (Str.padDigits w n) = w.
Proof.
  revert n. induction w as [|w IH]; intros n; cbn [Str.padDigits]; auto.
  rewrite string_length_app, IH. cbn [String.length]. lia.
Qed.

Lemma decimalFrom_app acc s1 s2 :
  Str.decimalFrom acc (s1 ++ s2) =
  match Str.decimalFrom acc s1 with
  | Some v => Str.decimalFrom v s2
  | None => None
  end.
Proof.
  revert acc. induction s1 as [|a s1 IH]; intros acc; simpl; auto.
  destruct (Str.digitVal a); auto.
Qed.

Lemma decimalFrom_padDigits w n acc :
  0 <= n -> Str.decimalFrom acc (Str.padDigits w n) = Some (acc * 10 ^ Z.of_nat w + n mod 10 ^ Z.of_nat w).
Proof.
  revert n. induction w as [|w IH]; intros n Hn.
  - simpl. rewrite Z.mod_1_r. f_equal. lia.
  - cbn [Str.padDigits]. rewrite decimalFrom_app, IH by (apply Z.div_pos; lia).
    cbn [Str.decimalFrom]. rewrite digitVal_digitChar. f_equal.
    rewrite Nat2Z.inj_succ, Z.pow_succ_r by lia.
    set (p := 10 ^ Z.of_nat w).
    assert (Hp : 0 < p) by (apply Z.pow_pos_nonneg; lia).
    rewrite Z.rem_mul_r by lia.
    lia.
Qed.

Lemma decimal_padDigits w n :
  (0 < w)%nat -> 0 <= n < 10 ^ Z.of_nat w -> Str.decimal (Str.padDigits w n) = Some n.
Proof.
  intros Hw Hn. unfold Str.decimal.
  destruct (Str.padDigits w n) eqn:E.
  - apply (f_equal String.length) in E. rewrite padDigits_length in E. simpl in E. lia.
  - rewrite <- E, decimalFrom_padDigits by lia. rewrite Z.mod_small by lia. f_equal.
Qed.

(** The last day of a month is day 0 of the next one. *)
Lemma MakeDay_day0 y m :
  0 <= m <= 11 ->
  Time.MakeDay y (m + 1) 0 = Time.MakeDay y m (Time.daysInMonthOf y m).
Proof.
  intros Hm. rewrite (MakeDay_in_year y m) by lia. unfold Time.daysInMonthOf.
  destruct (Z.eq_dec m 11) as [->|N].
  - unfold Time.MakeDay. change ((11 + 1) / 12) with 1. change ((11 + 1) mod 12) with 0.
    rewrite DayFromYear_succ, DaysInYear_leap.
    change (Time.monthStart (Time.leapOfYear (y + 1)) 0) with 0.
    change (Time.monthStart (Time.leapOfYear y) (11 + 1)) with (365 + Time.leapOfYear y).
    lia.
  - rewrite MakeDay_in_year by lia. lia.
Qed.

Lemma daysInMonthOf_range y m : 0 <= m <= 11 -> 28 <= Time.daysInMonthOf y m <= 31.
Proof.
  intros Hm. unfold Time.daysInMonthOf.
  pose proof (monthStart_bounds _ m (leapOfYear_range y) Hm). lia.
Qed.

Lemma MakeDay_within_year y m d :
  0 <= m <= 11 -> 1 <= d <= Time.daysInMonthOf y m ->
  Time.DayFromYear y <= Time.MakeDay y m d < Time.DayFromYear (y + 1).
Proof.
  intros Hm Hd. rewrite MakeDay_in_year by lia.
  rewrite DayFromYear_succ, DaysInYear_leap.
  pose proof (monthStart_bounds _ m (leapOfYear_range y) Hm).
  unfold Time.daysInMonthOf in Hd. lia.
Qed.

Lemma isoYearString_lacks_T y : lacks "T" (isoYearString y).
Proof.
  unfold isoYearString.
  destruct ((0 <=? y) && (y <=? 9999)); [|destruct (0 <=? y)].
  - apply padDigits_lacks; reflexivity.
  - cbn [lacks]. split; [reflexivity | apply padDigits_lacks; reflexivity].
  - cbn [lacks]. split; [reflexivity | apply padDigits_lacks; reflexivity].
Qed.

Lemma isoDateString_lacks_T t : lacks "T" (isoDateString t).
Proof.
  unfold isoDateString.
  apply lacks_app; [apply isoYearString_lacks_T|].
  change ("-" ++ ?x)%string with (String "-" x). cbn [lacks]. split; [reflexivity|].
  apply lacks_app; [apply padDigits_lacks; reflexivity|].
  cbn [lacks append]. split; [reflexivity|].
  apply padDigits_lacks; reflexivity.
Qed.

Lemma isoDateString_length t : (10 <= String.length (isoDateString t))%nat.
Proof.
  unfold isoDateString. rewrite !string_length_app, !padDigits_length.
  assert (4 <= String.length (isoYearString (Time.YearFromTime t)))%nat.
  { unfold isoYearString.
    destruct ((0 <=? _) && (_ <=? 9999)); [|destruct (0 <=? _)];
      cbn [String.length]; rewrite padDigits_length; lia. }
  cbn [String.length]. lia.
Qed.

(** The bucket key of a valid date is the date part of its ISO string. *)
Lemma toISOString_key t :
  exists iso, toISOString (Some t) = Ok iso /\ Str.splitHead "T" iso = isoDateString t.
Proof.
  eexists. split; [reflexivity|].
  apply splitHead_app, isoDateString_lacks_T.
Qed.

(** ** Loops over results *)

Lemma mapM_pure {A B : Type} (f : A -> JsResult B) (g : A -> B) (l : list A) :
  (forall a, In a l -> f a = Ok (g a)) -> mapM f l = Ok (map g l).
Proof.
  induction l as [|a l IH]; intros H; cbn [mapM map]; [reflexivity|].
  rewrite (H a) by (left; reflexivity). cbn [bind].
  rewrite IH by (intros; apply H; right; assumption). reflexivity.
Qed.

Lemma mapM_In {A B : Type} (f : A -> JsResult B) l bs b :
  mapM f l = Ok bs -> In b bs -> exists a, In a l /\ f a = Ok b.
Proof.
  revert bs. induction l as [|a l IH]; intros bs; cbn [mapM].
  - intros H. injection H as <-. intros [].
  - destruct (f a) as [b0|e] eqn:F; cbn [bind]; [|discriminate].
    destruct (mapM f l) as [bs0|e]; cbn [bind]; [|discriminate].
    intros H. injection H as <-. intros [<-|Hin].
    + exists a. split; [left; reflexivity | exact F].
    + destruct (IH bs0 eq_refl Hin) as (a' & Ha & Fa). exists a'. split; [right|]; assumption.
Qed.

Lemma indices_In from n i :
  In i (indices from (Some n)) <-> from <= i < from + n.
Proof.
  unfold indices. rewrite in_map_iff. split.
  - intros (k & <- & Hk). apply in_seq in Hk. lia.
  - intros H. exists (Z.to_nat (i - from)). split; [lia|]. apply in_seq. lia.
Qed.

Lemma indices_length from n :
  0 <= n -> Z.of_nat (List.length (indices from (Some n))) = n.
Proof. intros H. unfold indices. rewrite length_map, length_seq. lia. Qed.

Ltac day_range :=
  match goal with
  | |- _ <= _ <= Time.daysInMonthOf ?y ?m =>
      let v := eval vm_compute in (Time.daysInMonthOf y m) in
      change (Time.daysInMonthOf y m) with v; lia
  end.

Lemma Day_shift t k : Time.Day (t + k * Time.msPerDay) = Time.Day t + k.
Proof. unfold Time.Day. apply Z.div_add. unfold Time.msPerDay. lia. Qed.

(** ** Grouping *)

Lemma existsb_eqb_In k l : existsb (String.eqb k) l = true <-> In k l.
Proof.
  rewrite existsb_exists. split.
  - intros (x & Hx & E). apply String.eqb_eq in E. subst. exact Hx.
  - intros H. exists k. split; [exact H | apply String.eqb_refl].
Qed.

Lemma firstOccurrences_In k l : In k (firstOccurrences l) <-> In k l.
Proof.
  induction l as [|a l IH]; cbn [firstOccurrences]; [tauto|].
  cbn [In]. rewrite filter_In, IH.
  destruct (String.eqb_spec k a) as [->|N]; cbn [negb]; intuition congruence.
Qed.

Lemma firstOccurrences_NoDup l : NoDup (firstOccurrences l).
Proof.
  induction l as [|a l IH]; cbn [firstOccurrences]; constructor.
  - rewrite filter_In, String.eqb_refl. cbn. intros [_ H]. discriminate.
  - apply NoDup_filter, IH.
Qed.

Lemma firstOccurrences_snoc l k :
  firstOccurrences (l ++ [k])
  = if existsb (String.eqb k) l then firstOccurrences l else firstOccurrences l ++ [k].
Proof.
  induction l as [|a l IH]; cbn [app firstOccurrences existsb]; [reflexivity|].
  rewrite IH.
  destruct (String.eqb_spec k a) as [->|N]; cbn [orb].
  - destruct (existsb (String.eqb a) l); [reflexivity|].
    rewrite filter_app. cbn [filter]. rewrite String.eqb_refl. cbn [negb].
    rewrite app_nil_r. reflexivity.
  - destruct (existsb (String.eqb k) l); [reflexivity|].
    rewrite filter_app. cbn [filter].
    destruct (String.eqb_spec k a); [congruence|]. reflexivity.
Qed.

Lemma ownProperty_map (f : string -> list Task) k ks :
  ownProperty k (map (fun k' => (k', f k')) ks)
  = if existsb (String.eqb k) ks then Some (f k) else None.
Proof.
  induction ks as [|a ks IH]; cbn [map ownProperty existsb]; [reflexivity|].
  rewrite (String.eqb_sym k a).
  destruct (String.eqb_spec a k) as [->|N]; cbn [orb]; [reflexivity | exact IH].
Qed.

Lemma pushTo_map (f : string -> list Task) k t ks :
  NoDup ks ->
  pushTo k t (map (fun k' => (k', f k')) ks)
  = map (fun k' => (k', if String.eqb k' k then f k' ++ [t] else f k')) ks.
Proof.
  induction ks as [|a ks IH]; intros ND; cbn [map pushTo]; [reflexivity|].
  inversion ND as [|? ? Ha ND']; subst.
  destruct (String.eqb_spec a k) as [->|N].
  - f_equal. apply map_ext_in. intros k' Hk.
    destruct (String.eqb_spec k' k) as [->|]; [contradiction | reflexivity].
  - f_equal. apply IH, ND'.
Qed.

Lemma filter_hasKey_snoc k p t :
  filter (hasKey k) (p ++ [t])
  = if String.eqb k (keyOf t) then filter (hasKey k) p ++ [t] else filter (hasKey k) p.
Proof.
  rewrite filter_app. cbn [filter]. unfold hasKey at 2.
  rewrite (String.eqb_sym k). destruct (String.eqb (keyOf t) k);
    [reflexivity | apply app_nil_r].
Qed.

Lemma keyOf_truthy t :
  truthy (dueDate t) = true ->
  exists a due, dueDate t = Some (String a due) /\ keyOf t = Str.splitHead "T" (String a due).
Proof.
  unfold truthy, keyOf. destruct (dueDate t) as [[|a due]|]; try discriminate.
  intros _. exists a, due. split; reflexivity.
Qed.

(** One step of the [forEach] on the object built from the tasks [p]. *)
Lemma groupStep_groupsOf p t :
  truthy (dueDate t) = true ->
  groupStep (groupsOf p) t
  = if negb (existsb (String.eqb (keyOf t)) (map keyOf p)) && inherited (keyOf t)
    then Throw TypeError
    else Ok (groupsOf (p ++ [t])).
Proof.
  intros T. destruct (keyOf_truthy t T) as (a & due & E & K).
  unfold groupStep. rewrite E, <- K.
  unfold groupsOf at 1 2. rewrite ownProperty_map.
  assert (X : existsb (String.eqb (keyOf t)) (firstOccurrences (map keyOf p))
              = existsb (String.eqb (keyOf t)) (map keyOf p)).
  { apply eq_true_iff_eq. rewrite !existsb_eqb_In. apply firstOccurrences_In. }
  rewrite X. unfold groupsOf. rewrite map_app. cbn [map].
  rewrite firstOccurrences_snoc.
  destruct (existsb (String.eqb (keyOf t)) (map keyOf p)) eqn:Seen; cbn [negb andb].
  - rewrite pushTo_map by apply firstOccurrences_NoDup. f_equal.
    apply map_ext. intros k. rewrite filter_hasKey_snoc.
    rewrite (String.eqb_sym k). destruct (String.eqb (keyOf t) k); reflexivity.
  - destruct (inherited (keyOf t)); [reflexivity|]. apply f_equal.
    rewrite map_app. cbn [map]. apply f_equal2.
    + apply map_ext_in. intros k Hk. rewrite filter_hasKey_snoc.
      destruct (String.eqb_spec k (keyOf t)) as [->|]; [|reflexivity].
      apply (proj1 (firstOccurrences_In _ _)) in Hk.
      apply (proj2 (existsb_eqb_In _ _)) in Hk.
      rewrite Seen in Hk. discriminate.
    + rewrite filter_hasKey_snoc, String.eqb_refl.
      assert (Hn : forall q, ~ In (keyOf t) (map keyOf q) -> filter (hasKey (keyOf t)) q = []).
      { induction q as [|b q IH]; cbn [map In filter]; [reflexivity|].
        intros H. unfold hasKey at 1. destruct (String.eqb_spec (keyOf b) (keyOf t)).
        - exfalso. apply H. left. assumption.
        - apply IH. tauto. }
      rewrite Hn; [reflexivity|]. rewrite <- existsb_eqb_In, Seen. discriminate.
Qed.

(** The whole [forEach], when no key is inherited from [Object.prototype]. *)
Lemma forEachGroup_ok p l :
  Forall (fun t => truthy (dueDate t) = true) l ->
  (forall t, In t l -> inherited (keyOf t) = false) ->
  forEachGroup (groupsOf p) l = Ok (groupsOf (p ++ l)).
Proof.
  revert p. induction l as [|t l IH]; intros p F H; cbn [forEachGroup].
  - rewrite app_nil_r. reflexivity.
  - inversion F as [|? ? Ht Fl]; subst.
    rewrite groupStep_groupsOf by exact Ht.
    rewrite (H t) by (left; reflexivity). rewrite andb_false_r. cbn [bind].
    rewrite IH by (auto; intros; apply H; right; assumption).
    rewrite <- app_assoc. reflexivity.
Qed.

(** Whenever the [forEach] completes, [grouped] is [groupsOf]. *)
Lemma forEachGroup_inv p l g :
  Forall (fun t => truthy (dueDate t) = true) l ->
  forEachGroup (groupsOf p) l = Ok g -> g = groupsOf (p ++ l).
Proof.
  revert p. induction l as [|t l IH]; intros p F; cbn [forEachGroup].
  - rewrite app_nil_r. congruence.
  - inversion F as [|? ? Ht Fl]; subst.
    rewrite groupStep_groupsOf by exact Ht.
    destruct (negb _ && _); cbn [bind]; [discriminate|].
    intros E. apply IH in E; [|exact Fl]. rewrite <- app_assoc in E. exact E.
Qed.

Lemma ownProperty_groupsOf k l :
  ownProperty k (groupsOf l)
  = if existsb (String.eqb k) (map keyOf l) then Some (filter (hasKey k) l) else None.
Proof.
  unfold groupsOf. rewrite ownProperty_map.
  replace (existsb (String.eqb k) (firstOccurrences (map keyOf l)))
    with (existsb (String.eqb k) (map keyOf l)); [reflexivity|].
  apply eq_true_iff_eq. rewrite !existsb_eqb_In. symmetry. apply firstOccurrences_In.
Qed.

Lemma groupsOf_keys l : map fst (groupsOf l) = firstOccurrences (map keyOf l).
Proof. unfold groupsOf. rewrite map_map. cbn [fst]. apply map_id. Qed.

(** *** [Object.keys] *)

Lemma insertIndex_In n k l x : In x (insertIndex n k l) <-> x = (n, k) \/ In x l.
Proof.
  induction l as [|[m k'] l IH]; cbn [insertIndex In]; [intuition|].
  destruct (n <=? m); cbn [In]; rewrite ?IH; intuition.
Qed.

Lemma indexKeys_In n k keys :
  In (n, k) (indexKeys keys) <-> In k keys /\ arrayIndex k = Some n.
Proof.
  induction keys as [|a keys IH]; cbn [indexKeys In]; [tauto|].
  destruct (arrayIndex a) as [m|] eqn:E.
  - rewrite insertIndex_In, IH. split.
    + intros [H|[H1 H2]]; [injection H as -> ->; auto | auto].
    + intros [[->|H1] H2]; [left; congruence | right; auto].
  - rewrite IH. split; [tauto|]. intros [[->|H1] H2]; [congruence | auto].
Qed.

(** [Object.keys] lists exactly the own properties. *)
Lemma objectKeys_In k o : In k (objectKeys o) <-> In k (map fst o).
Proof.
  unfold objectKeys. rewrite in_app_iff, filter_In, in_map_iff. split.
  - intros [((n & k') & <- & H)|[H _]]; [|exact H].
    apply indexKeys_In in H. apply H.
  - intros H. destruct (arrayIndex k) as [n|] eqn:E; [left | right; auto].
    exists (n, k). split; [reflexivity|]. apply indexKeys_In. auto.
Qed.

(** Without array indices among them, the keys come in creation order. *)
Lemma objectKeys_plain o :
  (forall k, In k (map fst o) -> arrayIndex k = None) ->
  objectKeys o = map fst o.
Proof.
  unfold objectKeys. generalize (map fst o) as keys. intros keys H.
  induction keys as [|a keys IH]; [reflexivity|].
  cbn [indexKeys filter]. rewrite (H a) by (left; reflexivity).
  assert (IH' := IH (fun k Hk => H k (or_intror Hk))).
  destruct (indexKeys keys) eqn:E.
  - cbn [map app] in *. f_equal. exact IH'.
  - exfalso. destruct p as [n k]. assert (In (n, k) (indexKeys keys)) as X by (rewrite E; left; reflexivity).
    apply indexKeys_In in X. destruct X as [X1 X2]. rewrite (H k) in X2 by (right; exact X1). discriminate.
Qed.

(** ** Sorting *)

Lemma insertBy_perm {A : Type} (cmp : A -> A -> Z) x l : Permutation (insertBy cmp x l) (x :: l).
Proof.
  induction l as [|y l IH]; cbn [insertBy]; [reflexivity|].
  destruct (cmp x y <=? 0); [reflexivity|].
  rewrite IH. apply perm_swap.
Qed.

Lemma sortBy_perm {A : Type} (cmp : A -> A -> Z) l : Permutation (sortBy cmp l) l.
Proof.
  induction l as [|x l IH]; cbn [sortBy]; [reflexivity|].
  rewrite insertBy_perm. constructor. exact IH.
Qed.

Lemma insertBy_ext {A : Type} (cmp cmp' : A -> A -> Z) x l :
  (forall y, In y l -> cmp x y = cmp' x y) -> insertBy cmp x l = insertBy cmp' x l.
Proof.
  induction l as [|y l IH]; intros H; cbn [insertBy]; [reflexivity|].
  rewrite (H y) by (left; reflexivity).
  rewrite IH by (intros; apply H; right; assumption). reflexivity.
Qed.

Lemma sortBy_ext {A : Type} (cmp cmp' : A -> A -> Z) l :
  (forall x y, In x l -> In y l -> cmp x y = cmp' x y) -> sortBy cmp l = sortBy cmp' l.
Proof.
  induction l as [|x l IH]; intros H; cbn [sortBy]; [reflexivity|].
  rewrite IH by (intros; apply H; right; assumption).
  apply insertBy_ext. intros y Hy. apply H; [left; reflexivity | right].
  apply (Permutation_in _ (sortBy_perm cmp' l)). exact Hy.
Qed.

Lemma insertBy_sorted {A : Type} (key : A -> Z) x l :
  StronglySorted (fun a b => key a <= key b) l ->
  StronglySorted (fun a b => key a <= key b) (insertBy (byKey key) x l).
Proof.
  induction l as [|y l IH]; intros S; cbn [insertBy].
  - constructor; constructor.
  - inversion S as [|? ? S' F]; subst. unfold byKey at 1.
    destruct (Z.leb_spec (key x - key y) 0).
    + constructor; [exact S|]. constructor; [lia|].
      eapply Forall_impl; [|exact F]. cbv beta. intros; lia.
    + constructor; [apply IH, S'|].
      apply (Permutation_Forall (Permutation_sym (insertBy_perm (byKey key) x l))).
      constructor; [lia | exact F].
Qed.

Lemma sortBy_sorted {A : Type} (key : A -> Z) l : StronglySorted (fun a b => key a <= key b) (sortBy (byKey key) l).
Proof. induction l; cbn [sortBy]; [constructor | apply insertBy_sorted; assumption]. Qed.

(** Stability: elements of equal key keep their order. *)
Lemma insertBy_stable {A : Type} (key : A -> Z) v x l :
  filter (fun a => key a =? v) (insertBy (byKey key) x l)
  = filter (fun a => key a =? v) (x :: l).
Proof.
  induction l as [|y l IH]; cbn [insertBy]; [reflexivity|].
  unfold byKey at 1. destruct (Z.leb_spec (key x - key y) 0); [reflexivity|].
  cbn [filter] in *. rewrite IH.
  destruct (Z.eqb_spec (key x) v), (Z.eqb_spec (key y) v); try reflexivity. lia.
Qed.

Lemma sortBy_stable {A : Type} (key : A -> Z) v l :
  filter (fun a => key a =? v) (sortBy (byKey key) l) = filter (fun a => key a =? v) l.
Proof.
  induction l as [|x l IH]; cbn [sortBy]; [reflexivity|].
  rewrite insertBy_stable. cbn [filter]. rewrite IH. reflexivity.
Qed.

Lemma split_dateKey y m d :
  Str.split "-" (dateKey y m d)
  = [Str.padDigits 4 y; Str.padDigits 2 m; Str.padDigits 2 d].
Proof.
  unfold dateKey.
  change ("-" ++ Str.padDigits 2 m ++ "-" ++ Str.padDigits 2 d)%string
    with (String "-" (Str.padDigits 2 m ++ String "-" (Str.padDigits 2 d)))%string.
  rewrite !split_app, split_lacks by (apply padDigits_lacks; reflexivity).
  reflexivity.
Qed.

(** ** Properties of the calendar on a host *)

Section HostProperties.

Context {host : Host}.

(** Time zones are less than a day from UTC; only the properties that need
    the bound assume it. *)
Hypothesis tza_bound : Z.abs tza <= Time.msPerDay.

(** *** [Date] objects *)

Lemma LocalTime_UTC x : LocalTime (UTC x) = x.
Proof. unfold LocalTime, UTC. lia. Qed.

Lemma UTC_LocalTime x : UTC (LocalTime x) = x.
Proof. unfold LocalTime, UTC. lia. Qed.

Lemma Date_ymd_eq y m d :
  ~ (0 <= y <= 99) ->
  Date_ymd (Some y) (Some m) (Some d)
  = Time.TimeClip (UTC (Time.MakeDate (Time.MakeDay y m d) 0)).
Proof.
  intros H. unfold Date_ymd.
  destruct (Z.leb_spec 0 y), (Z.leb_spec y 99); cbn [andb]; try reflexivity. lia.
Qed.

Lemma civil_representable y m d tod :
  -271000 <= y <= 275000 -> 0 <= m <= 11 -> 1 <= d <= Time.daysInMonthOf y m ->
  0 <= tod < Time.msPerDay ->
  Z.abs (UTC (Time.MakeDate (Time.MakeDay y m d) tod)) <= Time.maxTime.
Proof.
  intros Hy Hm Hd Ht.
  pose proof (MakeDay_within_year y m d Hm Hd).
  pose proof (DayFromYear_representable y Hy).
  unfold UTC, Time.MakeDate, Time.maxTime, Time.msPerDay in *. lia.
Qed.

(** The local fields of a date whose local time is a civil date. *)
Lemma local_fields u y m d tod :
  0 <= m <= 11 -> 1 <= d <= Time.daysInMonthOf y m -> 0 <= tod < Time.msPerDay ->
  LocalTime u = Time.MakeDate (Time.MakeDay y m d) tod ->
  getFullYear (Some u) = Some y /\ getMonth (Some u) = Some m /\
  getDate (Some u) = Some d.
Proof.
  intros Hm Hd Ht E.
  destruct (components_MakeDay y m d tod Hm Hd Ht) as (Y & M & D).
  unfold getFullYear, getMonth, getDate. cbn [option_map].
  rewrite E, Y, M, D. auto.
Qed.

(** [new Date(y, m, d)] is the local midnight of the civil date. *)
Lemma Date_ymd_fields y m d :
  plainYear y -> 0 <= m <= 11 -> 1 <= d <= Time.daysInMonthOf y m ->
  exists u,
    Date_ymd (Some y) (Some m) (Some d) = Some u /\
    LocalTime u = Time.MakeDate (Time.MakeDay y m d) 0 /\
    getFullYear (Some u) = Some y /\ getMonth (Some u) = Some m /\
    getDate (Some u) = Some d.
Proof.
  intros [Hy Hp] Hm Hd.
  exists (UTC (Time.MakeDate (Time.MakeDay y m d) 0)).
  rewrite Date_ymd_eq by exact Hp.
  rewrite TimeClip_ok by (apply civil_representable; auto; unfold Time.msPerDay; lia).
  split; [reflexivity|]. split; [apply LocalTime_UTC|].
  apply (local_fields _ y m d 0); auto; [unfold Time.msPerDay; lia | apply LocalTime_UTC].
Qed.

(** Moving the date field by [k] days moves the time value by [k] days. *)
Lemma setDate_shift t k :
  setDate (Some t) (numAdd (getDate (Some t)) (Some k))
  = Time.TimeClip (t + k * Time.msPerDay).
Proof.
  unfold setDate, getDate, numAdd. cbn [option_map].
  rewrite MakeDay_components. f_equal.
  pose proof (MakeDate_Day (LocalTime t)) as E.
  unfold UTC, Time.MakeDate, LocalTime in *. lia.
Qed.

Lemma Date_ymd_localMidnight y m d :
  plainYear y -> 0 <= m <= 11 -> 1 <= d <= Time.daysInMonthOf y m ->
  Date_ymd (Some y) (Some m) (Some d) = Some (localMidnight y m d).
Proof.
  intros [Hy Hp] Hm Hd. rewrite Date_ymd_eq by exact Hp.
  apply TimeClip_ok, civil_representable; auto. unfold Time.msPerDay; lia.
Qed.

Lemma localMidnight_fields y m d :
  0 <= m <= 11 -> 1 <= d <= Time.daysInMonthOf y m ->
  getFullYear (Some (localMidnight y m d)) = Some y /\
  getMonth (Some (localMidnight y m d)) = Some m /\
  getDate (Some (localMidnight y m d)) = Some d.
Proof.
  intros Hm Hd. apply (local_fields _ y m d 0); auto.
  - unfold Time.msPerDay; lia.
  - apply LocalTime_UTC.
Qed.

(** *** The bucket filter *)

Lemma onDate_valid t task : onDate (Some t) task = Ok (dueOn (isoDateString t) task).
Proof.
  unfold onDate, dueOn.
  destruct (dueDate task) as [[|a due]|]; try reflexivity.
  destruct (toISOString_key t) as (iso & E & K).
  rewrite E. cbn [bind]. rewrite K. reflexivity.
Qed.

(** On a valid date [getTasksForDate] returns, and returns the filtered
    collection in its order. *)
Lemma getTasksForDate_valid tasks t :
  getTasksForDate tasks (Some t) = Ok (tasksOnDate tasks t).
Proof.
  unfold getTasksForDate, tasksOnDate.
  induction tasks as [|a tasks IH]; cbn [filterM filter]; [reflexivity|].
  rewrite onDate_valid, IH. reflexivity.
Qed.

(** *** The bucket key of a calendar cell *)

Lemma MakeDate_borrow day tod k :
  Time.MakeDate day tod - k = Time.MakeDate (day - 1) (Time.msPerDay + tod - k).
Proof. unfold Time.MakeDate. lia. Qed.

Lemma isoDateString_civil y m d tod :
  0 <= m <= 11 -> 1 <= d <= Time.daysInMonthOf y m -> 0 <= tod < Time.msPerDay ->
  isoDateString (Time.MakeDate (Time.MakeDay y m d) tod)
  = (isoYearString y ++ "-" ++ Str.padDigits 2 (m + 1) ++ "-" ++ Str.padDigits 2 d)%string.
Proof.
  intros Hm Hd Ht. unfold isoDateString.
  destruct (components_MakeDay y m d tod Hm Hd Ht) as (-> & -> & ->). reflexivity.
Qed.

(** At or west of UTC the cell of a local day carries that day's own key. *)
Lemma cell_key_west y m d :
  - Time.msPerDay < tza <= 0 ->
  0 <= m <= 11 -> 1 <= d <= Time.daysInMonthOf y m ->
  isoDateString (localMidnight y m d)
  = (isoYearString y ++ "-" ++ Str.padDigits 2 (m + 1) ++ "-" ++ Str.padDigits 2 d)%string.
Proof.
  intros Hz Hm Hd. unfold localMidnight, UTC.
  replace (Time.MakeDate (Time.MakeDay y m d) 0 - tza)
    with (Time.MakeDate (Time.MakeDay y m d) (- tza)) by (unfold Time.MakeDate; lia).
  apply isoDateString_civil; auto. lia.
Qed.

(** East of UTC the local midnight is still the previous day in UTC, so the
    cell of local day [d] carries the key of day [d - 1]: it lists the tasks
    whose [dueDate] names the day before. *)
Lemma cell_key_east y m d :
  0 < tza <= Time.msPerDay ->
  0 <= m <= 11 -> 2 <= d <= Time.daysInMonthOf y m ->
  isoDateString (localMidnight y m d)
  = (isoYearString y ++ "-" ++ Str.padDigits 2 (m + 1) ++ "-"
       ++ Str.padDigits 2 (d - 1))%string.
Proof.
  intros Hz Hm Hd. unfold localMidnight, UTC.
  rewrite MakeDate_borrow.
  replace (Time.MakeDay y m d - 1) with (Time.MakeDay y m (d - 1))
    by (unfold Time.MakeDay; lia).
  apply isoDateString_civil; auto; lia.
Qed.

(** *** Navigation *)

(** C9. [navigate] changes only the anchor date: for every state (every
    anchor date and each of the five view modes) and both directions, the
    view mode after navigation is the view mode before. *)
Theorem navigate_preserves_viewMode (direction : Direction) (s : ViewState) :
  viewMode (navigate direction s) = viewMode s /\
  navigate direction s
  = {| currentDate := currentDate (navigate direction s); viewMode := viewMode s |}.
Proof. split; reflexivity. Qed.

Lemma setMonth_local u y m d k :
  0 <= m <= 11 -> 1 <= d <= Time.daysInMonthOf y m ->
  LocalTime u = Time.MakeDate (Time.MakeDay y m d) 0 ->
  setMonth (Some u) (numAdd (getMonth (Some u)) (Some k))
  = Time.TimeClip (UTC (Time.MakeDate (Time.MakeDay y (m + k) d) 0)).
Proof.
  intros Hm Hd E.
  assert (Ht : 0 <= 0 < Time.msPerDay) by (unfold Time.msPerDay; lia).
  destruct (components_MakeDay y m d 0 Hm Hd Ht) as (Y & M & D).
  unfold setMonth, getMonth, numAdd. cbn [option_map].
  rewrite E, Y, M, D, TimeWithinDay_MakeDate by exact Ht. reflexivity.
Qed.

(** C2 (what the code does). In Month view, [next] from January 31 does not
    clamp to the end of February: [setMonth] carries the overflowing days
    into March, giving March 2 in 2024 and March 3 in 2023. *)
Theorem navigate_month_overflows :
  (let s := {| currentDate := Date_ymd (Some 2024) (Some 0) (Some 31);
               viewMode := Month |} in
   let d := currentDate (navigate next s) in
   getFullYear d = Some 2024 /\ getMonth d = Some 2 /\ getDate d = Some 2) /\
  (let s := {| currentDate := Date_ymd (Some 2023) (Some 0) (Some 31);
               viewMode := Month |} in
   let d := currentDate (navigate next s) in
   getFullYear d = Some 2023 /\ getMonth d = Some 2 /\ getDate d = Some 3).
Proof.
  assert (P : forall y, 2023 <= y <= 2024 -> plainYear y) by (unfold plainYear; lia).
  split; cbn zeta; cbn [navigate currentDate viewMode].
  - destruct (Date_ymd_fields 2024 0 31) as (u & E & L & _);
      [apply P; lia | lia | day_range |].
    rewrite E, (setMonth_local u 2024 0 31 1) by first [lia | exact L | day_range].
    change (Time.MakeDay 2024 (0 + 1) 31) with (Time.MakeDay 2024 2 2).
    fold (localMidnight 2024 2 2).
    rewrite TimeClip_ok
      by (apply civil_representable; first [lia | day_range | (unfold Time.msPerDay; lia)]).
    apply localMidnight_fields; [lia | day_range].
  - destruct (Date_ymd_fields 2023 0 31) as (u & E & L & _);
      [apply P; lia | lia | day_range |].
    rewrite E, (setMonth_local u 2023 0 31 1) by first [lia | exact L | day_range].
    change (Time.MakeDay 2023 (0 + 1) 31) with (Time.MakeDay 2023 2 3).
    fold (localMidnight 2023 2 3).
    rewrite TimeClip_ok
      by (apply civil_representable; first [lia | day_range | (unfold Time.msPerDay; lia)]).
    apply localMidnight_fields; [lia | day_range].
Qed.

(** *** Week view *)

Lemma LocalTime_shift t k : LocalTime (t + k) = LocalTime t + k.
Proof. unfold LocalTime. lia. Qed.

Lemma startOfWeek_eq s t :
  currentDate s = Some t ->
  startOfWeek s = Time.TimeClip (t - Time.WeekDay (LocalTime t) * Time.msPerDay).
Proof.
  intros E. unfold startOfWeek. rewrite E.
  change (numSub (getDate (Some t)) (getDay (Some t)))
    with (numAdd (getDate (Some t)) (Some (- Time.WeekDay (LocalTime t)))).
  rewrite setDate_shift. f_equal. lia.
Qed.

(** C6. For an anchor [t] (seven days inside the range of time values) the
    week starts at the anchor minus its weekday index in days, which is a
    Sunday (index 0); the Week view has exactly 7 columns, on the 7
    consecutive calendar days from that start, and each column holds the
    tasks the date-bucket filter returns for its date. *)
Theorem week_view_window (tasks : list Task) (now : Z) (s : ViewState) (t : Z) :
  currentDate s = Some t ->
  Z.abs t <= Time.maxTime - 7 * Time.msPerDay ->
  let start := t - Time.WeekDay (LocalTime t) * Time.msPerDay in
  let dayAt i := start + i * Time.msPerDay in
  getDay (currentDate s) = Some (Time.WeekDay (LocalTime t)) /\
  startOfWeek s = Some start /\
  Time.WeekDay (LocalTime start) = 0 /\
  weekDays s = map (fun i => Some (dayAt i)) [0; 1; 2; 3; 4; 5; 6] /\
  (forall i, Time.Day (LocalTime (dayAt i)) = Time.Day (LocalTime start) + i) /\
  exists columns,
    renderWeekView tasks now s = Ok columns /\
    List.length columns = 7%nat /\
    map week_date columns = weekDays s /\
    Forall (fun c => getTasksForDate tasks (week_date c) = Ok (dayTasks c)) columns.
Proof.
  intros E R start dayAt.
  pose proof (WeekDay_range (LocalTime t)) as W.
  assert (S : startOfWeek s = Some start).
  { rewrite (startOfWeek_eq s t E). apply TimeClip_ok.
    unfold Time.maxTime, Time.msPerDay in *. lia. }
  assert (D : weekDays s = map (fun i => Some (dayAt i)) [0; 1; 2; 3; 4; 5; 6]).
  { unfold weekDays. rewrite S. change (indices 0 (Some 7)) with [0; 1; 2; 3; 4; 5; 6].
    apply map_ext_in. intros i Hi. rewrite setDate_shift. apply TimeClip_ok.
    assert (0 <= i <= 6) by (cbn in Hi; lia).
    subst dayAt start. cbv beta. unfold Time.maxTime, Time.msPerDay in *. lia. }
  split; [rewrite E; reflexivity|]. split; [exact S|]. split.
  { subst start. unfold Time.WeekDay.
    replace (LocalTime (t - (Time.Day (LocalTime t) + 4) mod 7 * Time.msPerDay))
      with (LocalTime t + - ((Time.Day (LocalTime t) + 4) mod 7) * Time.msPerDay)
      by (unfold LocalTime; lia).
    rewrite Day_shift. Z.div_mod_to_equations. lia. }
  split; [exact D|]. split.
  { intros i. unfold dayAt. rewrite LocalTime_shift. apply Day_shift. }
  eexists. split.
  { unfold renderWeekView. rewrite D. apply mapM_pure.
    intros date Hd. apply in_map_iff in Hd. destruct Hd as (i & <- & _).
    rewrite getTasksForDate_valid. cbn [bind].
    instantiate (1 := fun date =>
      {| week_date := date; week_isToday := isSameDate (Some now) date;
         dayTasks := match date with Some u => tasksOnDate tasks u | None => [] end |}).
    reflexivity. }
  split; [reflexivity|]. split.
  { rewrite map_map. cbn [week_date]. rewrite map_id. symmetry. exact D. }
  apply Forall_forall. intros c Hc. apply in_map_iff in Hc. destruct Hc as (date & <- & Hd).
  apply in_map_iff in Hd. destruct Hd as (i & <- & _).
  cbn [week_date dayTasks]. apply getTasksForDate_valid.
Qed.

(** *** Month and Year views *)

Lemma lastDay_getDate y m :
  plainYear y -> 0 <= m <= 11 ->
  getDate (Date_ymd (Some y) (Some (m + 1)) (Some 0)) = Some (Time.daysInMonthOf y m).
Proof.
  intros P Hm. pose proof (daysInMonthOf_range y m Hm) as R.
  rewrite Date_ymd_eq by apply P. rewrite MakeDay_day0 by exact Hm.
  rewrite <- Date_ymd_eq by apply P.
  rewrite Date_ymd_localMidnight by (auto; lia).
  apply localMidnight_fields; lia.
Qed.

Lemma firstDay_getDay y m :
  plainYear y -> 0 <= m <= 11 ->
  getDay (Date_ymd (Some y) (Some m) (Some 1))
  = Some (Time.WeekDay (LocalTime (localMidnight y m 1))).
Proof.
  intros P Hm. pose proof (daysInMonthOf_range y m Hm) as R.
  rewrite Date_ymd_localMidnight by (auto; lia). reflexivity.
Qed.

(** C5. For an anchor in month [M] of a year [Y] that [Date] takes as it is,
    with [O] the weekday index (Sunday = 0) of day 1 of the month and [n] the
    number of days of the month, the Month view grid is [O] empty cells
    followed by one cell per day 1..[n], each with the tasks of the
    date-bucket filter for its date: [O + n] cells and no trailing padding.
    January 2024 gives 32 cells. *)
Theorem month_grid_length (tasks : list Task) (now : Z) (s : ViewState) (t : Z) :
  currentDate s = Some t ->
  let Y := Time.YearFromTime (LocalTime t) in
  let M := Time.MonthFromTime (LocalTime t) in
  plainYear Y ->
  let O := Time.WeekDay (LocalTime (localMidnight Y M 1)) in
  let n := Time.daysInMonthOf Y M in
  monthFirstDay s = Some O /\ monthDaysInMonth s = Some n /\
  0 <= O <= 6 /\ 28 <= n <= 31 /\
  exists cells,
    renderMonthView tasks now s = Ok cells /\
    cells = map EmptyCell (indices 0 (Some O)) ++
            map (fun day =>
                   DayCell day (Some (localMidnight Y M day))
                           (isSameDate (Some now) (Some (localMidnight Y M day)))
                           (tasksOnDate tasks (localMidnight Y M day)))
                (indices 1 (Some n)) /\
    Z.of_nat (List.length cells) = O + n /\
    (Y = 2024 -> M = 0 -> List.length cells = 32%nat).
Proof.
  intros E Y M P O n.
  pose proof (MonthFromTime_range (LocalTime t)) as HM. fold M in HM.
  pose proof (daysInMonthOf_range Y M HM) as HN. fold n in HN.
  pose proof (WeekDay_range (LocalTime (localMidnight Y M 1))) as HO. fold O in HO.
  assert (F : monthFirstDay s = Some O).
  { unfold monthFirstDay. rewrite E. apply firstDay_getDay; auto. }
  assert (L : monthDaysInMonth s = Some n).
  { unfold monthDaysInMonth. rewrite E. apply lastDay_getDate; auto. }
  repeat (split; [assumption || lia|]).
  eexists. split; [|split; [reflexivity|]].
  - unfold renderMonthView. rewrite F, L, E.
    change (getFullYear (Some t)) with (Some Y). change (getMonth (Some t)) with (Some M).
    rewrite (mapM_pure _ (fun day =>
                   DayCell day (Some (localMidnight Y M day))
                           (isSameDate (Some now) (Some (localMidnight Y M day)))
                           (tasksOnDate tasks (localMidnight Y M day)))).
    + reflexivity.
    + intros day Hd. apply indices_In in Hd.
      rewrite Date_ymd_localMidnight by (auto; fold n; lia).
      rewrite getTasksForDate_valid. reflexivity.
  - assert (Len : Z.of_nat (List.length
        (map EmptyCell (indices 0 (Some O)) ++
         map (fun day =>
                DayCell day (Some (localMidnight Y M day))
                        (isSameDate (Some now) (Some (localMidnight Y M day)))
                        (tasksOnDate tasks (localMidnight Y M day)))
             (indices 1 (Some n)))) = O + n).
    { rewrite List.length_app, !length_map, Nat2Z.inj_add, !indices_length by lia. reflexivity. }
    split; [exact Len|].
    intros EY EM. apply Nat2Z.inj. rewrite Len. subst O n. rewrite EY, EM.
    unfold localMidnight. rewrite LocalTime_UTC. reflexivity.
Qed.

Lemma renderYearMonth_plain tasks now y mi :
  plainYear y -> 0 <= mi <= 11 ->
  renderYearMonth tasks now (Some y) mi
  = Ok (map PadCell (indices 0 (Some (Time.WeekDay (LocalTime (localMidnight y mi 1))))) ++
        map (fun d =>
               MiniDay d (Some (localMidnight y mi d))
                       (0 <? Z.of_nat (List.length (tasksOnDate tasks (localMidnight y mi d))))
                       (isSameDate (Some now) (Some (localMidnight y mi d))))
            (indices 1 (Some (Time.daysInMonthOf y mi)))).
Proof.
  intros P Hm. unfold renderYearMonth.
  rewrite lastDay_getDate, firstDay_getDay by assumption.
  rewrite (mapM_pure _ (fun d =>
               MiniDay d (Some (localMidnight y mi d))
                       (0 <? Z.of_nat (List.length (tasksOnDate tasks (localMidnight y mi d))))
                       (isSameDate (Some now) (Some (localMidnight y mi d))))).
  - reflexivity.
  - intros d Hd. apply indices_In in Hd.
    rewrite Date_ymd_localMidnight by (auto; lia).
    rewrite getTasksForDate_valid. reflexivity.
Qed.

(** C8. In the Year view of an anchor in a year [Y] that [Date] takes as
    it is, every day [d] of every month [mi] has a cell; selecting a day
    cell switches the view mode to Day and sets the anchor to that cell's
    date, whose year, month and day are [Y], [mi] and [d].  No other
    selection (cell, add button or task chip of the other views) changes the
    view mode. *)
Theorem year_day_selection (tasks : list Task) (now : Z) (s : ViewState) (t : Z) :
  currentDate s = Some t ->
  let Y := Time.YearFromTime (LocalTime t) in
  plainYear Y ->
  (exists cellsOf,
     renderYearView tasks now s = Ok (map cellsOf (indices 0 (Some 12))) /\
     forall mi, 0 <= mi <= 11 ->
       (forall d, 1 <= d <= Time.daysInMonthOf Y mi ->
          exists date hasTasks isToday, In (MiniDay d date hasTasks isToday) (cellsOf mi)) /\
       (forall d date hasTasks isToday,
          In (MiniDay d date hasTasks isToday) (cellsOf mi) ->
          let s' := step now s (ClickYearDay date) in
          viewMode s' = Day /\ currentDate s' = date /\
          getFullYear (currentDate s') = Some Y /\
          getMonth (currentDate s') = Some mi /\
          getDate (currentDate s') = Some d)) /\
  (forall now0 s0 e,
     isSelection e = true -> viewMode (step now0 s0 e) <> viewMode s0 ->
     exists date, e = ClickYearDay date /\ viewMode (step now0 s0 e) = Day).
Proof.
  intros E Y P. split.
  - eexists. split.
    + unfold renderYearView. rewrite E. change (getFullYear (Some t)) with (Some Y).
      apply mapM_pure. intros mi Hmi. apply indices_In in Hmi.
      rewrite renderYearMonth_plain by (auto; lia).
      instantiate (1 := fun mi =>
        map PadCell (indices 0 (Some (Time.WeekDay (LocalTime (localMidnight Y mi 1))))) ++
        map (fun d =>
               MiniDay d (Some (localMidnight Y mi d))
                       (0 <? Z.of_nat (List.length (tasksOnDate tasks (localMidnight Y mi d))))
                       (isSameDate (Some now) (Some (localMidnight Y mi d))))
            (indices 1 (Some (Time.daysInMonthOf Y mi)))).
      reflexivity.
    + intros mi Hmi. cbv beta. split.
      * intros d Hd. do 3 eexists. apply in_or_app. right.
        apply in_map_iff. exists d. split; [reflexivity|]. apply indices_In. lia.
      * intros d date hasTasks isToday Hin. cbn zeta.
        cbn [step selectYearDay viewMode currentDate].
        apply in_app_or in Hin. destruct Hin as [Hin|Hin].
        { apply in_map_iff in Hin. destruct Hin as (i & Hi & _). discriminate Hi. }
        apply in_map_iff in Hin. destruct Hin as (d' & Hc & Hd).
        injection Hc as -> <- _ _. apply indices_In in Hd.
        split; [reflexivity|]. split; [reflexivity|].
        apply localMidnight_fields; lia.
  - intros now0 s0 e Sel Ch. destruct e; try discriminate Sel.
    + exists date. split; reflexivity.
    + exfalso. apply Ch. reflexivity.
    + exfalso. apply Ch. reflexivity.
Qed.

(** *** Schedule view *)

Lemma sortedTasks_perm tasks :
  Permutation (sortedTasks tasks) (filter (fun t => truthy (dueDate t)) tasks).
Proof. apply sortBy_perm. Qed.

Lemma sortedTasks_In tasks t :
  In t (sortedTasks tasks) <-> In t tasks /\ truthy (dueDate t) = true.
Proof.
  rewrite <- (filter_In (fun t => truthy (dueDate t))). split; apply Permutation_in;
    [|apply Permutation_sym]; apply sortedTasks_perm.
Qed.

Lemma sortedTasks_truthy tasks :
  Forall (fun t => truthy (dueDate t) = true) (sortedTasks tasks).
Proof. apply Forall_forall. intros t H. apply sortedTasks_In in H. apply H. Qed.

(** Whenever the Schedule view renders, its groups are the bucket keys of
    the sorted tasks, each with the sorted tasks of that key. *)
Lemma schedule_groups tasks now groups :
  renderScheduleView tasks now = Ok groups ->
  (forall g, In g groups ->
     In (dateStr g) (map keyOf (sortedTasks tasks)) /\
     groupTasks g = filter (hasKey (dateStr g)) (sortedTasks tasks) /\
     displayDate g = scheduleDisplayDate (dateStr g)) /\
  (forall k, In k (map keyOf (sortedTasks tasks)) ->
     exists g, In g groups /\ dateStr g = k).
Proof.
  unfold renderScheduleView. change (@nil (string * list Task)) with (groupsOf []).
  destruct (forEachGroup (groupsOf []) (sortedTasks tasks)) as [grouped|e] eqn:E;
    cbn [bind]; [|discriminate].
  apply forEachGroup_inv in E; [|apply sortedTasks_truthy]. cbn [app] in E. subst grouped.
  intros H. injection H as <-. split.
  - intros g Hg. apply in_map_iff in Hg. destruct Hg as (k & <- & Hk).
    cbn [dateStr groupTasks displayDate].
    apply objectKeys_In in Hk. rewrite groupsOf_keys in Hk.
    apply (proj1 (firstOccurrences_In _ _)) in Hk.
    split; [exact Hk|]. split; [|reflexivity].
    rewrite ownProperty_groupsOf.
    apply (proj2 (existsb_eqb_In _ _)) in Hk. rewrite Hk. reflexivity.
  - intros k Hk. eexists. split.
    + apply in_map_iff. exists k. split; [reflexivity|].
      apply objectKeys_In. rewrite groupsOf_keys. apply firstOccurrences_In. exact Hk.
    + reflexivity.
Qed.

(** It renders whenever no bucket key is inherited from [Object.prototype],
    and lists the keys in order of first occurrence when none is an array
    index. *)
Lemma schedule_plain tasks now :
  (forall t, In t (sortedTasks tasks) ->
     arrayIndex (keyOf t) = None /\ inherited (keyOf t) = false) ->
  exists groups,
    renderScheduleView tasks now = Ok groups /\
    map dateStr groups = firstOccurrences (map keyOf (sortedTasks tasks)).
Proof.
  intros H. unfold renderScheduleView. change (@nil (string * list Task)) with (groupsOf []).
  rewrite forEachGroup_ok;
    [|apply sortedTasks_truthy | intros t Ht; apply H, Ht].
  cbn [bind app]. eexists. split; [reflexivity|].
  rewrite map_map. cbn [dateStr]. rewrite map_id.
  rewrite objectKeys_plain; [apply groupsOf_keys|].
  intros k Hk. rewrite groupsOf_keys in Hk.
  apply (proj1 (firstOccurrences_In _ _)) in Hk.
  apply in_map_iff in Hk. destruct Hk as (t & <- & Ht). apply H, Ht.
Qed.

Lemma compareDue_byKey a b :
  timeOf a <> None -> timeOf b <> None -> compareDue a b = byKey timeValue a b.
Proof.
  unfold compareDue, byKey, timeValue.
  destruct (timeOf a), (timeOf b); cbn [numSub]; congruence.
Qed.

Lemma sortedTasks_byKey tasks :
  (forall t, In t tasks -> truthy (dueDate t) = true -> timeOf t <> None) ->
  sortedTasks tasks
  = sortBy (byKey timeValue) (filter (fun t => truthy (dueDate t)) tasks).
Proof.
  intros H. unfold sortedTasks. apply sortBy_ext.
  intros x y Hx Hy. apply filter_In in Hx, Hy.
  apply compareDue_byKey; apply H; tauto.
Qed.

Lemma Number_padDigits w n :
  (0 < w <= 15)%nat -> 0 <= n < 10 ^ Z.of_nat w ->
  Number_ (Str.padDigits w n) = Some n.
Proof.
  intros Hw Hn. unfold Number_.
  rewrite decimal_padDigits, padDigits_length by (lia || assumption).
  destruct (Nat.leb_spec w 15); [reflexivity | lia].
Qed.

Lemma scheduleDisplayDate_dateKey y m d :
  0 <= y <= 9999 -> 0 <= m <= 99 -> 0 <= d <= 99 ->
  scheduleDisplayDate (dateKey y m d) = Date_ymd (Some y) (Some (m - 1)) (Some d).
Proof.
  intros Hy Hm Hd. unfold scheduleDisplayDate. cbv zeta.
  rewrite split_dateKey. cbn [map nth].
  rewrite !Number_padDigits by (cbn; lia). reflexivity.
Qed.

(** C4 (amended). A task whose present [dueDate] does not parse makes no
    bucket filter fail on a valid date: it is in the bucket of a date iff
    the text before its first [T] equals the date's key, hence in no bucket
    when that text is shorter than a key.  The Schedule view does not test
    whether the date parses: when it renders, the task is in the group keyed
    by that text. *)
Theorem unparsable_due_dates (tasks : list Task) (T : Task) (due : string) :
  In T tasks -> dueDate T = Some due -> due <> EmptyString -> Date_parse due = None ->
  (forall t, exists onDay,
     getTasksForDate tasks (Some t) = Ok onDay /\
     (In T onDay <-> Str.splitHead "T" due = isoDateString t) /\
     ((String.length (Str.splitHead "T" due) < 10)%nat -> ~ In T onDay)) /\
  (forall now groups, renderScheduleView tasks now = Ok groups ->
     exists g, In g groups /\ dateStr g = Str.splitHead "T" due /\ In T (groupTasks g)).
Proof.
  intros HT HD NE _.
  assert (Tr : truthy (dueDate T) = true) by (rewrite HD; destruct due; [congruence | reflexivity]).
  assert (Ky : keyOf T = Str.splitHead "T" due) by (unfold keyOf; rewrite HD; reflexivity).
  split.
  - intros t. exists (tasksOnDate tasks t). split; [apply getTasksForDate_valid|].
    assert (I : In T (tasksOnDate tasks t) <-> Str.splitHead "T" due = isoDateString t).
    { unfold tasksOnDate. rewrite filter_In. unfold dueOn. rewrite HD.
      destruct due; [congruence|]. rewrite String.eqb_eq. intuition congruence. }
    split; [exact I|]. intros Len Hin. apply I in Hin. rewrite Hin in Len.
    pose proof (isoDateString_length t). lia.
  - intros now groups R. destruct (schedule_groups tasks now groups R) as [G1 G2].
    assert (S : In T (sortedTasks tasks)) by (apply sortedTasks_In; auto).
    destruct (G2 (keyOf T)) as (g & Hg & Hk); [apply in_map, S|].
    exists g. split; [exact Hg|]. split; [congruence|].
    destruct (G1 g Hg) as (_ & -> & _). apply filter_In. split; [exact S|].
    unfold hasKey. rewrite Hk. apply String.eqb_refl.
Qed.

(** The three due dates of the example are local date-times. *)
Lemma parse_example (due : string) (local : Z) :
  parseIso due = Some (Time.TimeClip (UTC local)) ->
  Z.abs local <= 8000000000000000 ->
  Date_parse due = Some (local - tza).
Proof.
  intros E B. unfold Date_parse. rewrite E. apply TimeClip_ok.
  unfold UTC, Time.maxTime, Time.msPerDay in *. lia.
Qed.

Lemma parse_example_0900 : Date_parse "2024-05-10T09:00" = Some (1715331600000 - tza).
Proof. apply parse_example; [cbv -[UTC Time.TimeClip]; reflexivity | lia]. Qed.

Lemma parse_example_2300 : Date_parse "2024-05-09T23:00" = Some (1715295600000 - tza).
Proof. apply parse_example; [cbv -[UTC Time.TimeClip]; reflexivity | lia]. Qed.

Lemma parse_example_0100 : Date_parse "2024-05-10T01:00" = Some (1715302800000 - tza).
Proof. apply parse_example; [cbv -[UTC Time.TimeClip]; reflexivity | lia]. Qed.

Lemma sorted_example a b c :
  dueDate a = Some "2024-05-10T09:00"%string ->
  dueDate b = Some "2024-05-09T23:00"%string ->
  dueDate c = Some "2024-05-10T01:00"%string ->
  sortedTasks [a; b; c] = [b; c; a].
Proof.
  intros Ha Hb Hc.
  assert (Ta : timeOf a = Some (1715331600000 - tza))
    by (unfold timeOf; rewrite Ha; apply parse_example_0900).
  assert (Tb : timeOf b = Some (1715295600000 - tza))
    by (unfold timeOf; rewrite Hb; apply parse_example_2300).
  assert (Tc : timeOf c = Some (1715302800000 - tza))
    by (unfold timeOf; rewrite Hc; apply parse_example_0100).
  assert (C : forall x y vx vy, timeOf x = Some vx -> timeOf y = Some vy ->
                compareDue x y = vx - vy).
  { intros x y vx vy Hx Hy. rewrite compareDue_byKey by congruence.
    unfold byKey, timeValue. rewrite Hx, Hy. reflexivity. }
  unfold sortedTasks. cbn [filter]. rewrite Ha, Hb, Hc. cbn [truthy sortBy insertBy].
  rewrite (C b c _ _ Tb Tc).
  destruct (Z.leb_spec (1715295600000 - tza - (1715302800000 - tza)) 0); [|lia].
  cbn [insertBy]. rewrite (C a b _ _ Ta Tb).
  destruct (Z.leb_spec (1715331600000 - tza - (1715295600000 - tza)) 0); [lia|].
  rewrite (C a c _ _ Ta Tc).
  destruct (Z.leb_spec (1715331600000 - tza - (1715302800000 - tza)) 0); [lia|].
  reflexivity.
Qed.

(** C3 (amended).  When every present due date parses and no bucket key is
    an array index or a name inherited from [Object.prototype], the Schedule
    view keeps the tasks with a present due date, sorts them by time value
    (ascending, equal time values in input order) and groups them by bucket
    key: the groups follow the first occurrences of the keys in the sorted
    list and each holds the sorted tasks of its key.  For tasks due
    "2024-05-10T09:00", "2024-05-09T23:00" and "2024-05-10T01:00" that is
    2024-05-09 with the second task, then 2024-05-10 with the third task
    followed by the first: chronological order, not input order. *)
Theorem schedule_grouping_order (now : Z) :
  (forall tasks,
     (forall t, In t tasks -> truthy (dueDate t) = true ->
        timeOf t <> None /\ arrayIndex (keyOf t) = None /\ inherited (keyOf t) = false) ->
     let present := filter (fun t => truthy (dueDate t)) tasks in
     let sorted := sortedTasks tasks in
     Permutation sorted present /\
     StronglySorted (fun x y => timeValue x <= timeValue y) sorted /\
     (forall v, filter (fun t => timeValue t =? v) sorted
                = filter (fun t => timeValue t =? v) present) /\
     exists groups,
       renderScheduleView tasks now = Ok groups /\
       map dateStr groups = firstOccurrences (map keyOf sorted) /\
       forall g, In g groups -> groupTasks g = filter (hasKey (dateStr g)) sorted) /\
  (forall a b c,
     dueDate a = Some "2024-05-10T09:00"%string ->
     dueDate b = Some "2024-05-09T23:00"%string ->
     dueDate c = Some "2024-05-10T01:00"%string ->
     exists g1 g2,
       renderScheduleView [a; b; c] now = Ok [g1; g2] /\
       dateStr g1 = "2024-05-09"%string /\ groupTasks g1 = [b] /\
       dateStr g2 = "2024-05-10"%string /\ groupTasks g2 = [c; a]).
Proof.
  split.
  - intros tasks H present sorted.
    assert (B : sorted = sortBy (byKey timeValue) present).
    { apply sortedTasks_byKey. intros t Ht Tr. apply (H t Ht Tr). }
    split; [apply sortedTasks_perm|].
    split; [rewrite B; apply sortBy_sorted|].
    split; [intros v; rewrite B; apply sortBy_stable|].
    destruct (schedule_plain tasks now) as (groups & R & K).
    { intros t Ht. apply sortedTasks_In in Ht. destruct Ht as [Ht Tr].
      destruct (H t Ht Tr) as (_ & I & P). auto. }
    exists groups. split; [exact R|]. split; [exact K|].
    intros g Hg. destruct (schedule_groups tasks now groups R) as [G _].
    apply (G g Hg).
  - intros a b c Ha Hb Hc.
    assert (Ka : keyOf a = "2024-05-10"%string) by (unfold keyOf; rewrite Ha; reflexivity).
    assert (Kb : keyOf b = "2024-05-09"%string) by (unfold keyOf; rewrite Hb; reflexivity).
    assert (Kc : keyOf c = "2024-05-10"%string) by (unfold keyOf; rewrite Hc; reflexivity).
    unfold renderScheduleView. rewrite (sorted_example a b c Ha Hb Hc).
    change (@nil (string * list Task)) with (groupsOf []).
    rewrite forEachGroup_ok.
    + assert (G : groupsOf ([] ++ [b; c; a])
                  = [("2024-05-09"%string, [b]); ("2024-05-10"%string, [c; a])]).
      { unfold groupsOf, hasKey. cbn [app map filter]. rewrite Ka, Kb, Kc. reflexivity. }
      rewrite G. cbn [bind].
      do 2 eexists. split; [reflexivity|]. repeat split; reflexivity.
    + repeat constructor; unfold truthy; rewrite ?Ha, ?Hb, ?Hc; reflexivity.
    + intros t [<-|[<-|[<-|[]]]]; rewrite ?Ka, ?Kb, ?Kc; reflexivity.
Qed.

End HostProperties.

(** ** Task creation *)

(** C10. [handleAddTask] either throws a TypeError, and then only because
    the input has no category and the category list is empty, or prepends
    one task to the unchanged collection; that task has status Todo, a
    non-empty title (the input's when it is present and non-empty, else
    'Untitled Task') and the input's priority, Medium when absent. *)
Theorem handleAddTask_defaults (categories : list Category) (uuid : string)
    (now : Z) (newTask : PartialTask) (prev : list Task) :
  match handleAddTask categories uuid now newTask prev with
  | Ok tasks' =>
      exists task,
        tasks' = task :: prev /\
        status task = TODO /\
        title task <> EmptyString /\
        title task = match p_title newTask with
                     | Some (String _ _ as given) => given
                     | _ => "Untitled Task"%string
                     end /\
        priority task = match p_priority newTask with
                        | Some p => p
                        | None => MEDIUM
                        end
  | Throw e =>
      e = TypeError /\ truthy (p_category newTask) = false /\ categories = []
  end.
Proof.
  unfold handleAddTask. cbv zeta.
  assert (OK : forall c, exists task,
    ({| id := uuid; title := orString (p_title newTask) "Untitled Task";
           description := Some (orString (p_description newTask) "");
           dueDate := Some (orString (p_dueDate newTask) "");
           startTime := None; endTime := None;
           priority := orValue (p_priority newTask) MEDIUM;
           status := TODO; category := c;
           tags := orValue (p_tags newTask) [];
           recurrence := orValue (p_recurrence newTask) NONE;
           createdAt := now |} :: prev) = task :: prev /\
    status task = TODO /\ title task <> EmptyString /\
    title task = match p_title newTask with
                 | Some (String _ _ as given) => given
                 | _ => "Untitled Task"%string
                 end /\
    priority task = match p_priority newTask with Some p => p | None => MEDIUM end).
  { intros c. eexists. split; [reflexivity|]. cbn [status title priority].
    split; [reflexivity|]. split; [|split; [|reflexivity]];
      unfold orString; destruct (p_title newTask) as [[|]|]; discriminate || reflexivity. }
  destruct (p_category newTask) as [[|a c]|]; cbn [bind truthy].
  - destruct categories as [|c0 cs]; cbn [bind]; [auto | apply OK].
  - apply OK.
  - destruct categories as [|c0 cs]; cbn [bind]; [auto | apply OK].
Qed.

(** * The rest of the application *)

(** ** Task handlers *)

Lemma handleDeleteTask_fresh i l :
  ~ In i (map id l) -> handleDeleteTask i l = l.
Proof.
  unfold handleDeleteTask. induction l as [|a l IH]; cbn [map filter In]; intros H.
  - reflexivity.
  - destruct (String.eqb_spec (id a) i) as [E|E]; [tauto|].
    cbn [negb]. f_equal. apply IH. tauto.
Qed.

Lemma handleDeleteTask_ids i l :
  map id (handleDeleteTask i l) = filter (fun k => negb (String.eqb k i)) (map id l).
Proof.
  unfold handleDeleteTask. induction l as [|a l IH]; cbn [map filter]; [reflexivity|].
  destruct (negb (id a =? i)%string); cbn [map]; rewrite IH; reflexivity.
Qed.

Lemma handleUpdateTask_map_id u l : map id (handleUpdateTask u l) = map id l.
Proof.
  unfold handleUpdateTask. rewrite map_map. apply map_ext. intros t.
  destruct (String.eqb_spec (id t) (id u)) as [E|E]; congruence.
Qed.

Lemma handleToggleComplete_map_id i l : map id (handleToggleComplete i l) = map id l.
Proof.
  unfold handleToggleComplete. rewrite map_map. apply map_ext. intros t.
  destruct (String.eqb (id t) i); reflexivity.
Qed.

(** [findIndex]: the index of the first element that satisfies [p], or
    [-1]. *)
Lemma findIndexFrom_found {A : Type} (p : A -> bool) l1 x l2 i :
  (forall y, In y l1 -> p y = false) -> p x = true ->
  findIndexFrom p i (l1 ++ x :: l2) = i + Z.of_nat (List.length l1).
Proof.
  revert i. induction l1 as [|a l1 IH]; intros i H1 H2.
  - cbn [app findIndexFrom List.length]. rewrite H2. cbn. lia.
  - cbn [app findIndexFrom]. rewrite (H1 a (or_introl eq_refl)).
    rewrite IH; [|intros y Hy; apply H1; right; exact Hy|exact H2].
    cbn [List.length]. lia.
Qed.

Lemma findIndexFrom_none {A : Type} (p : A -> bool) l i :
  (forall y, In y l -> p y = false) -> findIndexFrom p i l = -1.
Proof.
  revert i. induction l as [|a l IH]; intros i H; [reflexivity|].
  cbn [findIndexFrom]. rewrite (H a (or_introl eq_refl)).
  apply IH. intros y Hy. apply H. right. exact Hy.
Qed.

Lemma first_match {A : Type} (p : A -> bool) l :
  (forall y, In y l -> p y = false) \/
  exists l1 x l2, l = l1 ++ x :: l2 /\ p x = true /\ (forall y, In y l1 -> p y = false).
Proof.
  induction l as [|a l IH].
  - left. intros y [].
  - destruct (p a) eqn:Pa.
    + right. exists [], a, l. split; [reflexivity|]. split; [exact Pa|]. intros y [].
    + destruct IH as [IH|(l1 & x & l2 & E & Px & N)].
      * left. intros y [<-|Hy]; auto.
      * right. exists (a :: l1), x, l2. split; [rewrite E; reflexivity|].
        split; [exact Px|]. intros y [<-|Hy]; auto.
Qed.

(** [splice(start, 0, x)] for a start index inside the array. *)
Lemma splice_insert {A : Type} (x : A) l k :
  0 <= k ->
  splice k 0 [x] l =
  firstn (Nat.min (Z.to_nat k) (List.length l)) l ++
  x :: skipn (Nat.min (Z.to_nat k) (List.length l)) l.
Proof.
  intros Hk. unfold splice. cbv zeta.
  destruct (Z.ltb_spec k 0) as [?|_]; [lia|].
  replace (Z.min (Z.max 0 0) (Z.of_nat (List.length l) - Z.min k (Z.of_nat (List.length l))))
    with 0 by lia.
  rewrite Z.add_0_r.
  replace (Z.to_nat (Z.min k (Z.of_nat (List.length l))))
    with (Nat.min (Z.to_nat k) (List.length l)) by lia.
  reflexivity.
Qed.

Lemma firstn_exact_app {A : Type} (l1 l2 : list A) :
  firstn (List.length l1) (l1 ++ l2) = l1.
Proof. induction l1 as [|a l1 IH]; cbn; [destruct l2; reflexivity | rewrite IH; reflexivity]. Qed.

Lemma skipn_exact_app {A : Type} (l1 l2 : list A) :
  skipn (List.length l1) (l1 ++ l2) = l2.
Proof. induction l1 as [|a l1 IH]; cbn; [reflexivity | exact IH]. Qed.

(** [splice(i, 1)] at the index of an element. *)
Lemma splice_remove {A : Type} (x : A) l1 l2 :
  splice (Z.of_nat (List.length l1)) 1 [] (l1 ++ x :: l2) = l1 ++ l2.
Proof.
  unfold splice. cbv zeta. rewrite List.length_app. cbn [List.length].
  destruct (Z.ltb_spec (Z.of_nat (List.length l1)) 0) as [?|_]; [lia|].
  replace (Z.min (Z.of_nat (List.length l1)) (Z.of_nat (List.length l1 + S (List.length l2))))
    with (Z.of_nat (List.length l1)) by lia.
  replace (Z.min (Z.max 1 0) (Z.of_nat (List.length l1 + S (List.length l2)) - Z.of_nat (List.length l1)))
    with 1 by lia.
  replace (Z.to_nat (Z.of_nat (List.length l1) + 1)) with (List.length (l1 ++ [x]))
    by (rewrite List.length_app; cbn [List.length]; lia).
  rewrite Nat2Z.id, firstn_exact_app. cbn [app].
  change (l1 ++ x :: l2) with (l1 ++ [x] ++ l2). rewrite app_assoc, skipn_exact_app.
  reflexivity.
Qed.

(** [splice(-1, 1)] removes the last element, if there is one. *)
Lemma splice_remove_last {A : Type} (l : list A) :
  splice (-1) 1 [] l = removelast l.
Proof.
  induction l as [|a l' _] using rev_ind.
  - reflexivity.
  - rewrite removelast_last. unfold splice. cbv zeta.
    rewrite List.length_app. cbn [List.length].
    change (-1 <? 0) with true. cbv iota.
    replace (Z.max (Z.of_nat (List.length l' + 1) + -1) 0) with (Z.of_nat (List.length l')) by lia.
    replace (Z.min (Z.max 1 0) (Z.of_nat (List.length l' + 1) - Z.of_nat (List.length l'))) with 1 by lia.
    replace (Z.to_nat (Z.of_nat (List.length l') + 1)) with (List.length (l' ++ [a]))
      by (rewrite List.length_app; cbn [List.length]; lia).
    rewrite Nat2Z.id, firstn_exact_app, skipn_all. cbn [app]. apply app_nil_r.
Qed.

Lemma handleAddTask_head categories uuid now newTask prev tasks' :
  handleAddTask categories uuid now newTask prev = Ok tasks' ->
  exists task, tasks' = task :: prev /\ id task = uuid /\
    dueDate task = Some (orString (p_dueDate newTask) "") /\ status task = TODO.
Proof.
  unfold handleAddTask. cbv zeta.
  destruct (match p_category newTask with
            | Some (String _ _ as c) => Ok c
            | _ => match categories with c0 :: _ => Ok (name c0) | [] => Throw TypeError end
            end) as [c|e]; cbn [bind]; [|discriminate].
  intros [= <-]. eexists. split; [reflexivity|]. cbn [id dueDate status]. auto.
Qed.

Lemma status_eqb_eq a b : status_eqb a b = true <-> a = b.
Proof. destruct a, b; cbn; split; congruence. Qed.

Lemma Permutation_splice_insert {A : Type} (x : A) l k :
  Permutation (firstn k l ++ x :: skipn k l) (x :: l).
Proof.
  symmetry. rewrite <- (firstn_skipn k l) at 1. apply Permutation_middle.
Qed.

(** X1. Deleting the task that [handleAddTask] has just created, by its
    fresh id, gives back the collection as it was before. *)
Theorem add_then_delete (categories : list Category) (uuid : string) (now : Z)
    (newTask : PartialTask) (prev tasks' : list Task) :
  ~ In uuid (map id prev) ->
  handleAddTask categories uuid now newTask prev = Ok tasks' ->
  handleDeleteTask uuid tasks' = prev.
Proof.
  intros F H. destruct (handleAddTask_head _ _ _ _ _ _ H) as (task & -> & I & _).
  unfold handleDeleteTask. cbn [filter]. rewrite I, String.eqb_refl. cbn [negb].
  apply handleDeleteTask_fresh. exact F.
Qed.

(** X2. While the ids of the collection are pairwise distinct, every
    handler keeps them so: update, delete and toggle always, add and
    duplicate when the new id is fresh, and a drop in every case. *)
Theorem handlers_keep_ids_distinct (tasks : list Task) :
  NoDup (map id tasks) ->
  (forall u, NoDup (map id (handleUpdateTask u tasks))) /\
  (forall i, NoDup (map id (handleDeleteTask i tasks))) /\
  (forall i, NoDup (map id (handleToggleComplete i tasks))) /\
  (forall categories uuid now newTask tasks',
     ~ In uuid (map id tasks) ->
     handleAddTask categories uuid now newTask tasks = Ok tasks' ->
     NoDup (map id tasks')) /\
  (forall uuid now task,
     ~ In uuid (map id tasks) ->
     NoDup (map id (handleDuplicate uuid now task tasks))) /\
  (forall draggedItem dropIndex,
     0 <= dropIndex ->
     NoDup (map id (fst (onDrop draggedItem dropIndex tasks)))).
Proof.
  intros N. split; [|split; [|split; [|split; [|split]]]].
  - intros u. rewrite handleUpdateTask_map_id. exact N.
  - intros i. rewrite handleDeleteTask_ids. apply NoDup_filter. exact N.
  - intros i. rewrite handleToggleComplete_map_id. exact N.
  - intros categories uuid now newTask tasks' F H.
    destruct (handleAddTask_head _ _ _ _ _ _ H) as (task & -> & I & _).
    cbn [map]. rewrite I. constructor; assumption.
  - intros uuid now task F. unfold handleDuplicate. cbn [map id].
    constructor; assumption.
  - intros [dragged|] dropIndex Hk; cbn [onDrop fst]; [|exact N].
    unfold findIndex.
    set (p := fun t : Task => (id t =? id dragged)%string).
    rewrite splice_insert by exact Hk.
    destruct (first_match p tasks) as [None|(l1 & x & l2 & E & Px & Nx)].
    + rewrite (findIndexFrom_none p tasks 0 None), splice_remove_last.
      set (others := removelast tasks).
      assert (Sub : forall i, In i (map id others) -> In i (map id tasks)).
      { intros i Hi. apply in_map_iff in Hi. destruct Hi as (t & <- & Ht).
        apply in_map. subst others.
        destruct tasks as [|a l] using rev_ind; [destruct Ht|].
        rewrite removelast_last in Ht. apply in_or_app. left. exact Ht. }
      assert (No : NoDup (map id others)).
      { subst others. destruct tasks as [|a l] using rev_ind; [constructor|].
        rewrite removelast_last. rewrite map_app in N.
        apply NoDup_app_remove_r in N. exact N. }
      eapply Permutation_NoDup.
      { apply Permutation_map. symmetry. apply Permutation_splice_insert. }
      cbn [map]. constructor; [|exact No].
      intros Hi. apply Sub, in_map_iff in Hi. destruct Hi as (t & E & Ht).
      specialize (None t Ht). subst p. cbv beta in None.
      rewrite E, String.eqb_refl in None. discriminate.
    + rewrite E, (findIndexFrom_found p l1 x l2 0 Nx Px), Z.add_0_l, splice_remove.
      eapply Permutation_NoDup.
      { apply Permutation_map. symmetry. apply Permutation_splice_insert. }
      subst p. cbv beta in Px. apply String.eqb_eq in Px.
      rewrite E, map_app in N. cbn [map] in N |- *. rewrite map_app, <- Px.
      eapply Permutation_NoDup; [|exact N].
      symmetry. apply Permutation_middle.
Qed.

(** X3. Toggling the same task twice gives the collection back, but for a
    task that was In Progress: it becomes Done and then Todo, not In
    Progress again. *)
Theorem toggle_twice (i : string) (tasks : list Task) :
  handleToggleComplete i (handleToggleComplete i tasks) =
  map (fun t => if String.eqb (id t) i && status_eqb (status t) IN_PROGRESS
                then withStatus t TODO else t)
      tasks.
Proof.
  unfold handleToggleComplete. rewrite map_map. apply map_ext. intros t.
  destruct (String.eqb (id t) i) eqn:E.
  - cbn [withStatus id]. rewrite E. cbn [andb].
    destruct t as [? ? ? ? ? ? ? s ? ? ? ?]. cbn [status withStatus].
    destruct s; reflexivity.
  - rewrite E. reflexivity.
Qed.

(** X4. In a collection with pairwise distinct ids, [handleUpdateTask]
    replaces the task that has the id of [updatedTask], at its position, and
    leaves every other task as it is; when no task has that id nothing
    changes. *)
Theorem handleUpdateTask_in_place (updatedTask : Task) (tasks : list Task) :
  NoDup (map id tasks) ->
  (forall l1 t l2, tasks = l1 ++ t :: l2 -> id t = id updatedTask ->
     handleUpdateTask updatedTask tasks = l1 ++ updatedTask :: l2) /\
  (~ In (id updatedTask) (map id tasks) -> handleUpdateTask updatedTask tasks = tasks).
Proof.
  intros N.
  assert (Same : forall l, ~ In (id updatedTask) (map id l) ->
                           handleUpdateTask updatedTask l = l).
  { unfold handleUpdateTask. induction l as [|a l IH]; cbn [map In]; intros H; [reflexivity|].
    destruct (String.eqb_spec (id a) (id updatedTask)) as [E|E]; [tauto|].
    f_equal. apply IH. tauto. }
  split; [|apply Same].
  intros l1 t l2 -> E. rewrite map_app in N. cbn [map] in N.
  pose proof (NoDup_remove_2 _ _ _ N) as Out.
  rewrite E in Out.
  unfold handleUpdateTask. rewrite map_app. cbn [map].
  rewrite E, String.eqb_refl.
  fold (handleUpdateTask updatedTask l1). fold (handleUpdateTask updatedTask l2).
  rewrite !Same; [reflexivity| |]; intros H; apply Out, in_or_app; auto.
Qed.

(** X6. Dropping a task of the collection on the index [dropIndex] takes it
    out of its place and puts it at [dropIndex] (at the end when the index
    is past it): the collection is reordered, the other tasks keep their
    relative order, and the dragged task is found at the drop index. *)
Theorem onDrop_moves (dragged : Task) (dropIndex : Z) (l1 l2 : list Task) :
  (forall t, In t l1 -> id t <> id dragged) ->
  0 <= dropIndex ->
  let tasks := l1 ++ dragged :: l2 in
  let others := l1 ++ l2 in
  let k := Nat.min (Z.to_nat dropIndex) (List.length others) in
  onDrop (Some dragged) dropIndex tasks =
    (firstn k others ++ dragged :: skipn k others, None) /\
  Permutation (fst (onDrop (Some dragged) dropIndex tasks)) tasks /\
  nth_error (fst (onDrop (Some dragged) dropIndex tasks)) k = Some dragged.
Proof.
  intros F Hk tasks others k.
  assert (E : onDrop (Some dragged) dropIndex tasks =
              (firstn k others ++ dragged :: skipn k others, None)).
  { cbn [onDrop]. unfold findIndex. subst tasks.
    rewrite findIndexFrom_found.
    - rewrite Z.add_0_l, splice_remove, splice_insert by exact Hk. reflexivity.
    - intros y Hy. apply String.eqb_neq. apply F. exact Hy.
    - apply String.eqb_refl. }
  rewrite E. cbn [fst]. split; [reflexivity|]. split.
  - rewrite Permutation_splice_insert. subst tasks others. apply Permutation_middle.
  - rewrite nth_error_app2; rewrite firstn_length_le by (subst k; lia).
    + rewrite Nat.sub_diag. reflexivity.
    + lia.
Qed.

(** X7. When no task of the collection has the id of the dragged task (it
    was deleted while it was dragged), [findIndex] answers [-1] and
    [splice(-1, 1)] takes out the last task: the drop puts the dragged task
    at the drop index and loses the task that was last. *)
Theorem onDrop_absent (dragged : Task) (dropIndex : Z) (tasks : list Task) :
  (forall t, In t tasks -> id t <> id dragged) ->
  0 <= dropIndex ->
  let others := removelast tasks in
  let k := Nat.min (Z.to_nat dropIndex) (List.length others) in
  onDrop (Some dragged) dropIndex tasks =
    (firstn k others ++ dragged :: skipn k others, None).
Proof.
  intros F Hk others k. cbn [onDrop]. unfold findIndex.
  rewrite findIndexFrom_none.
  - rewrite splice_remove_last, splice_insert by exact Hk. reflexivity.
  - intros y Hy. apply String.eqb_neq. apply F. exact Hy.
Qed.

(** ** The task list filter *)

Lemma string_prefix_app s r : String.prefix s (s ++ r) = true.
Proof.
  induction s as [|c s IH]; cbn [String.append String.prefix].
  - destruct r; reflexivity.
  - destruct (ascii_dec c c); [exact IH | congruence].
Qed.

Lemma string_prefix_inv s1 s2 : String.prefix s1 s2 = true -> exists r, s2 = (s1 ++ r)%string.
Proof.
  revert s2. induction s1 as [|c s1 IH]; intros s2 H.
  - exists s2. reflexivity.
  - destruct s2 as [|c2 s2]; cbn [String.prefix] in H; [discriminate|].
    destruct (ascii_dec c c2) as [<-|]; [|discriminate].
    destruct (IH _ H) as (r & ->). exists r. reflexivity.
Qed.

Lemma string_app_assoc (a b c : string) : ((a ++ b) ++ c = a ++ (b ++ c))%string.
Proof. induction a as [|x a IH]; cbn [String.append]; [reflexivity | rewrite IH; reflexivity]. Qed.

(** [includes]: [sub] occurs in [s]. *)
Lemma includes_spec s sub :
  includes s sub = true <-> exists a b, s = (a ++ sub ++ b)%string.
Proof.
  split.
  - induction s as [|c s IH]; cbn [includes]; intros H.
    + rewrite orb_false_r in H. apply string_prefix_inv in H. destruct H as (r & ->).
      exists EmptyString, r. reflexivity.
    + apply orb_true_iff in H. destruct H as [H|H].
      * apply string_prefix_inv in H. destruct H as (r & ->). exists EmptyString, r. reflexivity.
      * destruct (IH H) as (a & b & ->). exists (String c a), b. reflexivity.
  - intros (a & b & ->). induction a as [|c a IH].
    + cbn [String.append].
      assert (P : String.prefix sub (sub ++ b) = true) by apply string_prefix_app.
      destruct (sub ++ b)%string; cbn [includes]; rewrite P; reflexivity.
    + cbn [String.append includes]. rewrite IH. apply orb_true_r.
Qed.

Lemma toLowerChar_idem c : toLowerChar (toLowerChar c) = toLowerChar c.
Proof. destruct c as [[] [] [] [] [] [] [] []]; reflexivity. Qed.

Lemma toLowerCase_idem s : toLowerCase (toLowerCase s) = toLowerCase s.
Proof.
  induction s as [|c s IH]; cbn [toLowerCase]; [reflexivity|].
  rewrite toLowerChar_idem, IH. reflexivity.
Qed.

Lemma toLowerCase_app s1 s2 :
  toLowerCase (s1 ++ s2) = (toLowerCase s1 ++ toLowerCase s2)%string.
Proof.
  induction s1 as [|c s1 IH]; cbn [String.append toLowerCase]; [reflexivity|].
  rewrite IH. reflexivity.
Qed.

(** X8. The task list shows, in their order, the tasks that have the
    selected status (every task for 'All') and whose title contains the
    search text, letter case ignored: a task is found by any part of its
    title typed in any case, and an empty search with 'All' shows the whole
    collection. *)
Theorem filteredTasks_search (tasks : list Task) (searchQuery : string)
    (filterStatus : option TaskStatus) :
  (forall t, In t (filteredTasks tasks searchQuery filterStatus) <->
     In t tasks /\
     (exists a b, toLowerCase (title t) = (a ++ toLowerCase searchQuery ++ b)%string) /\
     match filterStatus with None => True | Some s => status t = s end) /\
  (forall t a w b, In t tasks -> title t = (a ++ w ++ b)%string ->
     toLowerCase w = toLowerCase searchQuery ->
     In t (filteredTasks tasks searchQuery None)) /\
  filteredTasks tasks (toLowerCase searchQuery) filterStatus =
    filteredTasks tasks searchQuery filterStatus /\
  filteredTasks tasks "" None = tasks.
Proof.
  assert (Spec : forall t, In t (filteredTasks tasks searchQuery filterStatus) <->
     In t tasks /\
     (exists a b, toLowerCase (title t) = (a ++ toLowerCase searchQuery ++ b)%string) /\
     match filterStatus with None => True | Some s => status t = s end).
  { intros t. unfold filteredTasks. rewrite filter_In. cbv zeta.
    rewrite andb_true_iff, includes_spec.
    destruct filterStatus as [s|].
    - rewrite status_eqb_eq. tauto.
    - intuition. }
  split; [exact Spec|]. split; [|split].
  - intros t a w b Ht E L. unfold filteredTasks. apply filter_In. split; [exact Ht|].
    cbv zeta. rewrite andb_true_r. apply includes_spec.
    exists (toLowerCase a), (toLowerCase b).
    rewrite E, !toLowerCase_app, L. reflexivity.
  - unfold filteredTasks. rewrite toLowerCase_idem. reflexivity.
  - clear Spec. unfold filteredTasks. cbn [toLowerCase].
    induction tasks as [|t l IH]; cbn [filter]; [reflexivity|].
    assert (I : includes (toLowerCase (title t)) "" = true)
      by (destruct (toLowerCase (title t)); reflexivity).
    cbv zeta. rewrite I. cbn [andb]. f_equal. exact IH.
Qed.

(** ** Categories *)

Lemma trimStart_blank s : trimStart s = EmptyString <-> blank s = true.
Proof.
  induction s as [|c s IH]; cbn [trimStart blank]; [tauto|].
  destruct (isWhiteSpace c); cbn [andb]; [exact IH|]. split; discriminate.
Qed.

Lemma trimEnd_blank s : trimEnd s = EmptyString <-> blank s = true.
Proof.
  induction s as [|c s IH]; cbn [trimEnd blank]; [tauto|].
  destruct (trimEnd s) as [|c' r].
  - destruct (isWhiteSpace c); cbn [andb].
    + rewrite <- IH. tauto.
    + split; discriminate.
  - split; [discriminate|]. intros H. apply andb_true_iff in H.
    destruct H as [_ H]. apply IH in H. discriminate.
Qed.

Lemma blank_trimStart s : blank (trimStart s) = blank s.
Proof.
  induction s as [|c s IH]; cbn [trimStart blank]; [reflexivity|].
  destruct (isWhiteSpace c) eqn:W; cbn [andb blank]; [exact IH|].
  rewrite W. reflexivity.
Qed.

Lemma trim_blank s : trim s = EmptyString <-> blank s = true.
Proof. unfold trim. rewrite trimEnd_blank, blank_trimStart. tauto. Qed.

Lemma trimEnd_idem s : trimEnd (trimEnd s) = trimEnd s.
Proof.
  induction s as [|c s IH]; cbn [trimEnd]; [reflexivity|].
  destruct (trimEnd s) as [|c' r] eqn:E.
  - destruct (isWhiteSpace c) eqn:W; cbn [trimEnd]; [reflexivity|].
    rewrite W. reflexivity.
  - cbn [trimEnd] in IH |- *. rewrite IH. reflexivity.
Qed.

(** [trimEnd] keeps the first character of a string that does not start
    with white space. *)
Lemma trimEnd_head c s :
  isWhiteSpace c = false -> exists r, trimEnd (String c s) = String c r.
Proof.
  intros W. cbn [trimEnd]. destruct (trimEnd s) as [|c' r].
  - rewrite W. eexists. reflexivity.
  - eexists. reflexivity.
Qed.

Lemma trimStart_head s :
  trimStart s = EmptyString \/
  exists c r, trimStart s = String c r /\ isWhiteSpace c = false.
Proof.
  induction s as [|c s IH]; cbn [trimStart]; [left; reflexivity|].
  destruct (isWhiteSpace c) eqn:W; [exact IH|].
  right. exists c, s. split; [reflexivity | exact W].
Qed.

Lemma trim_idem s : trim (trim s) = trim s.
Proof.
  unfold trim. destruct (trimStart_head s) as [->|(c & r & -> & W)]; [reflexivity|].
  destruct (trimEnd_head c r W) as (r' & E). rewrite E.
  cbn [trimStart]. rewrite W, <- E. apply trimEnd_idem.
Qed.

Lemma find_app_name (n : string) (l1 l2 : list Category) :
  find (fun c => String.eqb (name c) n) (l1 ++ l2) =
  match find (fun c => String.eqb (name c) n) l1 with
  | Some c => Some c
  | None => find (fun c => String.eqb (name c) n) l2
  end.
Proof.
  induction l1 as [|a l1 IH]; cbn [app find]; [reflexivity|].
  destruct (String.eqb (name a) n); [reflexivity | exact IH].
Qed.

(** X13. [handleAddCategory] leaves everything as it is when the name is
    blank.  Otherwise it appends one category, named by the trimmed
    input, and selects it in the task form; the categories that were there
    keep their place, so a name that was already in use keeps the colour of
    its first category, and only an unused name gets the new colour. *)
Theorem handleAddCategory_appends (uuid : string) (st : CategoryForm) :
  let st' := handleAddCategory uuid st in
  if blank (newCategoryName st) then st' = st
  else
    exists newCat,
      categories_ st' = categories_ st ++ [newCat] /\
      cat_id newCat = uuid /\
      name newCat = trim (newCategoryName st) /\
      name newCat <> EmptyString /\
      trim (name newCat) = name newCat /\
      formCategory_ st' = name newCat /\
      isCategoryModalOpen st' = false /\
      forall n,
        getCategoryColor (categories_ st') n =
        if existsb (fun c => String.eqb (name c) n) (categories_ st)
        then getCategoryColor (categories_ st) n
        else if String.eqb (name newCat) n
             then orString (Some (newCategoryColor st)) "bg-gray-400"
             else "bg-gray-400"%string.
Proof.
  cbv zeta. unfold handleAddCategory.
  destruct (blank (newCategoryName st)) eqn:B.
  - apply trim_blank in B. rewrite B. reflexivity.
  - pose proof (trim_idem (newCategoryName st)) as Idem.
    destruct (trim (newCategoryName st)) as [|c r] eqn:T.
    + apply trim_blank in T. congruence.
    + eexists. cbn [categories_ formCategory_ isCategoryModalOpen].
      split; [reflexivity|]. cbn [cat_id name].
      split; [reflexivity|]. split; [reflexivity|]. split; [discriminate|].
      split; [exact Idem|]. split; [reflexivity|]. split; [reflexivity|].
      intros n. unfold getCategoryColor. rewrite find_app_name.
      induction (categories_ st) as [|a l IH]; cbn [find existsb name color].
      * destruct (String.eqb (String c r) n); reflexivity.
      * destruct (String.eqb (name a) n); cbn [orb]; [reflexivity | exact IH].
Qed.

(** ** Statistics *)

Lemma count_status tasks :
  (countStatus TODO tasks + countStatus IN_PROGRESS tasks + countStatus DONE tasks
   = List.length tasks)%nat.
Proof.
  unfold countStatus. induction tasks as [|t l IH]; cbn [filter List.length]; [reflexivity|].
  destruct (status t); cbn [status_eqb List.length]; lia.
Qed.

Lemma count_priority tasks :
  (countPriority LOW tasks + countPriority MEDIUM tasks + countPriority HIGH tasks
   + countPriority URGENT tasks = List.length tasks)%nat.
Proof.
  unfold countPriority. induction tasks as [|t l IH]; cbn [filter List.length]; [reflexivity|].
  destruct (priority t); cbn [priority_eqb List.length]; lia.
Qed.

(** X14. Every task is counted once in each chart of [TaskStats]: the
    slices of the status chart and the bars of the priority chart both add
    up to the number of tasks.  The status chart has no empty slice, and
    has a slice as soon as there is a task; the component shows its 'no
    data' text exactly for the empty collection. *)
Theorem TaskStats_counts (tasks : list Task) :
  list_sum (map snd (statusData tasks)) = List.length tasks /\
  list_sum (map snd (priorityData tasks)) = List.length tasks /\
  Forall (fun d => (0 < snd d)%nat) (statusData tasks) /\
  (statusData tasks = [] <-> tasks = []) /\
  (TaskStats tasks = NoData <-> tasks = []).
Proof.
  pose proof (count_status tasks) as HS. pose proof (count_priority tasks) as HP.
  assert (Sum : list_sum (map snd (statusData tasks)) = List.length tasks).
  { unfold statusData. cbn [snd filter].
    destruct (countStatus TODO tasks) as [|a], (countStatus IN_PROGRESS tasks) as [|b],
             (countStatus DONE tasks) as [|c];
      cbn [Nat.ltb Nat.leb filter map snd]; unfold list_sum; cbn [fold_right]; lia. }
  split; [exact Sum|]. split; [|split; [|split]].
  - unfold priorityData, list_sum. cbn [map snd fold_right]. lia.
  - unfold statusData. apply Forall_forall. intros d H. apply filter_In in H.
    destruct H as [_ H]. apply Nat.ltb_lt in H. exact H.
  - split; intros H.
    + rewrite H in Sum. cbn in Sum. destruct tasks; [reflexivity | discriminate].
    + subst tasks. reflexivity.
  - unfold TaskStats. cbv zeta. destruct tasks as [|t l]; cbn [List.length Nat.eqb].
    + tauto.
    + split; discriminate.
Qed.

(** ** Reading back what [toISOString] writes *)

Lemma readDigitsFrom_decimal s acc v rest :
  Str.decimalFrom acc s = Some v ->
  Str.readDigitsFrom (String.length s) acc (s ++ rest) = Some (v, rest).
Proof.
  revert acc. induction s as [|c s IH]; intros acc H.
  - cbn in H |- *. congruence.
  - cbn [Str.decimalFrom] in H. cbn [String.length String.append Str.readDigitsFrom].
    destruct (Str.digitVal c); [apply IH; exact H | discriminate].
Qed.

Lemma readDigits_padDigits w n rest :
  0 <= n < 10 ^ Z.of_nat w ->
  Str.readDigits w (Str.padDigits w n ++ rest) = Some (n, rest).
Proof.
  intros H. unfold Str.readDigits.
  rewrite <- (padDigits_length w n) at 1.
  apply readDigitsFrom_decimal.
  rewrite decimalFrom_padDigits by lia. rewrite Z.mod_small by lia. reflexivity.
Qed.

Lemma parseIsoYear_digits c r v :
  Str.digitVal c = Some v -> parseIsoYear (String c r) = Str.readDigits 4 (String c r).
Proof.
  destruct c as [[] [] [] [] [] [] [] []]; intros H; try discriminate H; reflexivity.
Qed.

Lemma padDigits_head w n :
  exists c r, Str.padDigits (S w) n = String c r /\ Str.digitVal c <> None.
Proof.
  revert n. induction w as [|w IH]; intros n.
  - exists (Str.digitChar n), EmptyString. split; [reflexivity|].
    rewrite digitVal_digitChar. discriminate.
  - destruct (IH (n / 10)) as (c & r & E & D).
    exists c, (r ++ String (Str.digitChar n) EmptyString)%string.
    split; [|exact D]. change (Str.padDigits (S (S w)) n)
      with (Str.padDigits (S w) (n / 10) ++ String (Str.digitChar n) EmptyString)%string.
    rewrite E. reflexivity.
Qed.

Lemma parseIsoYear_isoYearString y rest :
  -999999 <= y <= 999999 ->
  parseIsoYear (isoYearString y ++ rest) = Some (y, rest).
Proof.
  intros H. unfold isoYearString.
  destruct (Z.leb_spec 0 y) as [P|N]; cbn [andb].
  - destruct (Z.leb_spec y 9999) as [S|L].
    + destruct (padDigits_head 3 y) as (c & r & E & D).
      destruct (Str.digitVal c) as [v|] eqn:V; [|congruence].
      pose proof (readDigits_padDigits 4 y rest ltac:(cbn; lia)) as R.
      rewrite E in R |- *. cbn [String.append] in R |- *.
      rewrite (parseIsoYear_digits c _ v V). exact R.
    + cbn [String.append parseIsoYear].
      apply readDigits_padDigits. cbn. lia.
  - cbn [String.append parseIsoYear].
    rewrite readDigits_padDigits by (cbn; lia). cbn [option_bind].
    destruct (Z.eqb_spec (- y) 0); [lia|]. f_equal. f_equal. lia.
Qed.

(** Every representable time value lies in a year of at most six digits. *)
Lemma YearFromTime_bound t :
  Z.abs t <= Time.maxTime -> -271821 <= Time.YearFromTime t <= 275760.
Proof.
  intros H. unfold Time.YearFromTime.
  pose proof (YearFromDay_bounds (Time.Day t)) as B.
  set (y := Time.YearFromDay (Time.Day t)) in *.
  assert (D : -100000000 <= Time.Day t <= 100000000).
  { unfold Time.Day, Time.maxTime, Time.msPerDay in *. Z.div_mod_to_equations. lia. }
  split.
  - destruct (Z.le_gt_cases (-271821) y) as [|L]; [assumption|].
    pose proof (DayFromYear_mono (y + 1) (-271821) ltac:(lia)) as M.
    change (Time.DayFromYear (-271821)) with (-100000109) in M. lia.
  - destruct (Z.le_gt_cases y 275760) as [|L]; [assumption|].
    pose proof (DayFromYear_mono 275761 y ltac:(lia)) as M.
    change (Time.DayFromYear 275761) with 100000110 in M. lia.
Qed.

Lemma parseIsoDate_isoDateString t rest :
  Z.abs t <= Time.maxTime ->
  parseIsoDate (isoDateString t ++ rest) =
  Some (Time.YearFromTime t, Time.MonthFromTime t + 1, Time.DateFromTime t, rest).
Proof.
  intros H. pose proof (YearFromTime_bound t H) as Y.
  pose proof (MonthFromTime_range t) as M. pose proof (DateFromTime_range t) as D.
  pose proof (daysInMonthOf_range (Time.YearFromTime t) _ M) as DM.
  unfold parseIsoDate, isoDateString.
  rewrite string_app_assoc, parseIsoYear_isoYearString by lia.
  cbn [option_bind String.append Str.expect Ascii.eqb Bool.eqb].
  rewrite string_app_assoc, readDigits_padDigits by (cbn; lia).
  cbn [option_bind String.append Str.expect Ascii.eqb Bool.eqb].
  rewrite readDigits_padDigits by (cbn; lia). reflexivity.
Qed.

Lemma parseIsoTime_isoTimeString t rest :
  parseIsoTime (isoTimeString t ++ rest) =
  Some (Time.HourFromTime t, Time.MinFromTime t, Time.SecFromTime t, Time.msFromTime t, rest).
Proof.
  unfold parseIsoTime, isoTimeString, Time.HourFromTime, Time.MinFromTime,
    Time.SecFromTime, Time.msFromTime.
  pose proof (Z.mod_pos_bound (t / 3600000) 24 ltac:(lia)).
  pose proof (Z.mod_pos_bound (t / 60000) 60 ltac:(lia)).
  pose proof (Z.mod_pos_bound (t / 1000) 60 ltac:(lia)).
  pose proof (Z.mod_pos_bound t 1000 ltac:(lia)).
  rewrite string_app_assoc, readDigits_padDigits by (cbn; lia).
  cbn [option_bind String.append Str.expect Ascii.eqb Bool.eqb].
  rewrite string_app_assoc, readDigits_padDigits by (cbn; lia).
  cbn [option_bind String.append Str.expect Ascii.eqb Bool.eqb].
  rewrite string_app_assoc, readDigits_padDigits by (cbn; lia).
  cbn [option_bind String.append Str.expect Ascii.eqb Bool.eqb].
  rewrite readDigits_padDigits by (cbn; lia). reflexivity.
Qed.

Lemma time_fields t :
  Time.MakeDate (Time.Day t)
    (Time.MakeTime (Time.HourFromTime t) (Time.MinFromTime t) (Time.SecFromTime t)
                   (Time.msFromTime t)) = t.
Proof.
  unfold Time.MakeDate, Time.MakeTime, Time.Day, Time.HourFromTime, Time.MinFromTime,
    Time.SecFromTime, Time.msFromTime, Time.msPerDay.
  Z.div_mod_to_equations. lia.
Qed.

Lemma Day_midnight_representable t :
  Z.abs t <= Time.maxTime -> Z.abs (Time.Day t * Time.msPerDay) <= Time.maxTime.
Proof.
  unfold Time.Day, Time.maxTime, Time.msPerDay. intros H. Z.div_mod_to_equations. lia.
Qed.

Lemma isoDateString_Day a b : Time.Day a = Time.Day b -> isoDateString a = isoDateString b.
Proof.
  intros E. unfold isoDateString, Time.DateFromTime, Time.MonthFromTime, Time.InLeapYear,
    Time.DayWithinYear, Time.YearFromTime. rewrite E. reflexivity.
Qed.

Lemma Day_midnight t : Time.Day (Time.Day t * Time.msPerDay) = Time.Day t.
Proof. unfold Time.Day, Time.msPerDay. apply Z.div_mul. lia. Qed.

Lemma isoTimeString_midnight d : isoTimeString (d * Time.msPerDay) = "00:00:00.000"%string.
Proof.
  unfold isoTimeString, Time.HourFromTime, Time.MinFromTime, Time.SecFromTime,
    Time.msFromTime, Time.msPerDay.
  replace (d * 86400000 / 3600000) with (d * 24)
    by (Z.div_mod_to_equations; lia).
  replace (d * 86400000 / 60000) with (d * 1440) by (Z.div_mod_to_equations; lia).
  replace (d * 86400000 / 1000) with (d * 86400) by (Z.div_mod_to_equations; lia).
  replace ((d * 24) mod 24) with 0 by (Z.div_mod_to_equations; lia).
  replace ((d * 1440) mod 60) with 0 by (Z.div_mod_to_equations; lia).
  replace ((d * 86400) mod 60) with 0 by (Z.div_mod_to_equations; lia).
  replace ((d * 86400000) mod 1000) with 0 by (Z.div_mod_to_equations; lia).
  reflexivity.
Qed.

Lemma TimeClip_range v u : Time.TimeClip v = Some u -> u = v /\ Z.abs u <= Time.maxTime.
Proof.
  unfold Time.TimeClip. destruct (Z.leb_spec (Z.abs v) Time.maxTime); [|discriminate].
  intros [= <-]. auto.
Qed.


(** ** Calendar fields *)

Lemma fields_Day a b :
  Time.Day a = Time.Day b ->
  Time.YearFromTime a = Time.YearFromTime b /\
  Time.MonthFromTime a = Time.MonthFromTime b /\
  Time.DateFromTime a = Time.DateFromTime b.
Proof.
  intros E. unfold Time.DateFromTime, Time.MonthFromTime, Time.InLeapYear,
    Time.DayWithinYear, Time.YearFromTime. rewrite E. auto.
Qed.

Lemma Day_fields a b :
  Time.YearFromTime a = Time.YearFromTime b ->
  Time.MonthFromTime a = Time.MonthFromTime b ->
  Time.DateFromTime a = Time.DateFromTime b ->
  Time.Day a = Time.Day b.
Proof.
  intros Y M D. pose proof (MakeDay_components a 0) as A.
  pose proof (MakeDay_components b 0) as B. rewrite Y, M, D in A. lia.
Qed.

Lemma MakeDay_normal y m d :
  Time.MakeDay y m d = Time.MakeDay (y + m / 12) (m mod 12) d.
Proof.
  unfold Time.MakeDay. cbv zeta.
  replace (y + m / 12 + m mod 12 / 12) with (y + m / 12)
    by (Z.div_mod_to_equations; lia).
  rewrite Z.mod_mod by lia. reflexivity.
Qed.

Lemma daysInMonthOf_mod y m :
  0 <= m <= 11 -> 28 <= Time.daysInMonthOf y m.
Proof. intros H. pose proof (daysInMonthOf_range y m H). lia. Qed.

(** Only 29 February is a day of a year and not of another. *)
Lemma daysInMonthOf_other_year y y' m d :
  0 <= m <= 11 -> d <= Time.daysInMonthOf y m -> Time.daysInMonthOf y' m < d ->
  m = 1 /\ d = 29 /\ Time.leapOfYear y = 1 /\ Time.leapOfYear y' = 0.
Proof.
  unfold Time.daysInMonthOf.
  pose proof (leapOfYear_range y) as Ly. pose proof (leapOfYear_range y') as Ly'.
  revert Ly Ly'. generalize (Time.leapOfYear y) as l. generalize (Time.leapOfYear y') as l'.
  intros l' l Ly Ly' Hm. leap_cases l; leap_cases l'; month_cases m; cbn; lia.
Qed.

Lemma leapOfYear_adjacent y k :
  Time.leapOfYear y = 1 -> k = 1 \/ k = -1 -> Time.leapOfYear (y + k) = 0.
Proof.
  unfold Time.leapOfYear, Time.DaysInYear. intros L K.
  repeat match goal with
         | H : context [ (?a =? ?b) ] |- _ => destruct (Z.eqb_spec a b)
         | |- context [ (?a =? ?b) ] => destruct (Z.eqb_spec a b)
         end; cbv [negb] in *; try reflexivity; try discriminate;
  exfalso; Z.div_mod_to_equations; lia.
Qed.

Lemma nth_error_indices from n i :
  0 <= i < n -> nth_error (indices from (Some n)) (Z.to_nat i) = Some (from + i).
Proof.
  intros H. unfold indices. rewrite nth_error_map.
  rewrite (nth_error_nth' _ 0%nat) by (rewrite length_seq; lia).
  rewrite seq_nth by lia. cbn [option_map]. f_equal. lia.
Qed.


Lemma string_app_inv_head (s a b : string) : (s ++ a = s ++ b)%string -> a = b.
Proof.
  induction s as [|c s IH]; cbn [String.append]; intros H; [exact H|].
  injection H as H. apply IH. exact H.
Qed.

Lemma padDigits_inj w a b :
  (0 < w)%nat -> 0 <= a < 10 ^ Z.of_nat w -> 0 <= b < 10 ^ Z.of_nat w ->
  Str.padDigits w a = Str.padDigits w b -> a = b.
Proof.
  intros Hw Ha Hb E.
  pose proof (decimal_padDigits w a Hw Ha) as Da.
  pose proof (decimal_padDigits w b Hw Hb) as Db.
  rewrite E in Da. congruence.
Qed.

Section AppProperties.

Context {host : Host}.

(** *** The task modal *)

(** [new Date(s)] gives back the time value of which [s] is the ISO
    string. *)
Lemma Date_parse_toISOString t :
  Z.abs t <= Time.maxTime ->
  Date_parse (isoDateString t ++ "T" ++ isoTimeString t ++ "Z") = Some t.
Proof.
  intros H. unfold Date_parse, parseIso.
  rewrite parseIsoDate_isoDateString by exact H. cbn [option_bind].
  pose proof (MonthFromTime_range t) as M. pose proof (DateFromTime_range t) as D.
  replace (Time.MonthFromTime t + 1 - 1) with (Time.MonthFromTime t) by lia.
  destruct (Z.leb_spec 1 (Time.MonthFromTime t + 1)); [|lia].
  destruct (Z.leb_spec (Time.MonthFromTime t + 1) 12); [|lia].
  destruct (Z.leb_spec 1 (Time.DateFromTime t)); [|lia].
  destruct (Z.leb_spec (Time.DateFromTime t)
              (Time.daysInMonthOf (Time.YearFromTime t) (Time.MonthFromTime t))); [|lia].
  cbn [andb negb String.append].
  rewrite parseIsoTime_isoTimeString. cbn [option_bind parseIsoOffset].
  assert (HH : 0 <= Time.HourFromTime t <= 23)
    by (unfold Time.HourFromTime; pose proof (Z.mod_pos_bound (t / 3600000) 24); lia).
  assert (HM : 0 <= Time.MinFromTime t <= 59)
    by (unfold Time.MinFromTime; pose proof (Z.mod_pos_bound (t / 60000) 60); lia).
  assert (HS : 0 <= Time.SecFromTime t <= 59)
    by (unfold Time.SecFromTime; pose proof (Z.mod_pos_bound (t / 1000) 60); lia).
  destruct (Z.leb_spec (Time.MinFromTime t) 59); [|lia].
  destruct (Z.leb_spec (Time.SecFromTime t) 59); [|lia].
  destruct (Z.leb_spec (Time.HourFromTime t) 23); [|lia].
  cbn [andb orb negb].
  pose proof (MakeDay_components t 0) as MD. rewrite !Z.add_0_r in MD. rewrite MD.
  rewrite time_fields, Z.sub_0_r. apply TimeClip_ok. exact H.
Qed.

(** The date part alone is read as the midnight that starts that day in
    UTC. *)
Lemma Date_parse_isoDateString t :
  Z.abs t <= Time.maxTime ->
  Date_parse (isoDateString t) = Some (Time.Day t * Time.msPerDay).
Proof.
  intros H. unfold Date_parse, parseIso.
  assert (E : isoDateString t = (isoDateString t ++ "")%string).
  { generalize (isoDateString t). induction s as [|c s IH]; cbn; congruence. }
  rewrite E, parseIsoDate_isoDateString by exact H. cbn [option_bind].
  pose proof (MonthFromTime_range t) as M. pose proof (DateFromTime_range t) as D.
  replace (Time.MonthFromTime t + 1 - 1) with (Time.MonthFromTime t) by lia.
  destruct (Z.leb_spec 1 (Time.MonthFromTime t + 1)); [|lia].
  destruct (Z.leb_spec (Time.MonthFromTime t + 1) 12); [|lia].
  destruct (Z.leb_spec 1 (Time.DateFromTime t)); [|lia].
  destruct (Z.leb_spec (Time.DateFromTime t)
              (Time.daysInMonthOf (Time.YearFromTime t) (Time.MonthFromTime t))); [|lia].
  cbn [andb negb].
  pose proof (MakeDay_components t 0) as MD. rewrite !Z.add_0_r in MD. rewrite MD.
  unfold Time.MakeDate. rewrite Z.add_0_r.
  apply TimeClip_ok, Day_midnight_representable. exact H.
Qed.

Lemma splitHead_iso t :
  Str.splitHead "T" (isoDateString t ++ "T" ++ isoTimeString t ++ "Z") = isoDateString t.
Proof. apply splitHead_app, isoDateString_lacks_T. Qed.

(** What the save button stores for the date the form shows for [t]. *)
Lemma formDueDateISO_key t :
  Z.abs t <= Time.maxTime ->
  formDueDateISO (isoDateString t) = Ok (Some (isoDateString t ++ "T00:00:00.000Z")%string).
Proof.
  intros H. unfold formDueDateISO.
  pose proof (isoDateString_length t) as L.
  destruct (isoDateString t) as [|c r] eqn:E; [cbn in L; lia|]. rewrite <- E.
  rewrite Date_parse_isoDateString by exact H. cbn [toISOString bind].
  rewrite isoTimeString_midnight, (isoDateString_Day _ t (Day_midnight t)).
  reflexivity.
Qed.

Lemma Date_parse_range s u : Date_parse s = Some u -> Z.abs u <= Time.maxTime.
Proof.
  unfold Date_parse. destruct (parseIso s) as [d|] eqn:P.
  - intros ->. unfold parseIso in P.
    destruct (parseIsoDate s) as [[[[y m] d] r]|]; cbn [option_bind] in P; [|discriminate].
    destruct (negb _); [discriminate|].
    destruct r as [|c r'].
    + injection P as P'. apply TimeClip_range in P'. tauto.
    + destruct c as [[] [] [] [] [] [] [] []]; try discriminate P.
      destruct (parseIsoTime r') as [[[[[h mi] sec] ms] r'']|];
        cbn [option_bind] in P; [|discriminate P].
      destruct (parseIsoOffset r'') as [off|]; cbn [option_bind] in P; [|discriminate P].
      destruct (negb _); [discriminate|].
      destruct off; injection P as P'; apply TimeClip_range in P'; tauto.
  - destruct (legacyParse s) as [v|]; cbn [option_bind]; [|discriminate].
    intros Q. apply TimeClip_range in Q. tauto.
Qed.

(** X10. The add button of a calendar cell opens the task form with the
    cell's bucket key as due date, and the task then saved with a non-blank
    title is listed first in that same cell. *)
Theorem create_from_cell (categories : list Category) (uuid : string) (now : Z)
    (tasks : list Task) (form : TaskForm) (t : Z) (v : string) :
  Z.abs t <= Time.maxTime ->
  blank v = false ->
  exists form1 newTask,
    openTaskModal categories None (Some (Some t)) form = (form1, None) /\
    isModalOpen form1 = true /\
    formDueDate form1 = isoDateString t /\
    onSaveClick categories uuid now (setFormTitle v form1) tasks
      = Ok (newTask :: tasks, closeModal (setFormTitle v form1)) /\
    id newTask = uuid /\ title newTask = v /\ status newTask = TODO /\
    dueDate newTask = Some (isoDateString t ++ "T00:00:00.000Z")%string /\
    getTasksForDate (newTask :: tasks) (Some t) = Ok (newTask :: tasksOnDate tasks t).
Proof.
  intros H B.
  assert (V : exists c r, v = String c r).
  { destruct v as [|c r]; [discriminate B | eauto]. }
  destruct V as (c & r & V).
  assert (T : exists c' r', trim v = String c' r').
  { destruct (trim v) as [|c' r'] eqn:E; [|eauto].
    apply trim_blank in E. congruence. }
  destruct T as (c' & r' & T).
  assert (C : exists a b, orString (match categories with
                                    | c0 :: _ => Some (name c0) | [] => None end) "Work"
                          = String a b).
  { destruct categories as [|[ci [|a b] cc] cs]; cbn [orString name]; eauto. }
  destruct C as (a & b & C).
  unfold openTaskModal. cbn [toISOString bind]. rewrite splitHead_iso.
  eexists. eexists. split; [reflexivity|].
  cbn [isModalOpen formDueDate]. split; [reflexivity|]. split; [reflexivity|].
  unfold onSaveClick. cbn [setFormTitle formTitle editingTask formDueDate formDesc
                           formPriority formCategory].
  rewrite T, formDueDateISO_key by exact H. cbn [bind].
  unfold handleAddTask. cbn [p_title p_description p_priority p_category p_dueDate
                             p_tags p_recurrence orValue].
  rewrite C. cbn [bind].
  split.
  - unfold closeModal. cbn [setFormTitle formTitle editingTask formDueDate formDesc
                            formPriority formCategory isModalOpen]. reflexivity.
  - cbn [id title status dueDate]. rewrite V. cbn [orString].
    split; [reflexivity|]. split; [reflexivity|]. split; [reflexivity|].
    destruct (isoDateString t ++ "T00:00:00.000Z")%string as [|x y] eqn:E.
    { pose proof (isoDateString_length t) as L.
      destruct (isoDateString t); [cbn in L; lia | discriminate E]. }
    split; [reflexivity|].
    rewrite getTasksForDate_valid. unfold tasksOnDate. cbn [filter].
    unfold dueOn at 1. cbn [dueDate]. rewrite <- E.
    destruct (isoDateString t ++ "T00:00:00.000Z")%string as [|x' y'] eqn:E'; [congruence|].
    rewrite <- E'.
    rewrite (splitHead_app "T" (isoDateString t) "00:00:00.000Z" (isoDateString_lacks_T t)).
    rewrite String.eqb_refl. reflexivity.
Qed.

(** X11. Opening a task whose due date parses and saving it unchanged
    stores, as due date, the midnight that starts the UTC day of the parsed
    instant (the form shows that UTC date), an absent description becomes
    the empty string, and every other field is kept: a task saved by the
    form before, with a description, is not changed at all. *)
Theorem edit_and_save (categories : list Category) (uuid : string) (now : Z)
    (tasks : list Task) (form : TaskForm) (task : Task) (due : string) (u : Z) :
  dueDate task = Some due -> due <> EmptyString ->
  Date_parse due = Some u ->
  blank (title task) = false ->
  let saved :=
    {| id := id task; title := title task;
       description := Some (orString (description task) "");
       dueDate := Some (isoDateString u ++ "T00:00:00.000Z")%string;
       startTime := startTime task; endTime := endTime task;
       priority := priority task; status := status task;
       category := category task; tags := tags task;
       recurrence := recurrence task; createdAt := createdAt task |} in
  exists form1,
    openTaskModal categories (Some task) None form = (form1, None) /\
    isModalOpen form1 = true /\
    formDueDate form1 = isoDateString u /\
    onSaveClick categories uuid now form1 tasks
      = Ok (handleUpdateTask saved tasks, closeModal form1) /\
    keyOf saved = isoDateString u /\
    (due = (isoDateString u ++ "T00:00:00.000Z")%string -> description task <> None ->
     saved = task).
Proof.
  intros D NE P B saved.
  pose proof (Date_parse_range _ _ P) as R.
  assert (T : exists c' r', trim (title task) = String c' r').
  { destruct (trim (title task)) as [|c' r'] eqn:E; [|eauto].
    apply trim_blank in E. congruence. }
  destruct T as (c' & r' & T).
  unfold openTaskModal. rewrite D.
  destruct due as [|dc dr]; [congruence|].
  rewrite P. cbn [toISOString bind]. rewrite splitHead_iso.
  eexists. split; [reflexivity|].
  cbn [isModalOpen formDueDate]. split; [reflexivity|]. split; [reflexivity|].
  split; [|split].
  - unfold onSaveClick. cbn [formTitle editingTask formDueDate formDesc formPriority
                             formCategory].
    rewrite T, formDueDateISO_key by exact R. cbn [bind]. reflexivity.
  - unfold keyOf, saved. cbn [dueDate].
    apply (splitHead_app "T" (isoDateString u) "00:00:00.000Z" (isoDateString_lacks_T u)).
  - intros E Desc. subst saved. destruct task as [i ti de du st en pr sta ca ta re cr].
    cbn [id title description dueDate startTime endTime priority status category
         tags recurrence createdAt] in *.
    rewrite D, E. destruct de as [[|x y]|]; [reflexivity | reflexivity | congruence].
Qed.

(** X12. Opening a task whose due date is present but does not parse
    throws a RangeError ([toISOString] of an Invalid Date): the form gets
    the task's title, description, priority and category, but neither a due
    date nor the open flag, so the modal does not open. *)
Theorem edit_unparsable_throws (categories : list Category) (form : TaskForm)
    (task : Task) (due : string) :
  dueDate task = Some due -> due <> EmptyString ->
  Date_parse due = None ->
  exists form1,
    openTaskModal categories (Some task) None form = (form1, Some RangeError) /\
    isModalOpen form1 = isModalOpen form /\
    formDueDate form1 = formDueDate form /\
    editingTask form1 = Some task /\
    formTitle form1 = title task.
Proof.
  intros D NE P. unfold openTaskModal. rewrite D.
  destruct due as [|dc dr]; [congruence|].
  rewrite P. cbn [toISOString bind]. eexists. split; [reflexivity|].
  cbn [isModalOpen formDueDate editingTask formTitle]. auto.
Qed.


(** *** The calendar *)

(** X5. [handleDuplicate] puts a copy of the task first: a new id, the
    title with ' (Copy)' added, the same status and due date.  The calendar
    shows the copy on the dates on which it shows a task with that due
    date, and deleting the copy by its fresh id gives the collection back. *)
Theorem duplicate_in_same_cells (uuid : string) (now : Z) (task : Task)
    (tasks : list Task) :
  exists copy,
    handleDuplicate uuid now task tasks = copy :: tasks /\
    id copy = uuid /\ title copy = (title task ++ " (Copy)")%string /\
    status copy = status task /\ dueDate copy = dueDate task /\
    (forall t, getTasksForDate (copy :: tasks) (Some t)
               = Ok (if dueOn (isoDateString t) task
                     then copy :: tasksOnDate tasks t else tasksOnDate tasks t)) /\
    (~ In uuid (map id tasks) -> handleDeleteTask uuid (copy :: tasks) = tasks).
Proof.
  unfold handleDuplicate. cbv zeta. eexists. split; [reflexivity|].
  cbn [id title status dueDate]. repeat (split; [reflexivity|]). split.
  - intros t. rewrite getTasksForDate_valid. unfold tasksOnDate. cbn [filter].
    unfold dueOn at 1. cbn [dueDate]. fold (dueOn (isoDateString t) task). reflexivity.
  - intros F. unfold handleDeleteTask. cbn [filter id]. rewrite String.eqb_refl.
    cbn [negb]. apply handleDeleteTask_fresh. exact F.
Qed.

(** X21. On a host whose offset from UTC is constant, which is what [Host]
    describes, the Week view has the anchor date itself among its seven
    columns, in the column of its local weekday, and that column lists the
    tasks that the Day view lists for the same anchor. *)
Theorem week_view_contains_anchor (tasks : list Task) (now : Z) (s : ViewState) (t : Z) :
  currentDate s = Some t ->
  Z.abs t <= Time.maxTime - 7 * Time.msPerDay ->
  exists columns dayView column,
    renderWeekView tasks now s = Ok columns /\
    renderDayView tasks now s = Ok dayView /\
    nth_error columns (Z.to_nat (Time.WeekDay (LocalTime t))) = Some column /\
    week_date column = Some t /\
    dayTasks column = tasksForDay dayView /\
    week_isToday column = day_isToday dayView.
Proof.
  intros E R.
  pose proof (WeekDay_range (LocalTime t)) as W.
  set (w := Time.WeekDay (LocalTime t)) in *.
  set (start := t - w * Time.msPerDay).
  assert (S : startOfWeek s = Some start).
  { rewrite (startOfWeek_eq s t E). apply TimeClip_ok.
    subst start. unfold Time.maxTime, Time.msPerDay in *. lia. }
  assert (D : weekDays s = map (fun i => Some (start + i * Time.msPerDay))
                               (indices 0 (Some 7))).
  { unfold weekDays. rewrite S. apply map_ext_in. intros i Hi. apply indices_In in Hi.
    rewrite setDate_shift. apply TimeClip_ok.
    subst start. unfold Time.maxTime, Time.msPerDay in *. lia. }
  set (col := fun i : Z =>
    {| week_date := Some (start + i * Time.msPerDay);
       week_isToday := isSameDate (Some now) (Some (start + i * Time.msPerDay));
       dayTasks := tasksOnDate tasks (start + i * Time.msPerDay) |}).
  exists (map col (indices 0 (Some 7))).
  exists {| tasksForDay := tasksOnDate tasks t; day_isToday := isSameDate (Some now) (Some t) |}.
  exists (col w).
  split; [|split; [|split]].
  - unfold renderWeekView. rewrite D.
    rewrite (mapM_pure _ (fun date =>
      {| week_date := date; week_isToday := isSameDate (Some now) date;
         dayTasks := match date with Some u => tasksOnDate tasks u | None => [] end |})).
    + rewrite map_map. reflexivity.
    + intros date Hd. apply in_map_iff in Hd. destruct Hd as (i & <- & _).
      rewrite getTasksForDate_valid. reflexivity.
  - unfold renderDayView. rewrite E, getTasksForDate_valid. reflexivity.
  - change (indices 0 (Some 7)) with [0; 1; 2; 3; 4; 5; 6].
    assert (C : w = 0 \/ w = 1 \/ w = 2 \/ w = 3 \/ w = 4 \/ w = 5 \/ w = 6) by lia.
    clearbody w. repeat (destruct C as [C|C]); rewrite C; reflexivity.
  - assert (A : start + w * Time.msPerDay = t) by (subst start; lia).
    unfold col. cbn [week_date dayTasks week_isToday tasksForDay day_isToday].
    rewrite A. auto.
Qed.

(** X22. With no task every view renders, whatever the anchor (an Invalid
    Date as well): the Day view without tasks, the Week view with seven
    columns without tasks, the Month and Year grids without a task or a
    task mark, the Year view with twelve months, and the Schedule view
    without a group. *)
Theorem empty_collection_renders (now : Z) (s : ViewState) :
  (exists v, renderDayView [] now s = Ok v /\ tasksForDay v = []) /\
  (exists columns, renderWeekView [] now s = Ok columns /\
     List.length columns = 7%nat /\ Forall (fun c => dayTasks c = []) columns) /\
  (exists cells, renderMonthView [] now s = Ok cells /\
     forall day date isToday daysTasks,
       In (DayCell day date isToday daysTasks) cells -> daysTasks = []) /\
  (exists months, renderYearView [] now s = Ok months /\
     List.length months = 12%nat /\
     forall cells d date hasTasks isToday,
       In cells months -> In (MiniDay d date hasTasks isToday) cells ->
       hasTasks = false) /\
  renderScheduleView [] now = Ok [].
Proof.
  split; [|split; [|split; [|split]]].
  - eexists. split; reflexivity.
  - eexists. split; [|split].
    + unfold renderWeekView. apply mapM_pure. intros date _. cbn [getTasksForDate filterM bind].
      instantiate (1 := fun date => {| week_date := date;
                                       week_isToday := isSameDate (Some now) date;
                                       dayTasks := [] |}).
      reflexivity.
    + unfold weekDays. rewrite !length_map. reflexivity.
    + apply Forall_forall. intros c Hc. apply in_map_iff in Hc.
      destruct Hc as (d & <- & _). reflexivity.
  - eexists. split.
    + unfold renderMonthView. cbv zeta.
      rewrite (mapM_pure _ (fun day =>
         DayCell day (Date_ymd (getFullYear (currentDate s)) (getMonth (currentDate s))
                               (Some day))
                 (isSameDate (Some now)
                    (Date_ymd (getFullYear (currentDate s)) (getMonth (currentDate s))
                              (Some day))) [])); [reflexivity|].
      intros day _. reflexivity.
    + intros day date isToday daysTasks Hin. apply in_app_or in Hin.
      destruct Hin as [Hin|Hin]; apply in_map_iff in Hin; destruct Hin as (i & Hi & _).
      * discriminate Hi.
      * injection Hi as _ _ _ <-. reflexivity.
  - set (month := fun mi : Z =>
      map PadCell (indices 0 (getDay (Date_ymd (getFullYear (currentDate s)) (Some mi) (Some 1)))) ++
      map (fun d => MiniDay d (Date_ymd (getFullYear (currentDate s)) (Some mi) (Some d)) false
                      (isSameDate (Some now)
                         (Date_ymd (getFullYear (currentDate s)) (Some mi) (Some d))))
          (indices 1 (getDate (Date_ymd (getFullYear (currentDate s)) (Some (mi + 1)) (Some 0))))).
    exists (map month (indices 0 (Some 12))). split; [|split].
    + unfold renderYearView. apply mapM_pure. intros mi _. unfold renderYearMonth. cbv zeta.
      rewrite (mapM_pure _ (fun d =>
         MiniDay d (Date_ymd (getFullYear (currentDate s)) (Some mi) (Some d)) false
                 (isSameDate (Some now)
                    (Date_ymd (getFullYear (currentDate s)) (Some mi) (Some d)))));
        [reflexivity|].
      intros d _. reflexivity.
    + rewrite length_map. reflexivity.
    + intros cells d date hasTasks isToday Hc Hin. apply in_map_iff in Hc.
      destruct Hc as (mi & <- & _). apply in_app_or in Hin.
      destruct Hin as [Hin|Hin]; apply in_map_iff in Hin; destruct Hin as (i & Hi & _).
      * discriminate Hi.
      * injection Hi as _ _ <- _. reflexivity.
  - reflexivity.
Qed.

Lemma isSameDate_Day a b :
  isSameDate (Some a) (Some b) = true <->
  Time.Day (LocalTime a) = Time.Day (LocalTime b).
Proof.
  unfold isSameDate, getDate, getMonth, getFullYear. cbn [option_map numEq].
  rewrite !andb_true_iff, !Z.eqb_eq. split.
  - intros [[D M] Y]. apply Day_fields; assumption.
  - intros E. destruct (fields_Day _ _ E) as (Y & M & D). auto.
Qed.

(** X15. Two dates are the same date for [isSameDate] exactly when both
    are valid and their instants fall on the same day of the local
    calendar. *)
Theorem isSameDate_local_day (date1 date2 : Date) :
  isSameDate date1 date2 = true <->
  exists a b, date1 = Some a /\ date2 = Some b /\
    Time.Day (LocalTime a) = Time.Day (LocalTime b).
Proof.
  destruct date1 as [a|], date2 as [b|].
  - rewrite isSameDate_Day. split.
    + intros E. exists a, b. auto.
    + intros (a' & b' & [= <-] & [= <-] & E). exact E.
  - split; [discriminate|]. intros (a' & b' & _ & E & _). discriminate E.
  - split; [discriminate|]. intros (a' & b' & E & _). discriminate E.
  - split; [discriminate|]. intros (a' & b' & E & _). discriminate E.
Qed.

(** X16. On a host whose offset from UTC is constant, which is what [Host]
    describes: in the Day view the arrows move the anchor by one day and in
    the Week view by seven days, that is by 24 and by 168 hours, to the
    same local time of day so many days of the local calendar away; going
    one way and then back gives the state it started from. *)
Theorem navigate_day_week (direction : Direction) (s : ViewState) (t : Z) :
  currentDate s = Some t ->
  viewMode s = Day \/ viewMode s = Week ->
  Z.abs t <= Time.maxTime - 7 * Time.msPerDay ->
  let days := (match direction with next => 1 | prev => -1 end)
              * (match viewMode s with Week => 7 | _ => 1 end) in
  currentDate (navigate direction s) = Some (t + days * Time.msPerDay) /\
  Time.Day (LocalTime (t + days * Time.msPerDay)) = Time.Day (LocalTime t) + days /\
  Time.TimeWithinDay (LocalTime (t + days * Time.msPerDay))
    = Time.TimeWithinDay (LocalTime t) /\
  navigate (opposite direction) (navigate direction s) = s.
Proof.
  intros E V R days.
  destruct s as [cd vm]. cbn [currentDate viewMode] in *. subst cd.
  assert (Hd : -7 <= days <= 7) by (subst days; destruct direction, vm; lia).
  split; [|split; [|split]].
  - unfold navigate. cbn [currentDate viewMode].
    destruct V as [-> | ->]; subst days.
    + rewrite Z.mul_1_r. rewrite setDate_shift. apply TimeClip_ok.
      destruct direction; unfold Time.maxTime, Time.msPerDay in *; lia.
    + rewrite setDate_shift. apply TimeClip_ok.
      destruct direction; unfold Time.maxTime, Time.msPerDay in *; lia.
  - rewrite LocalTime_shift. apply Day_shift.
  - rewrite LocalTime_shift. unfold Time.TimeWithinDay.
    apply Z.mod_add. unfold Time.msPerDay. lia.
  - unfold navigate. cbn [currentDate viewMode].
    destruct V as [-> | ->]; rewrite !setDate_shift.
    + rewrite (TimeClip_ok (t + _)) by
        (destruct direction; unfold Time.maxTime, Time.msPerDay in *; lia).
      rewrite setDate_shift. f_equal.
      replace (t + match direction with next => 1 | prev => -1 end * Time.msPerDay
               + match opposite direction with next => 1 | prev => -1 end * Time.msPerDay)
        with t by (destruct direction; cbn [opposite]; lia).
      apply TimeClip_ok. unfold Time.maxTime, Time.msPerDay in *. lia.
    + rewrite (TimeClip_ok (t + _)) by
        (destruct direction; unfold Time.maxTime, Time.msPerDay in *; lia).
      rewrite setDate_shift. f_equal.
      replace (t + match direction with next => 1 | prev => -1 end * 7 * Time.msPerDay
               + match opposite direction with next => 1 | prev => -1 end * 7 * Time.msPerDay)
        with t by (destruct direction; cbn [opposite]; lia).
      apply TimeClip_ok. unfold Time.maxTime, Time.msPerDay in *. lia.
Qed.

(** *** The task list *)

Lemma Date_parse_midnight t :
  Z.abs t <= Time.maxTime ->
  Date_parse (isoDateString t ++ "T00:00:00.000Z") = Some (Time.Day t * Time.msPerDay).
Proof.
  intros H.
  pose proof (Date_parse_toISOString (Time.Day t * Time.msPerDay)
                (Day_midnight_representable t H)) as P.
  rewrite isoTimeString_midnight, (isoDateString_Day _ t (Day_midnight t)) in P.
  exact P.
Qed.

(** X24. A task that the form has saved for the date of [t] (due at the
    UTC midnight that starts that date) is shown as overdue in the task
    list exactly when it is not Done and that midnight is before the current
    instant: already at [t] itself, unless [t] is that midnight. *)
Theorem overdue_from_utc_midnight (now t : Z) (task : Task) :
  Z.abs t <= Time.maxTime ->
  dueDate task = Some (isoDateString t ++ "T00:00:00.000Z")%string ->
  (isOverdue now task = true <->
   Time.Day t * Time.msPerDay < now /\ status task <> DONE) /\
  (status task <> DONE -> Time.TimeWithinDay t <> 0 -> isOverdue t task = true).
Proof.
  intros H D.
  assert (Spec : forall n, isOverdue n task = true <->
                           Time.Day t * Time.msPerDay < n /\ status task <> DONE).
  { intros n. unfold isOverdue. rewrite D.
    pose proof (isoDateString_length t) as L.
    destruct (isoDateString t ++ "T00:00:00.000Z")%string as [|c r] eqn:E.
    { destruct (isoDateString t); [cbn in L; lia | discriminate E]. }
    rewrite <- E, Date_parse_midnight by exact H. cbn [getTime numLt].
    rewrite andb_true_iff, Z.ltb_lt, negb_true_iff.
    split; intros [A B]; (split; [exact A|]).
    - intros S. rewrite S in B. discriminate B.
    - destruct (status_eqb (status task) DONE) eqn:S; [|reflexivity].
      apply status_eqb_eq in S. congruence. }
  split; [apply Spec|].
  intros S W. apply Spec. split; [|exact S].
  pose proof (MakeDate_Day t) as M. pose proof (TimeWithinDay_range t) as R.
  unfold Time.MakeDate in M. lia.
Qed.

End AppProperties.

(** ** Bucket keys of civil dates *)

Lemma dateKey_lacks_T y m d : lacks "T" (dateKey y m d).
Proof.
  unfold dateKey.
  apply lacks_app; [apply padDigits_lacks; reflexivity|].
  change ("-" ++ ?x)%string with (String "-" x). cbn [lacks]. split; [reflexivity|].
  apply lacks_app; [apply padDigits_lacks; reflexivity|].
  cbn [lacks append]. split; [reflexivity|].
  apply padDigits_lacks; reflexivity.
Qed.

Lemma dateKey_civil y m d :
  0 <= y <= 9999 -> 1 <= m <= 12 -> 1 <= d <= Time.daysInMonthOf y (m - 1) ->
  dateKey y m d = isoDateString (Time.MakeDate (Time.MakeDay y (m - 1) d) 0).
Proof.
  intros Hy Hm Hd.
  rewrite isoDateString_civil by (unfold Time.msPerDay; lia).
  unfold isoYearString. destruct (Z.leb_spec 0 y), (Z.leb_spec y 9999); try lia.
  cbn [andb]. replace (m - 1 + 1) with m by lia. reflexivity.
Qed.

Lemma civil_midnight_representable y m d :
  0 <= y <= 9999 -> 0 <= m <= 11 -> 1 <= d <= Time.daysInMonthOf y m ->
  Z.abs (Time.MakeDate (Time.MakeDay y m d) 0) <= Time.maxTime.
Proof.
  intros Hy Hm Hd.
  pose proof (MakeDay_within_year y m d Hm Hd).
  pose proof (DayFromYear_representable y ltac:(lia)).
  unfold Time.MakeDate, Time.maxTime, Time.msPerDay in *. lia.
Qed.

(** A task whose due date has the key of a civil date. *)
Lemma dueOn_key k T due y m d :
  dueDate T = Some due -> Str.splitHead "T" due = dateKey y m d ->
  dueOn k T = String.eqb k (dateKey y m d) /\
  keyOf T = dateKey y m d /\ truthy (dueDate T) = true.
Proof.
  intros D K. unfold dueOn, keyOf, truthy. rewrite D.
  destruct due as [|c r].
  - exfalso. pose proof (padDigits_length 4 y) as L. cbn in K. unfold dateKey in K.
    destruct (Str.padDigits 4 y); [discriminate L | discriminate K].
  - rewrite K. auto.
Qed.

Section ZoneProperties.

Context {host : Host}.

(** Time zones are less than a day from UTC. *)
Hypothesis tza_bound : Z.abs tza <= Time.msPerDay.

(** The local fields and time of day of a date whose local time is given
    by a civil date and a time of day. *)
Lemma local_time_fields u y m d tod :
  0 <= m <= 11 -> 1 <= d <= Time.daysInMonthOf y m -> 0 <= tod < Time.msPerDay ->
  LocalTime u = Time.MakeDate (Time.MakeDay y m d) tod ->
  Time.YearFromTime (LocalTime u) = y /\ Time.MonthFromTime (LocalTime u) = m /\
  Time.DateFromTime (LocalTime u) = d /\ Time.TimeWithinDay (LocalTime u) = tod.
Proof.
  intros Hm Hd Ht E. rewrite E.
  destruct (components_MakeDay y m d tod Hm Hd Ht) as (Y & M & D).
  rewrite Y, M, D, TimeWithinDay_MakeDate by exact Ht. auto.
Qed.

(** X17. On a host whose offset from UTC is constant, which is what [Host]
    describes: in the Month view (and in the Schedule view, which navigates
    the same way) an anchor on day 1..28 moves to the same day and time of
    day of the adjacent month, across the turn of the year; going one way
    and then back gives the state it started from. *)
Theorem navigate_month_keeps_day (direction : Direction) (s : ViewState)
    (u y m d tod : Z) :
  viewMode s = Month \/ viewMode s = Schedule ->
  currentDate s = Some u ->
  LocalTime u = Time.MakeDate (Time.MakeDay y m d) tod ->
  -270000 <= y <= 274000 -> 0 <= m <= 11 -> 1 <= d <= 28 -> 0 <= tod < Time.msPerDay ->
  let k := match direction with next => 1 | prev => -1 end in
  let y' := y + (m + k) / 12 in
  let m' := (m + k) mod 12 in
  exists u',
    currentDate (navigate direction s) = Some u' /\
    LocalTime u' = Time.MakeDate (Time.MakeDay y' m' d) tod /\
    getFullYear (Some u') = Some y' /\ getMonth (Some u') = Some m' /\
    getDate (Some u') = Some d /\
    navigate (opposite direction) (navigate direction s) = s.
Proof.
  intros V E L Hy Hm Hd Ht k y' m'.
  assert (Set_ : forall v yy mm j, 0 <= mm <= 11 -> -271000 <= yy + (mm + j) / 12 <= 275000 ->
            LocalTime v = Time.MakeDate (Time.MakeDay yy mm d) tod ->
            setMonth (Some v) (numAdd (getMonth (Some v)) (Some j))
            = Some (UTC (Time.MakeDate
                           (Time.MakeDay (yy + (mm + j) / 12) ((mm + j) mod 12) d) tod))).
  { intros v yy mm j Hmm Hyy Lv.
    pose proof (daysInMonthOf_mod yy mm Hmm).
    destruct (local_time_fields v yy mm d tod Hmm ltac:(lia) Ht Lv) as (F1 & F2 & F3 & F4).
    unfold setMonth, getMonth, numAdd. cbn [option_map].
    rewrite F1, F2, F3, F4, MakeDay_normal.
    apply TimeClip_ok.
    pose proof (Z.mod_pos_bound (mm + j) 12 ltac:(lia)).
    apply civil_representable; auto; try lia.
    pose proof (daysInMonthOf_mod (yy + (mm + j) / 12) ((mm + j) mod 12) ltac:(lia)). lia. }
  assert (Hk : k = 1 \/ k = -1) by (subst k; destruct direction; auto).
  assert (Hm' : 0 <= m' <= 11) by (subst m'; pose proof (Z.mod_pos_bound (m + k) 12); lia).
  assert (Hy' : y - 1 <= y' <= y + 1) by (subst y'; Z.div_mod_to_equations; lia).
  set (u' := UTC (Time.MakeDate (Time.MakeDay y' m' d) tod)).
  assert (N : forall vm, vm = Month \/ vm = Schedule ->
            navigate direction {| currentDate := Some u; viewMode := vm |}
            = {| currentDate := Some u'; viewMode := vm |}).
  { intros vm [-> | ->]; unfold navigate; cbn [currentDate viewMode]; fold k;
      (rewrite (Set_ u y m k Hm); [reflexivity | fold y'; lia | exact L]). }
  assert (Back : forall vm, vm = Month \/ vm = Schedule ->
            navigate (opposite direction) {| currentDate := Some u'; viewMode := vm |}
            = {| currentDate := Some u; viewMode := vm |}).
  { assert (K' : match opposite direction with next => 1 | prev => -1 end = - k)
      by (subst k; destruct direction; reflexivity).
    assert (Y'' : y' + (m' + - k) / 12 = y) by (subst y' m'; Z.div_mod_to_equations; lia).
    assert (M'' : (m' + - k) mod 12 = m) by (subst y' m'; Z.div_mod_to_equations; lia).
    intros vm [-> | ->]; unfold navigate; cbn [currentDate viewMode]; rewrite K';
      (rewrite (Set_ u' y' m' (- k) Hm');
       [rewrite Y'', M'', <- L, UTC_LocalTime; reflexivity
       | rewrite Y''; lia | apply LocalTime_UTC]). }
  exists u'. destruct s as [cd vm]. cbn [currentDate viewMode] in *. subst cd.
  rewrite (N vm V). cbn [currentDate]. split; [reflexivity|].
  split; [apply LocalTime_UTC|].
  pose proof (daysInMonthOf_mod y' m' Hm').
  destruct (local_fields u' y' m' d tod Hm' ltac:(lia) Ht (LocalTime_UTC _)) as (F1 & F2 & F3).
  repeat (split; [assumption|]). apply Back. exact V.
Qed.

(** X18. In the Year view the arrows move the anchor to the adjacent
    year: to the same month and day when that year has the day, and from 29
    February to 1 March (the adjacent year is never a leap year).  On a
    host whose offset from UTC is constant, which is what [Host] describes,
    going to a year that has the day and then back gives the state it
    started from. *)
Theorem navigate_year (direction : Direction) (s : ViewState) (u y m d tod : Z) :
  viewMode s = Year ->
  currentDate s = Some u ->
  LocalTime u = Time.MakeDate (Time.MakeDay y m d) tod ->
  -270000 <= y <= 274000 -> 0 <= m <= 11 -> 1 <= d <= Time.daysInMonthOf y m ->
  0 <= tod < Time.msPerDay ->
  let y' := y + match direction with next => 1 | prev => -1 end in
  exists u',
    currentDate (navigate direction s) = Some u' /\
    getFullYear (Some u') = Some y' /\
    (d <= Time.daysInMonthOf y' m ->
       getMonth (Some u') = Some m /\ getDate (Some u') = Some d /\
       navigate (opposite direction) (navigate direction s) = s) /\
    (m = 1 -> d = 29 -> getMonth (Some u') = Some 2 /\ getDate (Some u') = Some 1).
Proof.
  intros V E L Hy Hm Hd Ht y'.
  destruct (local_time_fields u y m d tod Hm Hd Ht L) as (F1 & F2 & F3 & F4).
  assert (Hy' : y - 1 <= y' <= y + 1) by (subst y'; destruct direction; lia).
  set (u' := UTC (Time.MakeDate (Time.MakeDay y' m d) tod)).
  pose proof (daysInMonthOf_range y m Hm) as R.
  pose proof (daysInMonthOf_range y' m Hm) as R'.
  assert (Rep : Z.abs u' <= Time.maxTime).
  { subst u'. destruct (Z.le_gt_cases d (Time.daysInMonthOf y' m)) as [Le|Gt].
    - apply civil_representable; auto; lia.
    - pose proof (MakeDay_within_year y' m (Time.daysInMonthOf y' m) Hm ltac:(lia)) as W.
      pose proof (DayFromYear_representable y' ltac:(lia)) as B.
      rewrite !MakeDay_in_year in * by exact Hm.
      unfold UTC, Time.MakeDate, Time.maxTime, Time.msPerDay in *. lia. }
  assert (N : navigate direction s = {| currentDate := Some u'; viewMode := Year |}).
  { destruct s as [cd vm]. cbn [currentDate viewMode] in *. subst cd vm.
    unfold navigate. cbn [currentDate viewMode]. f_equal.
    unfold setFullYear, getFullYear, numAdd. cbn [option_map].
    rewrite F1, F2, F3, F4. fold y'. apply TimeClip_ok. exact Rep. }
  exists u'. rewrite N. cbn [currentDate]. split; [reflexivity|].
  assert (FY : getFullYear (Some u') = Some y').
  { destruct (Z.le_gt_cases d (Time.daysInMonthOf y' m)) as [Le|Gt].
    - apply (local_fields u' y' m d tod Hm ltac:(lia) Ht (LocalTime_UTC _)).
    - (* only 29 February has no counterpart *)
      destruct (daysInMonthOf_other_year y y' m d Hm ltac:(lia) ltac:(lia)) as (-> & -> & _ & Lp).
      assert (E29 : Time.MakeDay y' 1 29 = Time.MakeDay y' 2 1).
      { rewrite !MakeDay_in_year by lia. rewrite Lp.
        change (Time.monthStart 0 2) with 59. change (Time.monthStart 0 1) with 31. lia. }
      assert (LU : LocalTime u' = Time.MakeDate (Time.MakeDay y' 2 1) tod)
        by (subst u'; rewrite LocalTime_UTC, E29; reflexivity).
      apply (local_fields u' y' 2 1 tod ltac:(lia)
               ltac:(pose proof (daysInMonthOf_range y' 2 ltac:(lia)); lia) Ht LU). }
  split; [exact FY|]. split.
  - intros Le.
    destruct (local_fields u' y' m d tod Hm ltac:(lia) Ht (LocalTime_UTC _)) as (_ & G2 & G3).
    split; [exact G2|]. split; [exact G3|].
    destruct (local_time_fields u' y' m d tod Hm ltac:(lia) Ht (LocalTime_UTC _))
      as (H1 & H2 & H3 & H4).
    destruct s as [cd vm]. cbn [currentDate viewMode] in *. subst cd vm.
    unfold navigate at 1. cbn [currentDate viewMode]. f_equal.
    unfold setFullYear, getFullYear, numAdd. cbn [option_map].
    rewrite H1, H2, H3, H4.
    replace (y' + match opposite direction with next => 1 | prev => -1 end) with y
      by (subst y'; destruct direction; cbn [opposite]; lia).
    rewrite <- L, UTC_LocalTime. apply TimeClip_ok.
    rewrite <- (UTC_LocalTime u), L. apply civil_representable; auto; lia.
  - intros -> ->.
    assert (Ly : Time.leapOfYear y = 1).
    { unfold Time.daysInMonthOf in Hd. pose proof (leapOfYear_range y) as Ly.
      revert Hd Ly. generalize (Time.leapOfYear y) as l. intros l Hd Ly.
      leap_cases l; [cbn in Hd; lia | reflexivity]. }
    assert (Lp : Time.leapOfYear y' = 0).
    { subst y'. apply leapOfYear_adjacent; [exact Ly | destruct direction; auto]. }
    assert (E29 : Time.MakeDay y' 1 29 = Time.MakeDay y' 2 1).
    { rewrite !MakeDay_in_year by lia. rewrite Lp.
        change (Time.monthStart 0 2) with 59. change (Time.monthStart 0 1) with 31. lia. }
    assert (LU : LocalTime u' = Time.MakeDate (Time.MakeDay y' 2 1) tod)
      by (subst u'; rewrite LocalTime_UTC, E29; reflexivity).
    destruct (local_fields u' y' 2 1 tod ltac:(lia)
               ltac:(pose proof (daysInMonthOf_range y' 2 ltac:(lia)); lia) Ht LU)
      as (_ & G2 & G3).
    auto.
Qed.

Lemma renderMonthView_plain tasks now s t :
  currentDate s = Some t ->
  plainYear (Time.YearFromTime (LocalTime t)) ->
  renderMonthView tasks now s =
  Ok (map EmptyCell
        (indices 0 (Some (Time.WeekDay (LocalTime
           (localMidnight (Time.YearFromTime (LocalTime t))
                          (Time.MonthFromTime (LocalTime t)) 1))))) ++
      map (fun day =>
             DayCell day
               (Some (localMidnight (Time.YearFromTime (LocalTime t))
                                    (Time.MonthFromTime (LocalTime t)) day))
               (isSameDate (Some now)
                  (Some (localMidnight (Time.YearFromTime (LocalTime t))
                                       (Time.MonthFromTime (LocalTime t)) day)))
               (tasksOnDate tasks
                  (localMidnight (Time.YearFromTime (LocalTime t))
                                 (Time.MonthFromTime (LocalTime t)) day)))
          (indices 1 (Some (Time.daysInMonthOf (Time.YearFromTime (LocalTime t))
                                               (Time.MonthFromTime (LocalTime t)))))).
Proof.
  intros E P.
  pose proof (MonthFromTime_range (LocalTime t)) as HM.
  set (Y := Time.YearFromTime (LocalTime t)) in *.
  set (M := Time.MonthFromTime (LocalTime t)) in *.
  unfold renderMonthView, monthFirstDay, monthDaysInMonth. rewrite E.
  change (getFullYear (Some t)) with (Some Y). change (getMonth (Some t)) with (Some M).
  cbn [numAdd]. rewrite lastDay_getDate, firstDay_getDay by assumption.
  rewrite (mapM_pure _ (fun day =>
             DayCell day (Some (localMidnight Y M day))
                     (isSameDate (Some now) (Some (localMidnight Y M day)))
                     (tasksOnDate tasks (localMidnight Y M day)))).
  - reflexivity.
  - intros day Hd. apply indices_In in Hd.
    rewrite Date_ymd_localMidnight by (auto; lia).
    rewrite getTasksForDate_valid. reflexivity.
Qed.

Lemma Day_localMidnight y m d : Time.Day (LocalTime (localMidnight y m d)) = Time.MakeDay y m d.
Proof.
  unfold localMidnight. rewrite LocalTime_UTC. apply Day_MakeDate.
  unfold Time.msPerDay. lia.
Qed.

(** X19. In the Month view a day cell is marked as today exactly when the
    local date of the current instant is that day of the anchor's month and
    year: at most one cell is marked, and one is whenever today lies in the
    month shown. *)
Theorem month_view_today (tasks : list Task) (now : Z) (s : ViewState) (t : Z) :
  currentDate s = Some t ->
  let Y := Time.YearFromTime (LocalTime t) in
  let M := Time.MonthFromTime (LocalTime t) in
  plainYear Y ->
  exists cells,
    renderMonthView tasks now s = Ok cells /\
    (forall day date isToday daysTasks,
       In (DayCell day date isToday daysTasks) cells ->
       (isToday = true <->
        Time.YearFromTime (LocalTime now) = Y /\ Time.MonthFromTime (LocalTime now) = M /\
        Time.DateFromTime (LocalTime now) = day)) /\
    (Time.YearFromTime (LocalTime now) = Y -> Time.MonthFromTime (LocalTime now) = M ->
     exists date daysTasks,
       In (DayCell (Time.DateFromTime (LocalTime now)) date true daysTasks) cells).
Proof.
  intros E Y M P. pose proof (MonthFromTime_range (LocalTime t)) as HM. fold M in HM.
  assert (ST : forall day, 1 <= day <= Time.daysInMonthOf Y M ->
    (isSameDate (Some now) (Some (localMidnight Y M day)) = true <->
     Time.YearFromTime (LocalTime now) = Y /\ Time.MonthFromTime (LocalTime now) = M /\
     Time.DateFromTime (LocalTime now) = day)).
  { intros day Hd. destruct (localMidnight_fields Y M day HM Hd) as (F1 & F2 & F3).
    unfold isSameDate. rewrite F1, F2, F3.
    unfold getDate, getMonth, getFullYear. cbn [option_map numEq].
    rewrite !andb_true_iff, !Z.eqb_eq. tauto. }
  eexists. split; [apply (renderMonthView_plain tasks now s t E P)|]. fold Y M. split.
  - intros day date isToday daysTasks Hin. apply in_app_or in Hin.
    destruct Hin as [Hin|Hin]; apply in_map_iff in Hin; destruct Hin as (i & Hi & Hr).
    + discriminate Hi.
    + injection Hi as -> <- <- <-. apply indices_In in Hr. apply ST. lia.
  - intros EY EM. pose proof (DateFromTime_range (LocalTime now)) as R.
    rewrite EY, EM in R.
    do 2 eexists. apply in_or_app. right. apply in_map_iff.
    exists (Time.DateFromTime (LocalTime now)). split.
    + f_equal. apply ST; auto.
    + apply indices_In. lia.
Qed.

(** X23. The Year view's grid of the anchor's month is the Month view's
    grid, cell by cell, with each day's task list replaced by the mark that
    says whether it has a task. *)
Theorem year_grid_matches_month_grid (tasks : list Task) (now : Z) (s : ViewState)
    (t : Z) :
  currentDate s = Some t ->
  plainYear (Time.YearFromTime (LocalTime t)) ->
  exists cells months,
    renderMonthView tasks now s = Ok cells /\
    renderYearView tasks now s = Ok months /\
    List.length months = 12%nat /\
    nth_error months (Z.to_nat (Time.MonthFromTime (LocalTime t)))
      = Some (map toMini cells).
Proof.
  intros E P. pose proof (MonthFromTime_range (LocalTime t)) as HM.
  set (Y := Time.YearFromTime (LocalTime t)) in *.
  set (M := Time.MonthFromTime (LocalTime t)) in *.
  eexists. exists (map (fun mi =>
        map PadCell (indices 0 (Some (Time.WeekDay (LocalTime (localMidnight Y mi 1))))) ++
        map (fun d =>
               MiniDay d (Some (localMidnight Y mi d))
                       (0 <? Z.of_nat (List.length (tasksOnDate tasks (localMidnight Y mi d))))
                       (isSameDate (Some now) (Some (localMidnight Y mi d))))
            (indices 1 (Some (Time.daysInMonthOf Y mi)))) (indices 0 (Some 12))).
  split; [apply (renderMonthView_plain tasks now s t E P)|]. fold Y M. split; [|split].
  - unfold renderYearView. rewrite E. change (getFullYear (Some t)) with (Some Y).
    apply mapM_pure. intros mi Hmi. apply indices_In in Hmi.
    apply renderYearMonth_plain; auto; lia.
  - rewrite length_map. reflexivity.
  - rewrite nth_error_map, nth_error_indices by lia. cbn [option_map]. rewrite Z.add_0_l.
    rewrite map_app, !map_map. reflexivity.
Qed.

(** X20. A Schedule group whose key names a calendar day of a year
    100..9999 is shown as past exactly when that day is before the local
    day of the current instant, and carries the Today badge exactly when it
    is that day; a group of today or of a later day is not dimmed. *)
Theorem schedule_past_and_today (tasks : list Task) (now : Z)
    (groups : list ScheduleGroup) (g : ScheduleGroup) (y m d : Z) :
  renderScheduleView tasks now = Ok groups -> In g groups ->
  dateStr g = dateKey y m d ->
  100 <= y <= 9999 -> 1 <= m <= 12 -> 1 <= d <= Time.daysInMonthOf y (m - 1) ->
  Z.abs now <= Time.maxTime - 2 * Time.msPerDay ->
  let groupDay := Time.MakeDay y (m - 1) d in
  let today := Time.Day (LocalTime now) in
  (isPast g = true <-> groupDay < today) /\
  (isTodayBadge g = true <-> groupDay = today).
Proof.
  intros Hr Hg K Hy Hm Hd Hn groupDay today.
  unfold renderScheduleView in Hr. cbv zeta in Hr.
  destruct (forEachGroup [] (sortedTasks tasks)) as [grouped|e]; cbn [bind] in Hr;
    [|discriminate].
  injection Hr as <-. apply in_map_iff in Hg. destruct Hg as (k & <- & _).
  cbn [dateStr isPast isTodayBadge] in *. subst k.
  pose proof (daysInMonthOf_range y (m - 1) ltac:(lia)) as R.
  rewrite scheduleDisplayDate_dateKey by lia.
  rewrite Date_ymd_localMidnight by (unfold plainYear; lia).
  assert (T : setHours0 (Some now)
              = Some (UTC (Time.MakeDate (Time.Day (LocalTime now)) 0))).
  { unfold setHours0. apply TimeClip_ok.
    unfold UTC, Time.MakeDate, Time.Day, LocalTime, Time.maxTime, Time.msPerDay in *.
    Z.div_mod_to_equations. lia. }
  change (Time.TimeClip (UTC (Time.MakeDate (Time.Day (LocalTime now))
                                             (Time.MakeTime 0 0 0 0))))
    with (setHours0 (Some now)).
  rewrite T. cbn [numLt]. split.
  - rewrite Z.ltb_lt. unfold localMidnight, UTC, Time.MakeDate, Time.msPerDay.
    subst groupDay today. lia.
  - rewrite isSameDate_Day, Day_localMidnight. reflexivity.
Qed.

(** X25. East of UTC, for an anchor on day [d] of a month at a local time
    of day not before the zone offset, the Day view lists the tasks whose
    key is that day's, while the Month view's cell of the same day lists
    those whose key is the day before: no task is in both. *)
Theorem day_view_and_month_cell_east (tasks : list Task) (now : Z) (s : ViewState)
    (u y m d tod : Z) :
  0 < tza ->
  currentDate s = Some u ->
  LocalTime u = Time.MakeDate (Time.MakeDay y m d) tod ->
  100 <= y <= 9999 -> 0 <= m <= 11 -> 2 <= d <= Time.daysInMonthOf y m ->
  tza <= tod < Time.msPerDay ->
  exists dayView cells date isToday daysTasks,
    renderDayView tasks now s = Ok dayView /\
    renderMonthView tasks now s = Ok cells /\
    In (DayCell d date isToday daysTasks) cells /\
    tasksForDay dayView = filter (dueOn (dateKey y (m + 1) d)) tasks /\
    daysTasks = filter (dueOn (dateKey y (m + 1) (d - 1))) tasks /\
    forall T, In T (tasksForDay dayView) -> ~ In T daysTasks.
Proof.
  intros East E L Hy Hm Hd Ht.
  pose proof (daysInMonthOf_range y m Hm) as R.
  destruct (local_time_fields u y m d tod Hm ltac:(lia) ltac:(lia) L) as (FY & FM & _ & _).
  assert (Y : isoYearString y = Str.padDigits 4 y).
  { unfold isoYearString. destruct (Z.leb_spec 0 y), (Z.leb_spec y 9999); try lia.
    reflexivity. }
  assert (K1 : isoDateString u = dateKey y (m + 1) d).
  { replace u with (Time.MakeDate (Time.MakeDay y m d) (tod - tza))
      by (unfold LocalTime, Time.MakeDate in *; lia).
    rewrite isoDateString_civil by lia. rewrite Y. reflexivity. }
  assert (K2 : isoDateString (localMidnight y m d) = dateKey y (m + 1) (d - 1)).
  { rewrite cell_key_east by lia. rewrite Y. reflexivity. }
  assert (P : plainYear (Time.YearFromTime (LocalTime u)))
    by (rewrite FY; unfold plainYear; lia).
  do 5 eexists. split; [|split; [|split; [|split; [|split]]]].
  - unfold renderDayView. rewrite E, getTasksForDate_valid. reflexivity.
  - apply (renderMonthView_plain tasks now s u E P).
  - rewrite FY, FM. apply in_or_app. right. apply in_map_iff. exists d.
    split; [reflexivity|]. apply indices_In. lia.
  - cbn [tasksForDay]. unfold tasksOnDate. rewrite K1. reflexivity.
  - unfold tasksOnDate. rewrite K2. reflexivity.
  - cbn [tasksForDay]. intros T I1 I2. unfold tasksOnDate in *.
    apply filter_In in I1, I2.
    destruct I1 as [_ D1], I2 as [_ D2]. rewrite K1 in D1. rewrite K2 in D2.
    unfold dueOn in *. destruct (dueDate T) as [[|c r]|]; try discriminate D1.
    apply String.eqb_eq in D1, D2. rewrite <- D2 in D1. unfold dateKey in D1.
    do 4 apply string_app_inv_head in D1.
    apply padDigits_inj in D1; cbn; lia.
Qed.

(** *** The key of a cell and the key of a task

    The filter's comment says "Compare simply by YMD to avoid timezone
    offset issues", but the key it derives from a date is the UTC date of
    the date's instant, and the views pass the local midnight of a day. *)

(** C1. The Month view's cell of day [d] (2 or later) of the anchor's month
    lists exactly the tasks whose due date's key is that day's when the
    host is at or west of UTC, and exactly those whose key is the day
    before when it is east of UTC.  East of UTC a task due on day [d] is
    therefore not in the cell of day [d], while the Schedule view, whenever
    it renders, has it in the group of its key, displayed as day [d]: the
    views do not follow one membership rule. *)
Theorem month_cell_bucket_key (tasks : list Task) (now : Z) (s : ViewState) (t d : Z) :
  currentDate s = Some t ->
  let Y := Time.YearFromTime (LocalTime t) in
  let M := Time.MonthFromTime (LocalTime t) in
  100 <= Y <= 9999 ->
  - Time.msPerDay < tza ->
  2 <= d <= Time.daysInMonthOf Y M ->
  let listed := dateKey Y (M + 1) (if 0 <? tza then d - 1 else d) in
  exists cells,
    renderMonthView tasks now s = Ok cells /\
    (exists date isToday,
       In (DayCell d date isToday (filter (dueOn listed) tasks)) cells /\
       getFullYear date = Some Y /\ getMonth date = Some M /\ getDate date = Some d) /\
    (forall date isToday daysTasks,
       In (DayCell d date isToday daysTasks) cells ->
       daysTasks = filter (dueOn listed) tasks) /\
    (0 < tza ->
     forall T due, In T tasks -> dueDate T = Some due ->
       Str.splitHead "T" due = dateKey Y (M + 1) d ->
       (forall date isToday daysTasks,
          In (DayCell d date isToday daysTasks) cells -> ~ In T daysTasks) /\
       (forall groups, renderScheduleView tasks now = Ok groups ->
          exists g,
            In g groups /\ dateStr g = dateKey Y (M + 1) d /\ In T (groupTasks g) /\
            getFullYear (displayDate g) = Some Y /\
            getMonth (displayDate g) = Some M /\
            getDate (displayDate g) = Some d)).
Proof.
  intros E Y M Hy West Hd listed.
  pose proof (MonthFromTime_range (LocalTime t)) as HM. fold M in HM.
  pose proof (daysInMonthOf_range Y M HM) as R.
  assert (P : plainYear (Time.YearFromTime (LocalTime t)))
    by (fold Y; unfold plainYear; lia).
  assert (IY : isoYearString Y = Str.padDigits 4 Y).
  { unfold isoYearString. destruct (Z.leb_spec 0 Y), (Z.leb_spec Y 9999); try lia.
    reflexivity. }
  assert (K : isoDateString (localMidnight Y M d) = listed).
  { subst listed. destruct (Z.ltb_spec 0 tza) as [East|NotEast].
    - rewrite cell_key_east by lia. rewrite IY. reflexivity.
    - rewrite cell_key_west by lia. rewrite IY. reflexivity. }
  assert (Cells : forall date isToday daysTasks,
            In (DayCell d date isToday daysTasks)
               (map EmptyCell
                  (indices 0 (Some (Time.WeekDay (LocalTime (localMidnight Y M 1))))) ++
                map (fun day =>
                       DayCell day (Some (localMidnight Y M day))
                         (isSameDate (Some now) (Some (localMidnight Y M day)))
                         (tasksOnDate tasks (localMidnight Y M day)))
                    (indices 1 (Some (Time.daysInMonthOf Y M)))) ->
            daysTasks = filter (dueOn listed) tasks).
  { intros date isToday daysTasks Hin. apply in_app_or in Hin.
    destruct Hin as [Hin|Hin]; apply in_map_iff in Hin; destruct Hin as (i & Hi & _).
    - discriminate Hi.
    - injection Hi as -> _ _ <-. unfold tasksOnDate. rewrite K. reflexivity. }
  eexists. split; [apply (renderMonthView_plain tasks now s t E P)|].
  fold Y M. split; [|split; [exact Cells|]].
  - exists (Some (localMidnight Y M d)), (isSameDate (Some now) (Some (localMidnight Y M d))).
    split.
    + apply in_or_app. right. apply in_map_iff. exists d. split.
      * unfold tasksOnDate. rewrite K. reflexivity.
      * apply indices_In. lia.
    + apply localMidnight_fields; lia.
  - intros East T due HT HD HK.
    destruct (dueOn_key listed T due Y (M + 1) d HD HK) as (DK & KT & Tr). split.
    + intros date isToday daysTasks Hin. rewrite (Cells _ _ _ Hin).
      intros HF. apply filter_In in HF. destruct HF as [_ HF].
      rewrite DK in HF. apply String.eqb_eq in HF.
      subst listed. destruct (Z.ltb_spec 0 tza); [|lia].
      unfold dateKey in HF. do 4 apply string_app_inv_head in HF.
      apply padDigits_inj in HF; cbn; lia.
    + intros groups HR.
      destruct (schedule_groups tasks now groups HR) as [G1 G2].
      assert (IS : In T (sortedTasks tasks)) by (apply sortedTasks_In; auto).
      destruct (G2 (keyOf T)) as (g & Hg & Kg); [apply in_map; exact IS|].
      destruct (G1 g Hg) as (_ & GT & DD).
      exists g. split; [exact Hg|]. split; [congruence|]. split.
      * rewrite GT. apply filter_In. split; [exact IS|]. unfold hasKey.
        rewrite Kg. apply String.eqb_refl.
      * rewrite DD, Kg, KT.
        rewrite scheduleDisplayDate_dateKey by lia.
        replace (M + 1 - 1) with M by lia.
        rewrite (Date_ymd_localMidnight tza_bound) by (auto; lia).
        apply localMidnight_fields; lia.
Qed.

(** *** The Schedule display date *)

(** [new Date(y, m, d)] for a year 0..99 is the local midnight of that day
    of the year 1900 + y. *)
Lemma Date_ymd_two_digit y m d :
  0 <= y <= 99 -> 0 <= m <= 11 -> 1 <= d <= Time.daysInMonthOf (1900 + y) m ->
  Date_ymd (Some y) (Some m) (Some d) = Some (localMidnight (1900 + y) m d).
Proof.
  intros Hy Hm Hd.
  rewrite <- (Date_ymd_localMidnight tza_bound (1900 + y) m d)
    by (auto; unfold plainYear; lia).
  unfold Date_ymd.
  destruct (Z.leb_spec 0 y), (Z.leb_spec y 99); try lia.
  destruct (Z.leb_spec 0 (1900 + y)), (Z.leb_spec (1900 + y) 99); try lia; reflexivity.
Qed.

(** C7. A key [YYYY-MM-DD] that names a calendar day is a date string of
    the year [YYYY] (what the unused [new Date(dateStr)] holds), and the
    form stores due dates with such keys, for years 0..99 as well.  A group's
    display date is computed from the key alone.  For a year 100..9999 it
    is the local midnight of exactly the key's calendar date, whatever the
    time zone; for a year 0..99, [new Date(y, m-1, d)] takes the year as
    1900 + y, so the group is displayed 1900 years late, against the
    source's comment "create a date object that respects the string
    exactly". *)
Theorem schedule_display_date (y m d : Z) :
  0 <= y <= 9999 -> 1 <= m <= 12 -> 1 <= d <= Time.daysInMonthOf y (m - 1) ->
  let key := dateKey y m d in
  let shown := scheduleDisplayDate key in
  Date_parse key = Some (Time.MakeDay y (m - 1) d * Time.msPerDay) /\
  (exists iso, formDueDateISO key = Ok (Some iso) /\ Str.splitHead "T" iso = key) /\
  (forall tasks now groups g,
     renderScheduleView tasks now = Ok groups -> In g groups -> dateStr g = key ->
     displayDate g = shown) /\
  (100 <= y ->
     shown = Some (localMidnight y (m - 1) d) /\
     getFullYear shown = Some y /\ getMonth shown = Some (m - 1) /\
     getDate shown = Some d) /\
  (y <= 99 -> d <= Time.daysInMonthOf (1900 + y) (m - 1) ->
     shown = Some (localMidnight (1900 + y) (m - 1) d) /\
     getFullYear shown = Some (1900 + y) /\ getFullYear shown <> Some y /\
     getMonth shown = Some (m - 1) /\ getDate shown = Some d).
Proof.
  intros Hy Hm Hd key shown.
  pose proof (daysInMonthOf_range y (m - 1) ltac:(lia)) as R.
  set (t0 := Time.MakeDate (Time.MakeDay y (m - 1) d) 0).
  assert (K : key = isoDateString t0) by (apply dateKey_civil; assumption).
  assert (Rep : Z.abs t0 <= Time.maxTime)
    by (apply civil_midnight_representable; lia).
  assert (D0 : Time.Day t0 = Time.MakeDay y (m - 1) d)
    by (apply Day_MakeDate; unfold Time.msPerDay; lia).
  split; [|split; [|split; [|split]]].
  - rewrite K, Date_parse_isoDateString, D0 by exact Rep. reflexivity.
  - rewrite K, formDueDateISO_key by exact Rep. eexists. split; [reflexivity|].
    apply (splitHead_app "T" (isoDateString t0) "00:00:00.000Z" (isoDateString_lacks_T t0)).
  - intros tasks now groups g Hr Hg Kg.
    destruct (schedule_groups tasks now groups Hr) as [G _].
    destruct (G g Hg) as (_ & _ & DD). subst shown. rewrite DD, Kg. reflexivity.
  - intros Hy'.
    assert (E : shown = Some (localMidnight y (m - 1) d)).
    { subst shown key. rewrite scheduleDisplayDate_dateKey by lia.
      apply (Date_ymd_localMidnight tza_bound); [unfold plainYear|..]; lia. }
    split; [exact E|]. rewrite E. apply localMidnight_fields; lia.
  - intros Hy' Hd'.
    assert (E : shown = Some (localMidnight (1900 + y) (m - 1) d)).
    { subst shown key. rewrite scheduleDisplayDate_dateKey by lia.
      apply Date_ymd_two_digit; lia. }
    split; [exact E|]. rewrite E.
    destruct (localMidnight_fields (1900 + y) (m - 1) d) as (F1 & F2 & F3); [lia | lia |].
    rewrite F1. repeat (split; [assumption || reflexivity|]).
    split; [|split; assumption]. intros H.
    assert (H' : 1900 + y = y) by congruence. lia.
Qed.

End ZoneProperties.

(** * Examples on the sample host *)

Lemma sampleHost_bound : Z.abs (@tza sampleHost) <= Time.msPerDay.
Proof. unfold Time.msPerDay. cbn. lia. Defined.

(** January 31, 2024 and 2023 at UTC+05:30: [next] in Month view lands in
    March. *)
Lemma navigate_month_overflows_witness :
  Z.abs (@tza sampleHost) <= Time.msPerDay /\
  (let s := {| currentDate := @Date_ymd sampleHost (Some 2024) (Some 0) (Some 31);
               viewMode := Month |} in
   @getMonth sampleHost (currentDate (@navigate sampleHost next s)) = Some 2 /\
   @getDate sampleHost (currentDate (@navigate sampleHost next s)) = Some 2).
Proof.
  split; [exact sampleHost_bound|].
  destruct (@navigate_month_overflows sampleHost sampleHost_bound) as [(_ & M & D) _].
  split; assumption.
Defined.

(** The Week view of 2024-01-15 has seven columns. *)
Lemma week_view_window_witness :
  let s := {| currentDate := Some sampleNoon; viewMode := Week |} in
  (currentDate s = Some sampleNoon /\
   Z.abs sampleNoon <= Time.maxTime - 7 * Time.msPerDay) /\
  exists columns,
    @renderWeekView sampleHost [] 0 s = Ok columns /\ List.length columns = 7%nat.
Proof.
  cbv zeta.
  assert (H1 : currentDate {| currentDate := Some sampleNoon; viewMode := Week |}
               = Some sampleNoon) by reflexivity.
  assert (H2 : Z.abs sampleNoon <= Time.maxTime - 7 * Time.msPerDay)
    by (unfold sampleNoon, Time.maxTime, Time.msPerDay; lia).
  split; [split; assumption|].
  destruct (@week_view_window sampleHost [] 0 _ _ H1 H2)
    as (_ & _ & _ & _ & _ & columns & R & L & _).
  exists columns. split; assumption.
Defined.

Lemma sampleNoon_year :
  plainYear (Time.YearFromTime (@LocalTime sampleHost sampleNoon)).
Proof.
  change (Time.YearFromTime (@LocalTime sampleHost sampleNoon)) with 2024.
  unfold plainYear. lia.
Defined.

(** The Month view of January 2024 has 32 cells. *)
Lemma month_grid_length_witness :
  let s := {| currentDate := Some sampleNoon; viewMode := Month |} in
  (Z.abs (@tza sampleHost) <= Time.msPerDay /\
   currentDate s = Some sampleNoon /\
   plainYear (Time.YearFromTime (@LocalTime sampleHost sampleNoon))) /\
  exists cells,
    @renderMonthView sampleHost [] 0 s = Ok cells /\ List.length cells = 32%nat.
Proof.
  cbv zeta.
  assert (H1 : currentDate {| currentDate := Some sampleNoon; viewMode := Month |}
               = Some sampleNoon) by reflexivity.
  split; [split; [exact sampleHost_bound | split; [exact H1 | exact sampleNoon_year]]|].
  destruct (@month_grid_length sampleHost sampleHost_bound [] 0 _ _ H1 sampleNoon_year)
    as (_ & _ & _ & _ & cells & R & _ & _ & L).
  exists cells. split; [exact R | apply L; reflexivity].
Defined.

(** Selecting February 29 in the Year view of 2024. *)
Lemma year_day_selection_witness :
  let s := {| currentDate := Some sampleNoon; viewMode := Year |} in
  (Z.abs (@tza sampleHost) <= Time.msPerDay /\
   currentDate s = Some sampleNoon /\
   plainYear (Time.YearFromTime (@LocalTime sampleHost sampleNoon))) /\
  exists date,
    let s' := @step sampleHost 0 s (ClickYearDay date) in
    viewMode s' = Day /\
    @getFullYear sampleHost (currentDate s') = Some 2024 /\
    @getMonth sampleHost (currentDate s') = Some 1 /\
    @getDate sampleHost (currentDate s') = Some 29.
Proof.
  cbv zeta.
  assert (H1 : currentDate {| currentDate := Some sampleNoon; viewMode := Year |}
               = Some sampleNoon) by reflexivity.
  split; [split; [exact sampleHost_bound | split; [exact H1 | exact sampleNoon_year]]|].
  destruct (@year_day_selection sampleHost sampleHost_bound [] 0 _ _ H1 sampleNoon_year)
    as [(cellsOf & _ & C) _].
  destruct (C 1 ltac:(lia)) as [Ex Sel].
  destruct (Ex 29) as (date & hasTasks & isToday & Hin).
  { change (Time.daysInMonthOf (Time.YearFromTime (@LocalTime sampleHost sampleNoon)) 1)
      with 29. lia. }
  exists date. destruct (Sel 29 date hasTasks isToday Hin) as (V & _ & Y & M & D).
  repeat split; assumption.
Defined.

(** The key "0050-03-05", which the form stores for that date, is shown as
    March 5, 1950. *)
Lemma schedule_display_date_witness :
  (Z.abs (@tza sampleHost) <= Time.msPerDay /\
   0 <= 50 <= 9999 /\ 1 <= 3 <= 12 /\ 1 <= 5 <= Time.daysInMonthOf 50 (3 - 1) /\
   5 <= Time.daysInMonthOf (1900 + 50) (3 - 1)) /\
  dateKey 50 3 5 = "0050-03-05"%string /\
  @formDueDateISO sampleHost "0050-03-05" = Ok (Some "0050-03-05T00:00:00.000Z"%string) /\
  @getFullYear sampleHost (@scheduleDisplayDate sampleHost "0050-03-05") = Some 1950 /\
  @getMonth sampleHost (@scheduleDisplayDate sampleHost "0050-03-05") = Some 2 /\
  @getDate sampleHost (@scheduleDisplayDate sampleHost "0050-03-05") = Some 5.
Proof.
  assert (Hy : 0 <= 50 <= 9999) by lia.
  assert (Hm : 1 <= 3 <= 12) by lia.
  assert (Hd : 1 <= 5 <= Time.daysInMonthOf 50 (3 - 1))
    by (change (Time.daysInMonthOf 50 (3 - 1)) with 31; lia).
  assert (Hd' : 5 <= Time.daysInMonthOf (1900 + 50) (3 - 1))
    by (change (Time.daysInMonthOf (1900 + 50) (3 - 1)) with 31; lia).
  split; [repeat split; try apply Hy; try apply Hm; try apply Hd; try exact Hd';
          exact sampleHost_bound|].
  destruct (@schedule_display_date sampleHost sampleHost_bound 50 3 5 Hy Hm Hd)
    as (_ & _ & _ & _ & Two).
  destruct (Two ltac:(lia) Hd') as (_ & Y & _ & M & D).
  split; [reflexivity|]. split; [reflexivity|].
  repeat split; assumption.
Defined.

(** A task due "someday" is unparsable and is in no day bucket, but the
    Schedule view lists it under the key "someday". *)
Lemma unparsable_due_dates_witness :
  let T := sampleTask "errand" "someday" in
  (In T [T] /\ dueDate T = Some "someday"%string /\ "someday"%string <> EmptyString /\
   @Date_parse sampleHost "someday" = None) /\
  (forall t, exists onDay,
     @getTasksForDate sampleHost [T] (Some t) = Ok onDay /\ ~ In T onDay) /\
  (forall now groups, @renderScheduleView sampleHost [T] now = Ok groups ->
     exists g, In g groups /\ dateStr g = "someday"%string /\ In T (groupTasks g)).
Proof.
  cbv zeta.
  assert (H1 : In (sampleTask "errand" "someday") [sampleTask "errand" "someday"])
    by (left; reflexivity).
  assert (H2 : dueDate (sampleTask "errand" "someday") = Some "someday"%string)
    by reflexivity.
  assert (H3 : "someday"%string <> EmptyString) by discriminate.
  assert (H4 : @Date_parse sampleHost "someday" = None) by reflexivity.
  split; [repeat split; assumption|].
  destruct (@unparsable_due_dates sampleHost _ _ _ H1 H2 H3 H4) as [B S].
  split; [|exact S].
  intros t. destruct (B t) as (onDay & R & _ & N).
  exists onDay. split; [exact R|]. apply N. cbn. lia.
Defined.

(** C4, as stated, fails on the same task: it is in a Schedule group. *)
Lemma unparsable_in_schedule_group :
  let T := sampleTask "errand" "someday" in
  @Date_parse sampleHost "someday" = None /\
  exists g,
    @renderScheduleView sampleHost [T] 0 = Ok [g] /\
    dateStr g = "someday"%string /\ In T (groupTasks g).
Proof.
  cbv zeta. split; [reflexivity|].
  eexists. split; [vm_compute; reflexivity|]. split; [reflexivity|].
  left. reflexivity.
Qed.

(** The example of C3 on the sample host, and a collection that meets the
    conditions of the general part. *)
Lemma schedule_grouping_order_witness :
  let a := sampleTask "a" "2024-05-10T09:00" in
  let b := sampleTask "b" "2024-05-09T23:00" in
  let c := sampleTask "c" "2024-05-10T01:00" in
  (Z.abs (@tza sampleHost) <= Time.msPerDay /\
   (forall t, In t [a; b; c] -> truthy (dueDate t) = true ->
      @timeOf sampleHost t <> None /\ arrayIndex (keyOf t) = None /\
      inherited (keyOf t) = false) /\
   dueDate a = Some "2024-05-10T09:00"%string /\
   dueDate b = Some "2024-05-09T23:00"%string /\
   dueDate c = Some "2024-05-10T01:00"%string) /\
  Permutation (@sortedTasks sampleHost [a; b; c]) [a; b; c] /\
  exists g1 g2,
    @renderScheduleView sampleHost [a; b; c] 0 = Ok [g1; g2] /\
    groupTasks g1 = [b] /\ groupTasks g2 = [c; a].
Proof.
  cbv zeta.
  set (a := sampleTask "a" "2024-05-10T09:00").
  set (b := sampleTask "b" "2024-05-09T23:00").
  set (c := sampleTask "c" "2024-05-10T01:00").
  assert (H : forall t, In t [a; b; c] -> truthy (dueDate t) = true ->
            @timeOf sampleHost t <> None /\ arrayIndex (keyOf t) = None /\
            inherited (keyOf t) = false).
  { intros t [<-|[<-|[<-|[]]]] _; (split; [discriminate | split; reflexivity]). }
  split; [split; [exact sampleHost_bound | split; [exact H | repeat split]]|].
  destruct (@schedule_grouping_order sampleHost sampleHost_bound 0) as [G E].
  split.
  - destruct (G [a; b; c] H) as (P & _). exact P.
  - destruct (E a b c eq_refl eq_refl eq_refl) as (g1 & g2 & R & _ & T1 & _ & T2).
    exists g1, g2. repeat split; assumption.
Defined.

(** C3, as stated, fails on its own example: within the group 2024-05-10
    the task due at 01:00 comes before the task due at 09:00, although the
    input has them the other way round. *)
Lemma schedule_example_not_input_order :
  let a := sampleTask "a" "2024-05-10T09:00" in
  let b := sampleTask "b" "2024-05-09T23:00" in
  let c := sampleTask "c" "2024-05-10T01:00" in
  ~ (exists g1 g2,
       @renderScheduleView sampleHost [a; b; c] 0 = Ok [g1; g2] /\
       dateStr g1 = "2024-05-09"%string /\ groupTasks g1 = [b] /\
       dateStr g2 = "2024-05-10"%string /\ groupTasks g2 = [a; c]).
Proof.
  cbv zeta. intros (g1 & g2 & R & _ & _ & _ & T2).
  vm_compute in R. injection R as <- <-. cbn [groupTasks] in T2. discriminate T2.
Qed.

(** Why the general part of C3 excludes array-index keys: "2024" parses (to
    January 1, 2024, UTC) and sorts after "2023-06-01", but [Object.keys]
    lists the array index first. *)
Lemma schedule_array_index_key_first :
  let a := sampleTask "a" "2023-06-01" in
  let b := sampleTask "b" "2024" in
  @sortedTasks sampleHost [a; b] = [a; b] /\
  exists g1 g2,
    @renderScheduleView sampleHost [a; b] 0 = Ok [g1; g2] /\
    dateStr g1 = "2024"%string /\ dateStr g2 = "2023-06-01"%string.
Proof.
  cbv zeta. split; [vm_compute; reflexivity|].
  do 2 eexists. split; [vm_compute; reflexivity|]. split; reflexivity.
Qed.

(** What C4 (amended) leaves out: a due date whose key is a name inherited
    from [Object.prototype] makes the Schedule view throw. *)
Lemma schedule_throws_on_inherited_key :
  @renderScheduleView sampleHost [sampleTask "errand" "constructor"] 0 = Throw TypeError.
Proof. vm_compute. reflexivity. Qed.

(** UTC+05:30, January 2024, a task that the form saved for 2024-01-15:
    the cell of day 15 lists no task, and the Schedule view shows the task
    under January 15. *)
Lemma month_cell_bucket_key_witness :
  let T := sampleTask "a" "2024-01-15T00:00:00.000Z" in
  let s := {| currentDate := Some sampleNoon; viewMode := Month |} in
  (Z.abs (@tza sampleHost) <= Time.msPerDay /\
   currentDate s = Some sampleNoon /\
   100 <= Time.YearFromTime (@LocalTime sampleHost sampleNoon) <= 9999 /\
   0 < @tza sampleHost /\
   2 <= 15 <= Time.daysInMonthOf (Time.YearFromTime (@LocalTime sampleHost sampleNoon))
                                 (Time.MonthFromTime (@LocalTime sampleHost sampleNoon)) /\
   dueDate T = Some "2024-01-15T00:00:00.000Z"%string /\
   Str.splitHead "T" "2024-01-15T00:00:00.000Z" = dateKey 2024 1 15) /\
  (exists cells date isToday,
     @renderMonthView sampleHost [T] 0 s = Ok cells /\
     In (DayCell 15 date isToday []) cells) /\
  (exists g,
     @renderScheduleView sampleHost [T] 0 = Ok [g] /\
     In T (groupTasks g) /\ @getDate sampleHost (displayDate g) = Some 15).
Proof.
  cbv zeta.
  assert (H1 : currentDate {| currentDate := Some sampleNoon; viewMode := Month |}
               = Some sampleNoon) by reflexivity.
  assert (H2 : 100 <= Time.YearFromTime (@LocalTime sampleHost sampleNoon) <= 9999)
    by (change (Time.YearFromTime (@LocalTime sampleHost sampleNoon)) with 2024; lia).
  assert (H3 : 0 < @tza sampleHost) by (cbn; lia).
  assert (H4 : 2 <= 15 <= Time.daysInMonthOf
                           (Time.YearFromTime (@LocalTime sampleHost sampleNoon))
                           (Time.MonthFromTime (@LocalTime sampleHost sampleNoon)))
    by (change (Time.daysInMonthOf
                  (Time.YearFromTime (@LocalTime sampleHost sampleNoon))
                  (Time.MonthFromTime (@LocalTime sampleHost sampleNoon))) with 31; lia).
  assert (H5 : dueDate (sampleTask "a" "2024-01-15T00:00:00.000Z")
               = Some "2024-01-15T00:00:00.000Z"%string) by reflexivity.
  assert (H7 : Str.splitHead "T" "2024-01-15T00:00:00.000Z" = dateKey 2024 1 15)
    by reflexivity.
  assert (H6 : - Time.msPerDay < @tza sampleHost) by (unfold Time.msPerDay; cbn; lia).
  split; [repeat split; try assumption; try apply H2; try apply H4; exact sampleHost_bound|].
  destruct (@month_cell_bucket_key sampleHost sampleHost_bound
              [sampleTask "a" "2024-01-15T00:00:00.000Z"] 0 _ sampleNoon 15 H1 H2 H6 H4)
    as (cells & R & (date & isToday & I & _) & _ & East).
  split.
  - exists cells, date, isToday. split; [exact R | exact I].
  - destruct (East H3 (sampleTask "a" "2024-01-15T00:00:00.000Z") _ (or_introl eq_refl)
                H5 H7) as [_ Sched].
    eexists. split; [vm_compute; reflexivity|].
    match goal with
    | |- In _ (groupTasks ?g) /\ _ =>
        destruct (Sched [g]) as (g' & Hg & _ & IT & _ & _ & GD); [vm_compute; reflexivity|];
        destruct Hg as [<-|[]]; split; [exact IT | exact GD]
    end.
Defined.

(** On the sample host, east of UTC, the Month view of May 2024 shows a task
    due "2024-05-10T00:00:00.000Z" in the cell of day 11, while the Schedule
    view shows it under the key "2024-05-10", displayed as May 10. *)
Lemma sample_cell_one_day_late :
  let T := sampleTask "report" "2024-05-10T00:00:00.000Z" in
  @getTasksForDate sampleHost [T] (@Date_ymd sampleHost (Some 2024) (Some 4) (Some 10)) = Ok [] /\
  @getTasksForDate sampleHost [T] (@Date_ymd sampleHost (Some 2024) (Some 4) (Some 11)) = Ok [T] /\
  exists g,
    @renderScheduleView sampleHost [T] 0 = Ok [g] /\
    dateStr g = "2024-05-10"%string /\
    @getMonth sampleHost (displayDate g) = Some 4 /\
    @getDate sampleHost (displayDate g) = Some 10.
Proof.
  cbv zeta. split; [vm_compute; reflexivity|]. split; [vm_compute; reflexivity|].
  eexists. split; [vm_compute; reflexivity|]. repeat split; vm_compute; reflexivity.
Qed.

(** ** The rest of the application *)

(** A task is created with the id "b" and deleted again. *)
Lemma add_then_delete_witness :
  let prev := [sampleTask "a" "2024-01-16"] in
  let newTask :=
    {| p_id := None; p_title := Some "Buy milk"%string; p_description := None;
       p_dueDate := None; p_startTime := None; p_endTime := None;
       p_priority := None; p_status := None; p_category := Some "Work"%string;
       p_tags := None; p_recurrence := None; p_createdAt := None |} in
  ~ In "b"%string (map id prev) /\
  exists tasks',
    handleAddTask [] "b" 0 newTask prev = Ok tasks' /\
    handleDeleteTask "b" tasks' = prev.
Proof.
  cbv zeta.
  assert (F : ~ In "b"%string (map id [sampleTask "a" "2024-01-16"]))
    by (cbn; intros [H|[]]; discriminate H).
  split; [exact F|]. eexists. split; [reflexivity|].
  apply (add_then_delete [] "b" 0
           {| p_id := None; p_title := Some "Buy milk"%string; p_description := None;
              p_dueDate := None; p_startTime := None; p_endTime := None;
              p_priority := None; p_status := None; p_category := Some "Work"%string;
              p_tags := None; p_recurrence := None; p_createdAt := None |} _ _ F).
  reflexivity.
Defined.

Lemma handlers_keep_ids_distinct_witness :
  let tasks := [sampleTask "a" "2024-01-16"; sampleTask "b" "2024-01-17"] in
  NoDup (map id tasks) /\
  NoDup (map id (handleToggleComplete "a" tasks)) /\
  NoDup (map id (fst (onDrop (Some (sampleTask "a" "2024-01-16")) 1 tasks))).
Proof.
  cbv zeta.
  assert (N : NoDup (map id [sampleTask "a" "2024-01-16"; sampleTask "b" "2024-01-17"])).
  { cbn. constructor; [intros [H|[]]; discriminate H|].
    constructor; [intros [] | constructor]. }
  split; [exact N|].
  destruct (handlers_keep_ids_distinct _ N) as (_ & _ & T & _ & _ & D).
  split; [apply T | apply D; lia].
Defined.

(** Task "b" is replaced where it is. *)
Lemma handleUpdateTask_in_place_witness :
  let a := sampleTask "a" "2024-01-16" in
  let b := sampleTask "b" "2024-01-17" in
  let u := withStatus b DONE in
  NoDup (map id [a; b]) /\ handleUpdateTask u [a; b] = [a; u].
Proof.
  cbv zeta.
  assert (N : NoDup (map id [sampleTask "a" "2024-01-16"; sampleTask "b" "2024-01-17"])).
  { cbn. constructor; [intros [H|[]]; discriminate H|].
    constructor; [intros [] | constructor]. }
  split; [exact N|].
  destruct (handleUpdateTask_in_place (withStatus (sampleTask "b" "2024-01-17") DONE) _ N)
    as [P _].
  apply (P [sampleTask "a" "2024-01-16"] (sampleTask "b" "2024-01-17") []); reflexivity.
Defined.

(** The first of three tasks is dropped on the last place. *)
Lemma onDrop_moves_witness :
  let a := sampleTask "a" "2024-01-16" in
  let b := sampleTask "b" "2024-01-17" in
  let c := sampleTask "c" "2024-01-18" in
  (forall t : Task, In t [] -> id t <> id a) /\ 0 <= 2 /\
  onDrop (Some a) 2 [a; b; c] = ([b; c; a], None).
Proof.
  cbv zeta.
  assert (H1 : forall t : Task, In t [] -> id t <> id (sampleTask "a" "2024-01-16"))
    by (intros t []).
  assert (H2 : 0 <= 2) by lia.
  split; [exact H1|]. split; [exact H2|].
  destruct (onDrop_moves (sampleTask "a" "2024-01-16") 2 []
              [sampleTask "b" "2024-01-17"; sampleTask "c" "2024-01-18"] H1 H2) as (E & _).
  exact E.
Defined.

(** A task that is no longer in the collection is dropped on the first
    place: task "b", the last one, is lost. *)
Lemma onDrop_absent_witness :
  let a := sampleTask "a" "2024-01-16" in
  let b := sampleTask "b" "2024-01-17" in
  let z := sampleTask "z" "2024-01-18" in
  (forall t, In t [a; b] -> id t <> id z) /\ 0 <= 0 /\
  onDrop (Some z) 0 [a; b] = ([z; a], None).
Proof.
  cbv zeta.
  assert (H1 : forall t, In t [sampleTask "a" "2024-01-16"; sampleTask "b" "2024-01-17"] ->
                         id t <> id (sampleTask "z" "2024-01-18"))
    by (intros t [<-|[<-|[]]]; discriminate).
  assert (H2 : 0 <= 0) by lia.
  split; [exact H1|]. split; [exact H2|].
  exact (onDrop_absent (sampleTask "z" "2024-01-18") 0 _ H1 H2).
Defined.


(** The cell of 2024-01-15 (noon, UTC+05:30): the form gets "2024-01-15"
    and the task is due at the UTC midnight of that date. *)
Lemma create_from_cell_witness :
  (Z.abs sampleNoon <= Time.maxTime /\ blank "Buy milk" = false) /\
  exists form1 newTask,
    @openTaskModal sampleHost INITIAL_CATEGORIES None (Some (Some sampleNoon)) initialTaskForm
      = (form1, None) /\
    formDueDate form1 = "2024-01-15"%string /\
    dueDate newTask = Some "2024-01-15T00:00:00.000Z"%string /\
    @getTasksForDate sampleHost [newTask] (Some sampleNoon) = Ok [newTask].
Proof.
  assert (R : Z.abs sampleNoon <= Time.maxTime)
    by (unfold sampleNoon, Time.maxTime; lia).
  assert (B : blank "Buy milk" = false) by reflexivity.
  split; [split; assumption|].
  destruct (@create_from_cell sampleHost INITIAL_CATEGORIES "b" 0 [] initialTaskForm
              sampleNoon "Buy milk" R B)
    as (form1 & newTask & O & _ & F & _ & _ & _ & _ & D & G).
  exists form1, newTask. split; [exact O|]. split; [exact F|]. split; [exact D | exact G].
Defined.

(** A task due "2024-05-10T01:00" (local time, UTC+05:30) is shown in the
    form, and saved, with the date 2024-05-09. *)
Lemma edit_and_save_witness :
  let task := sampleTask "a" "2024-05-10T01:00" in
  (dueDate task = Some "2024-05-10T01:00"%string /\
   "2024-05-10T01:00"%string <> EmptyString /\
   @Date_parse sampleHost "2024-05-10T01:00" = Some 1715283000000 /\
   blank (title task) = false) /\
  exists form1,
    @openTaskModal sampleHost INITIAL_CATEGORIES (Some task) None initialTaskForm
      = (form1, None) /\
    formDueDate form1 = "2024-05-09"%string.
Proof.
  cbv zeta.
  assert (H1 : dueDate (sampleTask "a" "2024-05-10T01:00") = Some "2024-05-10T01:00"%string)
    by reflexivity.
  assert (H2 : "2024-05-10T01:00"%string <> EmptyString) by discriminate.
  assert (H3 : @Date_parse sampleHost "2024-05-10T01:00" = Some 1715283000000)
    by reflexivity.
  assert (H4 : blank (title (sampleTask "a" "2024-05-10T01:00")) = false) by reflexivity.
  split; [repeat split; assumption|].
  destruct (@edit_and_save sampleHost INITIAL_CATEGORIES "b" 0 [] initialTaskForm
              _ _ _ H1 H2 H3 H4) as (form1 & O & _ & F & _).
  exists form1. split; [exact O | exact F].
Defined.

(** The task due "someday" cannot be opened. *)
Lemma edit_unparsable_throws_witness :
  let task := sampleTask "errand" "someday" in
  (dueDate task = Some "someday"%string /\ "someday"%string <> EmptyString /\
   @Date_parse sampleHost "someday" = None) /\
  exists form1,
    @openTaskModal sampleHost INITIAL_CATEGORIES (Some task) None initialTaskForm
      = (form1, Some RangeError) /\
    isModalOpen form1 = false.
Proof.
  cbv zeta.
  assert (H1 : dueDate (sampleTask "errand" "someday") = Some "someday"%string)
    by reflexivity.
  assert (H2 : "someday"%string <> EmptyString) by discriminate.
  assert (H3 : @Date_parse sampleHost "someday" = None) by reflexivity.
  split; [repeat split; assumption|].
  destruct (@edit_unparsable_throws sampleHost INITIAL_CATEGORIES initialTaskForm
              _ _ H1 H2 H3) as (form1 & O & M & _).
  exists form1. split; [exact O | exact M].
Defined.

(** From 2024-01-15 the Week view goes to 2024-01-22 and back. *)
Lemma navigate_day_week_witness :
  let s := {| currentDate := Some sampleNoon; viewMode := Week |} in
  (currentDate s = Some sampleNoon /\ (viewMode s = Day \/ viewMode s = Week) /\
   Z.abs sampleNoon <= Time.maxTime - 7 * Time.msPerDay) /\
  currentDate (@navigate sampleHost next s) = Some (sampleNoon + 7 * Time.msPerDay) /\
  @navigate sampleHost prev (@navigate sampleHost next s) = s.
Proof.
  cbv zeta.
  assert (H1 : currentDate {| currentDate := Some sampleNoon; viewMode := Week |}
               = Some sampleNoon) by reflexivity.
  assert (H2 : viewMode {| currentDate := Some sampleNoon; viewMode := Week |} = Day \/
               viewMode {| currentDate := Some sampleNoon; viewMode := Week |} = Week)
    by (right; reflexivity).
  assert (H3 : Z.abs sampleNoon <= Time.maxTime - 7 * Time.msPerDay)
    by (unfold sampleNoon, Time.maxTime, Time.msPerDay; lia).
  split; [repeat split; assumption|].
  destruct (@navigate_day_week sampleHost next _ _ H1 H2 H3) as (C & _ & _ & B).
  split; [exact C | exact B].
Defined.

(** From 2024-01-15 the Month view goes back to 2023-12-15. *)
Lemma navigate_month_keeps_day_witness :
  let s := {| currentDate := Some sampleNoon; viewMode := Month |} in
  (Z.abs (@tza sampleHost) <= Time.msPerDay /\
   (viewMode s = Month \/ viewMode s = Schedule) /\
   currentDate s = Some sampleNoon /\
   @LocalTime sampleHost sampleNoon = Time.MakeDate (Time.MakeDay 2024 0 15) 43200000) /\
  exists u',
    currentDate (@navigate sampleHost prev s) = Some u' /\
    @getFullYear sampleHost (Some u') = Some 2023 /\
    @getMonth sampleHost (Some u') = Some 11 /\
    @getDate sampleHost (Some u') = Some 15.
Proof.
  cbv zeta.
  assert (H1 : viewMode {| currentDate := Some sampleNoon; viewMode := Month |} = Month \/
               viewMode {| currentDate := Some sampleNoon; viewMode := Month |} = Schedule)
    by (left; reflexivity).
  assert (H2 : currentDate {| currentDate := Some sampleNoon; viewMode := Month |}
               = Some sampleNoon) by reflexivity.
  assert (H3 : @LocalTime sampleHost sampleNoon
               = Time.MakeDate (Time.MakeDay 2024 0 15) 43200000) by reflexivity.
  split; [repeat split; try assumption; exact sampleHost_bound|].
  destruct (@navigate_month_keeps_day sampleHost sampleHost_bound prev _ _ 2024 0 15
              43200000 H1 H2 H3)
    as (u' & C & _ & Y & M & D & _); try lia.
  - unfold Time.msPerDay. lia.
  - exists u'. repeat split; assumption.
Defined.

(** From 29 February 2024 the Year view goes to 1 March 2025. *)
Lemma navigate_year_witness :
  let u := @localMidnight sampleHost 2024 1 29 in
  let s := {| currentDate := Some u; viewMode := Year |} in
  (Z.abs (@tza sampleHost) <= Time.msPerDay /\
   @LocalTime sampleHost u = Time.MakeDate (Time.MakeDay 2024 1 29) 0 /\
   1 <= 29 <= Time.daysInMonthOf 2024 1) /\
  exists u',
    currentDate (@navigate sampleHost next s) = Some u' /\
    @getFullYear sampleHost (Some u') = Some 2025 /\
    @getMonth sampleHost (Some u') = Some 2 /\
    @getDate sampleHost (Some u') = Some 1.
Proof.
  cbv zeta.
  assert (H1 : @LocalTime sampleHost (@localMidnight sampleHost 2024 1 29)
               = Time.MakeDate (Time.MakeDay 2024 1 29) 0) by reflexivity.
  assert (H2 : 1 <= 29 <= Time.daysInMonthOf 2024 1) by day_range.
  split; [repeat split; try assumption; try exact sampleHost_bound; apply H2|].
  destruct (@navigate_year sampleHost sampleHost_bound next
              {| currentDate := Some (@localMidnight sampleHost 2024 1 29); viewMode := Year |}
              _ 2024 1 29 0 eq_refl eq_refl H1)
    as (u' & C & Y & _ & F); try lia; try exact H2.
  - unfold Time.msPerDay. lia.
  - destruct (F eq_refl eq_refl) as [M D].
    exists u'. repeat split; assumption.
Defined.

(** On 2024-01-15 the Month view of January 2024 marks day 15. *)
Lemma month_view_today_witness :
  let s := {| currentDate := Some sampleNoon; viewMode := Month |} in
  (Z.abs (@tza sampleHost) <= Time.msPerDay /\
   currentDate s = Some sampleNoon /\
   plainYear (Time.YearFromTime (@LocalTime sampleHost sampleNoon))) /\
  exists cells date daysTasks,
    @renderMonthView sampleHost [] sampleNoon s = Ok cells /\
    In (DayCell 15 date true daysTasks) cells.
Proof.
  cbv zeta.
  assert (H1 : currentDate {| currentDate := Some sampleNoon; viewMode := Month |}
               = Some sampleNoon) by reflexivity.
  split; [split; [exact sampleHost_bound | split; [exact H1 | exact sampleNoon_year]]|].
  destruct (@month_view_today sampleHost sampleHost_bound [] sampleNoon _ _ H1 sampleNoon_year)
    as (cells & R & _ & T).
  destruct (T eq_refl eq_refl) as (date & daysTasks & I).
  exists cells, date, daysTasks. split; [exact R | exact I].
Defined.

(** At noon of 2024-01-15 the group of 2024-01-10 is past. *)
Lemma schedule_past_and_today_witness :
  let tasks := [sampleTask "a" "2024-01-10"] in
  (Z.abs (@tza sampleHost) <= Time.msPerDay /\
   dateKey 2024 1 10 = "2024-01-10"%string /\
   1 <= 10 <= Time.daysInMonthOf 2024 (1 - 1) /\
   Z.abs sampleNoon <= Time.maxTime - 2 * Time.msPerDay) /\
  exists g,
    @renderScheduleView sampleHost tasks sampleNoon = Ok [g] /\
    dateStr g = "2024-01-10"%string /\ isPast g = true /\ isTodayBadge g = false.
Proof.
  cbv zeta.
  assert (H1 : 1 <= 10 <= Time.daysInMonthOf 2024 (1 - 1)) by day_range.
  assert (H2 : Z.abs sampleNoon <= Time.maxTime - 2 * Time.msPerDay)
    by (unfold sampleNoon, Time.maxTime, Time.msPerDay; lia).
  split; [split; [exact sampleHost_bound | split; [reflexivity | split; assumption]]|].
  eexists. split; [vm_compute; reflexivity|].
  split; [reflexivity|].
  match goal with
  | |- isPast ?g = true /\ _ =>
      destruct (@schedule_past_and_today sampleHost sampleHost_bound
                  [sampleTask "a" "2024-01-10"] sampleNoon [g] g 2024 1 10)
        as [P T]; try lia; try exact H1; try exact H2;
        [vm_compute; reflexivity | left; reflexivity | reflexivity |]
  end.
  split.
  - apply P. vm_compute. reflexivity.
  - reflexivity.
Defined.

(** 2024-01-15 is a Monday: the second column of its week. *)
Lemma week_view_contains_anchor_witness :
  let s := {| currentDate := Some sampleNoon; viewMode := Week |} in
  (currentDate s = Some sampleNoon /\
   Z.abs sampleNoon <= Time.maxTime - 7 * Time.msPerDay) /\
  exists columns column,
    @renderWeekView sampleHost [] 0 s = Ok columns /\
    nth_error columns 1 = Some column /\ week_date column = Some sampleNoon.
Proof.
  cbv zeta.
  assert (H1 : currentDate {| currentDate := Some sampleNoon; viewMode := Week |}
               = Some sampleNoon) by reflexivity.
  assert (H2 : Z.abs sampleNoon <= Time.maxTime - 7 * Time.msPerDay)
    by (unfold sampleNoon, Time.maxTime, Time.msPerDay; lia).
  split; [split; assumption|].
  destruct (@week_view_contains_anchor sampleHost [] 0 _ _ H1 H2)
    as (columns & dayView & column & R & _ & N & D & _).
  exists columns, column. split; [exact R|]. split; [exact N | exact D].
Defined.

(** The first month of the Year view of 2024 is the Month view of January
    2024. *)
Lemma year_grid_matches_month_grid_witness :
  let s := {| currentDate := Some sampleNoon; viewMode := Year |} in
  (Z.abs (@tza sampleHost) <= Time.msPerDay /\
   currentDate s = Some sampleNoon /\
   plainYear (Time.YearFromTime (@LocalTime sampleHost sampleNoon))) /\
  exists cells months,
    @renderMonthView sampleHost [] 0 s = Ok cells /\
    @renderYearView sampleHost [] 0 s = Ok months /\
    nth_error months 0 = Some (map toMini cells).
Proof.
  cbv zeta.
  assert (H1 : currentDate {| currentDate := Some sampleNoon; viewMode := Year |}
               = Some sampleNoon) by reflexivity.
  split; [split; [exact sampleHost_bound | split; [exact H1 | exact sampleNoon_year]]|].
  destruct (@year_grid_matches_month_grid sampleHost sampleHost_bound [] 0 _ _ H1
              sampleNoon_year) as (cells & months & R & Y & _ & N).
  exists cells, months. split; [exact R|]. split; [exact Y | exact N].
Defined.

(** At noon of 2024-01-15 a task that the form saved for 2024-01-15 is
    shown as overdue. *)
Lemma overdue_from_utc_midnight_witness :
  let task := sampleTask "a" "2024-01-15T00:00:00.000Z" in
  (Z.abs sampleNoon <= Time.maxTime /\
   dueDate task = Some (isoDateString sampleNoon ++ "T00:00:00.000Z")%string) /\
  @isOverdue sampleHost sampleNoon task = true.
Proof.
  cbv zeta.
  assert (R : Z.abs sampleNoon <= Time.maxTime)
    by (unfold sampleNoon, Time.maxTime; lia).
  assert (D : dueDate (sampleTask "a" "2024-01-15T00:00:00.000Z")
              = Some (isoDateString sampleNoon ++ "T00:00:00.000Z")%string)
    by reflexivity.
  split; [split; assumption|].
  destruct (@overdue_from_utc_midnight sampleHost sampleNoon sampleNoon _ R D) as [_ O].
  apply O; [discriminate | vm_compute; discriminate].
Defined.

(** At noon of 2024-01-15, UTC+05:30: the Day view lists the task due
    2024-01-15 and the Month view's cell of day 15 the task due 2024-01-14. *)
Lemma day_view_and_month_cell_east_witness :
  let a := sampleTask "a" "2024-01-15" in
  let b := sampleTask "b" "2024-01-14" in
  let s := {| currentDate := Some sampleNoon; viewMode := Month |} in
  (Z.abs (@tza sampleHost) <= Time.msPerDay /\ 0 < @tza sampleHost /\
   currentDate s = Some sampleNoon /\
   @LocalTime sampleHost sampleNoon = Time.MakeDate (Time.MakeDay 2024 0 15) 43200000 /\
   2 <= 15 <= Time.daysInMonthOf 2024 0 /\
   @tza sampleHost <= 43200000 < Time.msPerDay) /\
  exists dayView cells date isToday,
    @renderDayView sampleHost [a; b] 0 s = Ok dayView /\
    @renderMonthView sampleHost [a; b] 0 s = Ok cells /\
    tasksForDay dayView = [a] /\
    In (DayCell 15 date isToday [b]) cells.
Proof.
  cbv zeta.
  assert (H0 : 0 < @tza sampleHost) by (cbn; lia).
  assert (H1 : currentDate {| currentDate := Some sampleNoon; viewMode := Month |}
               = Some sampleNoon) by reflexivity.
  assert (H2 : @LocalTime sampleHost sampleNoon
               = Time.MakeDate (Time.MakeDay 2024 0 15) 43200000) by reflexivity.
  assert (H3 : 2 <= 15 <= Time.daysInMonthOf 2024 0) by day_range.
  assert (H4 : @tza sampleHost <= 43200000 < Time.msPerDay)
    by (unfold Time.msPerDay; cbn; lia).
  split; [repeat split; try assumption; try exact sampleHost_bound; try apply H3; apply H4|].
  destruct (@day_view_and_month_cell_east sampleHost sampleHost_bound
              [sampleTask "a" "2024-01-15"; sampleTask "b" "2024-01-14"] 0 _ _ 2024 0 15
              43200000 H0 H1 H2)
    as (dayView & cells & date & isToday & daysTasks & RD & RM & I & TD & TC & _);
    try lia; try exact H3; try exact H4.
  exists dayView, cells, date, isToday.
  split; [exact RD|]. split; [exact RM|]. split; [exact TD|].
  rewrite TC in I. exact I.
Defined.
